(** * Ramadan meal recommender: a shallow embedding of [app.py]

    The development follows [app.py]: the two data functions
    [prepare_for_app] (lines 88-131), which turns the raw CSV frame into the
    prepared table, and [recommend] (lines 186-223), which filters, scores,
    sorts and diversifies that table; then [load_raw], the session, the
    logging to the sheet and the request of the recommendation page.

    Numbers are IEEE-754 binary64 values, as in the [float64] columns pandas
    builds for the dataset; they are modelled with the executable
    specification [spec_float] of the standard library at precision 53 and
    maximal exponent 1024, so NaN, signed zeros, infinities and rounding are
    those of the running program.  Python integers ([calories_max],
    [protein_min], [sodium_max], [top_n]) are [Z]; where the program mixes
    an integer with a float column, the integer is converted with [of_int]
    (round to nearest even), as numpy does; an integer too large for
    binary64 makes that conversion fail (see [recommend_checked]).

    Texts are the bytes of their UTF-8 encoding.  [strip] removes the white
    space of Unicode, as [str.strip] does; [lower] is the ASCII mapping on
    ASCII text and is left open on other text (see [Unicode]). *)

From Stdlib Require Import ZArith List String Ascii Bool Lia.
From Stdlib Require Import Sorted Permutation.
From Stdlib Require Import Floats.SpecFloat.
Import ListNotations.

Local Open Scope string_scope.
Local Open Scope Z_scope.

(* ------------------------------------------------------------------ *)
(** ** binary64 arithmetic *)
(* ------------------------------------------------------------------ *)

Module Float64.

Definition prec : Z := 53.
Definition emax : Z := 1024.

Definition float64 : Type := spec_float.

Definition nan : float64 := S754_nan.

(** Conversion of a Python [int] to [float64]. *)
Definition of_int (n : Z) : float64 := binary_normalize prec emax n 0 false.

Definition add (x y : float64) : float64 := SFadd prec emax x y.
Definition sub (x y : float64) : float64 := SFsub prec emax x y.
Definition mul (x y : float64) : float64 := SFmul prec emax x y.
Definition div (x y : float64) : float64 := SFdiv prec emax x y.
Definition abs (x : float64) : float64 := SFabs x.

(** [x <= y] and [x >= y] on floats: false as soon as one side is NaN. *)
Definition le (x y : float64) : bool := SFleb x y.
Definition ge (x y : float64) : bool := SFleb y x.
Definition lt (x y : float64) : bool := SFltb x y.

(** [pd.isna] on a float. *)
Definition isna (x : float64) : bool :=
  match x with S754_nan => true | _ => false end.

Definition is_finite (x : float64) : bool :=
  match x with S754_zero _ | S754_finite _ _ _ => true | _ => false end.

(** The decimal literals of the program, as the nearest binary64 values:
    [0.6 = 0x1.3333333333333p-1], [0.8 = 0x1.999999999999ap-1],
    [0.05 = 0x1.999999999999ap-5], [1.0 = 0x1p0]. *)
Definition lit_0_6 : float64 := S754_finite false 5404319552844595 (-53).
Definition lit_0_8 : float64 := S754_finite false 7205759403792794 (-53).
Definition lit_0_05 : float64 := S754_finite false 7205759403792794 (-57).
Definition lit_1_0 : float64 := S754_finite false 4503599627370496 (-52).

End Float64.

Import Float64.

(* ------------------------------------------------------------------ *)
(** ** pandas primitives used by the program *)
(* ------------------------------------------------------------------ *)

Module Pandas.

(** [DataFrame.head(n)]: the first [n] rows, or all but the last [-n] rows
    when [n] is negative. *)
Definition head {A : Type} (l : list A) (n : Z) : list A :=
  if 0 <=? n then firstn (Z.to_nat n) l
  else firstn (List.length l - Z.to_nat (- n)) l.

(** [Series.between(left, right)], both ends included. *)
Definition between (x : float64) (left right : Z) : bool :=
  ge x (of_int left) && le x (of_int right).

(** [Series.clip(lower, upper)] on one value: a NaN stays a NaN. *)
Definition clip (x : float64) (lower upper : Z) : float64 :=
  let r := if isna x || ge x (of_int lower) then x else of_int lower in
  if isna x || le x (of_int upper) then r else of_int upper.

(** Sorting.  [sort_values] uses numpy's quicksort by default, which fixes
    the order of the result only up to the order of rows with equal keys;
    the model is a stable insertion sort, which keeps such rows in frame
    order.  [before x y] says that [x] may stand in front of [y].  No
    property below depends on how ties are ordered. *)
Fixpoint insert {A : Type} (before : A -> A -> bool) (x : A) (l : list A)
  : list A :=
  match l with
  | [] => [x]
  | y :: l' => if before x y then x :: l else y :: insert before x l'
  end.

Fixpoint sort {A : Type} (before : A -> A -> bool) (l : list A) : list A :=
  match l with
  | [] => []
  | x :: l' => insert before x (sort before l')
  end.

(** Descending order on floats with NaN last, the order of
    [sort_values(ascending=False)] (its default [na_position] is "last"). *)
Definition desc_nan_last (x y : float64) : bool :=
  isna y || ge x y.

End Pandas.

Import Pandas.

(* ------------------------------------------------------------------ *)
(** ** Exceptions *)
(* ------------------------------------------------------------------ *)

(** The exceptions raised by the program or, inside a call of pandas or
    numpy, on its behalf. *)
Inductive Exn : Type :=
  | ValueError (msg : string)
  | TypeError (msg : string)
  | AttributeError (msg : string)
  | OverflowError (msg : string).

Inductive Result (A : Type) : Type :=
  | Ok (a : A)
  | Raise (e : Exn).

Arguments Ok {A} a.
Arguments Raise {A} e.

(* ------------------------------------------------------------------ *)
(** ** Python string methods *)
(* ------------------------------------------------------------------ *)

(** A [str] is held as the bytes of its UTF-8 encoding.  [str.strip] and
    pandas' [.str.strip] remove, at both ends, the characters for which
    [str.isspace] holds: the code points 9-13 and 28-32, U+0085, U+00A0,
    U+1680, U+2000 to U+200A, U+2028, U+2029, U+202F, U+205F and U+3000.
    [white_space] lists their encodings, of one, two or three bytes. *)
Definition utf8 (bytes : list nat) : list ascii := map ascii_of_nat bytes.

Definition white_space : list (list ascii) :=
  Eval vm_compute in
  map utf8
    [[9]; [10]; [11]; [12]; [13]; [28]; [29]; [30]; [31]; [32];
     [194; 133]; [194; 160];
     [225; 154; 128];
     [226; 128; 128]; [226; 128; 129]; [226; 128; 130]; [226; 128; 131];
     [226; 128; 132]; [226; 128; 133]; [226; 128; 134]; [226; 128; 135];
     [226; 128; 136]; [226; 128; 137]; [226; 128; 138];
     [226; 128; 168]; [226; 128; 169]; [226; 128; 175];
     [226; 129; 159];
     [227; 128; 128]]%nat.

(** [l] without the prefix [w], when [l] starts with [w]. *)
Fixpoint strip_prefix (w l : list ascii) : option (list ascii) :=
  match w, l with
  | [], _ => Some l
  | c :: w', d :: l' => if Ascii.eqb c d then strip_prefix w' l' else None
  | _ :: _, [] => None
  end.

(** [l] without its first character, when that character is one of
    [spaces]. *)
Fixpoint skip_space (spaces : list (list ascii)) (l : list ascii)
  : option (list ascii) :=
  match spaces with
  | [] => None
  | w :: spaces' =>
    match strip_prefix w l with
    | Some l' => Some l'
    | None => skip_space spaces' l
    end
  end.

(** [l] without the white space it starts with.  [fuel] bounds the number
    of characters removed; the length of [l] is enough (see
    [drop_spaces_done] below). *)
Fixpoint drop_spaces (spaces : list (list ascii)) (fuel : nat)
  (l : list ascii) : list ascii :=
  match fuel with
  | O => l
  | S fuel' =>
    match skip_space spaces l with
    | Some l' => drop_spaces spaces fuel' l'
    | None => l
    end
  end.

Definition lstrip_chars (l : list ascii) : list ascii :=
  drop_spaces white_space (List.length l) l.

(** The white space at the end is the white space at the front of the
    reversed text, each character read backwards. *)
Definition rstrip_chars (l : list ascii) : list ascii :=
  rev (drop_spaces (map (@rev ascii) white_space) (List.length l) (rev l)).

Definition strip_chars (l : list ascii) : list ascii :=
  rstrip_chars (lstrip_chars l).

Definition strip (s : string) : string :=
  string_of_list_ascii (strip_chars (list_ascii_of_string s)).

(** [str.lower] on ASCII text maps [A-Z] to [a-z]. *)
Definition lower_char (c : ascii) : ascii :=
  let n := nat_of_ascii c in
  if ((65 <=? n) && (n <=? 90))%nat then ascii_of_nat (n + 32) else c.

Fixpoint lower_ascii (s : string) : string :=
  match s with
  | EmptyString => EmptyString
  | String c s' => String (lower_char c) (lower_ascii s')
  end.

(** A text of bytes below 128. *)
Definition is_ascii (s : string) : bool :=
  forallb (fun c => match c with Ascii _ _ _ _ _ _ _ high => negb high end)
          (list_ascii_of_string s).

(** On a text with characters outside ASCII, [str.lower] and pandas'
    [.str.lower] apply the case mapping of Unicode (which also depends on
    the neighbours of a character); that function is left open. *)
Class Unicode : Type := {
  unicode_lower : string -> string
}.

(** [x in l] for a list of strings, and [Series.isin]. *)
Definition isin (x : string) (l : list string) : bool :=
  existsb (String.eqb x) l.

Section App.

Context {unicode : Unicode}.

Definition lower (s : string) : string :=
  if is_ascii s then lower_ascii s else unicode_lower s.

(* ------------------------------------------------------------------ *)
(** ** Data model *)
(* ------------------------------------------------------------------ *)

(** A cell of a column pandas has not typed: a number (NaN is the missing
    value) or a string. *)
Inductive Cell : Type :=
  | CNum (x : float64)
  | CStr (s : string).

Definition cell_isna (c : Cell) : bool :=
  match c with
  | CNum x => isna x
  | CStr _ => false
  end.

(** One row of the prepared table.  The nutrient columns and [final_score]
    are [float64] columns (an [int64] column is read as the floats of its
    values, which binary64 holds exactly below [2^53]).  [kind] is [None]
    for a missing value; the field is not read when the frame has no [kind]
    column.  Each of these labels names one column of the frame. *)
Record MealRecord : Type := {
  title : Cell;
  calories : float64;
  protein : float64;
  fat : float64;
  sodium : float64;
  meal_slot : string;
  why : Cell;
  final_score : float64;
  kind : option string
}.

(** A frame: the names of its columns and its rows, in index order. *)
Record DataFrame : Type := {
  columns : list string;
  rows : list MealRecord
}.

(** A row of the frame [recommend] returns: the record and the two columns
    [calorie_fit] and [score] the function adds. *)
Record ScoredRow : Type := {
  record : MealRecord;
  calorie_fit : float64;
  score : float64
}.

(* ------------------------------------------------------------------ *)
(** ** [recommend] (app.py, lines 186-223) *)
(* ------------------------------------------------------------------ *)

(** [pool["meal_slot"].isin([meal, "either"])] *)
Definition slot_mask (meal : string) (r : MealRecord) : bool :=
  isin (meal_slot r) [meal; "either"].

(** The mask of lines 198-202. *)
Definition bounds_mask (calories_max protein_min sodium_max : Z)
  (r : MealRecord) : bool :=
  le (calories r) (of_int calories_max)
  && ge (protein r) (of_int protein_min)
  && le (sodium r) (of_int sodium_max).

(** Lines 208-209. *)
Definition calorie_fit_of (calories_max : Z) (r : MealRecord) : float64 :=
  clip
    (sub lit_1_0
       (div (abs (sub (calories r) (of_int calories_max)))
            (of_int (Z.max calories_max 1))))
    0 1.

(** Line 211. *)
Definition add_scores (calories_max : Z) (r : MealRecord) : ScoredRow :=
  let fit := calorie_fit_of calories_max r in
  {| record := r;
     calorie_fit := fit;
     score := add (final_score r) (mul fit lit_0_6) |}.

(** [sort_values("score", ascending=False)] *)
Definition score_before (a b : ScoredRow) : bool :=
  desc_nan_last (score a) (score b).

Definition sort_by_score (l : list ScoredRow) : list ScoredRow :=
  sort score_before l.

(** [groupby("kind", dropna=False)]: one group per distinct key, the keys in
    increasing order with the missing key last, each group holding its rows
    in the order of the frame.  Strings are compared byte by byte, which on
    UTF-8 is Python's order of code points. *)
Definition key_eqb (a b : option string) : bool :=
  match a, b with
  | None, None => true
  | Some x, Some y => String.eqb x y
  | _, _ => false
  end.

Definition key_before (a b : option string) : bool :=
  match a, b with
  | _, None => true
  | None, Some _ => false
  | Some x, Some y => String.leb x y
  end.

Fixpoint unique (l : list (option string)) : list (option string) :=
  match l with
  | [] => []
  | k :: l' => k :: filter (fun k' => negb (key_eqb k' k)) (unique l')
  end.

Definition kind_of (r : ScoredRow) : option string := kind (record r).

Definition kind_keys (pool : list ScoredRow) : list (option string) :=
  sort key_before (unique (map kind_of pool)).

Definition groupby_kind (pool : list ScoredRow)
  : list (option string * list ScoredRow) :=
  map (fun k => (k, filter (fun r => key_eqb (kind_of r) k) pool))
      (kind_keys pool).

Definition recommend (df : DataFrame) (meal : string)
  (calories_max protein_min sodium_max top_n : Z) : list ScoredRow :=
  let meal := lower (strip meal) in
  let pool := rows df in
  let pool :=
    if isin meal ["suhoor"; "iftar"] then filter (slot_mask meal) pool
    else pool in
  let pool :=
    filter (bounds_mask calories_max protein_min sodium_max) pool in
  match pool with
  | [] => []
  | _ :: _ =>
    let pool := map (add_scores calories_max) pool in
    let pool := sort_by_score pool in
    if isin "kind" (columns df) then
      let per_kind_cap := Z.max 1 (top_n / 4) in
      let out :=
        map (fun g => head (snd g) per_kind_cap) (groupby_kind pool) in
      head (sort_by_score (List.concat out)) top_n
    else head pool top_n
  end.

(** The comparisons of lines 199-201 convert each integer bound to
    [float64].  The conversion fails on an integer that binary64 cannot
    hold, one that rounds to an infinity: the call then raises
    [OverflowError] at the first of these lines, before anything is
    computed.  [recommend] above is the function on bounds that convert;
    [recommend_checked] is the call with its failure. *)
Definition fits_float (n : Z) : bool := is_finite (of_int n).

Definition overflow_message : string := "int too large to convert to float".

Definition recommend_checked (df : DataFrame) (meal : string)
  (calories_max protein_min sodium_max top_n : Z)
  : Result (list ScoredRow) :=
  if fits_float calories_max && fits_float protein_min
     && fits_float sodium_max
  then Ok (recommend df meal calories_max protein_min sodium_max top_n)
  else Raise (OverflowError overflow_message).

(* ------------------------------------------------------------------ *)
(** ** [prepare_for_app] (app.py, lines 88-131) *)
(* ------------------------------------------------------------------ *)

(** A row of the frame [load_raw] returns.  The five required columns, and
    [meal_slot], [why] and [kind], hold untyped cells; a [final_score]
    column supplied by the dataset is numeric.  The field of a column that
    is not listed in [raw_columns] is never read.  [raw_columns] lists the
    labels of the frame in order, and a label may occur more than once
    (two headers of the file that differ by surrounding blanks carry the
    same label once loaded): the function fails on a repeated [calories],
    [protein], [fat], [sodium], [meal_slot] or [kind], so that the fields
    of these are read only when the label names one column.  For a
    repeated [title] the field [raw_title] is null as soon as one of the
    cells under that label is, which is what line 98 tests; for [why]
    and [final_score], which the function copies, the fields are those of
    the first column of the label. *)
Record RawRow : Type := {
  raw_title : Cell;
  raw_calories : Cell;
  raw_protein : Cell;
  raw_fat : Cell;
  raw_sodium : Cell;
  raw_meal_slot : Cell;
  raw_why : Cell;
  raw_final_score : float64;
  raw_kind : Cell
}.

Record RawFrame : Type := {
  raw_columns : list string;
  raw_rows : list RawRow
}.

Definition required : list string :=
  ["title"; "calories"; "protein"; "fat"; "sodium"].

Definition missing_column_message : string := "ملف CSV ناقص عمود أساسي: ".

(** The messages of pandas for [pd.to_numeric] applied to a frame, and
    for the accessor [.str] asked of a frame: what [df[col]] is when
    several columns carry the label [col]. *)
Definition to_numeric_message : string :=
  "arg must be a list, tuple, 1-d array, or Series".

Definition no_str_message : string :=
  "'DataFrame' object has no attribute 'str'".

(** The label [c] names more than one column. *)
Definition repeated (c : string) (cols : list string) : bool :=
  (1 <? List.length (filter (String.eqb c) cols))%nat.

Definition numeric_columns : list string :=
  ["calories"; "protein"; "fat"; "sodium"].

(** Lines 91-93: the first required column that the frame lacks. *)
Fixpoint first_missing (req cols : list string) : option string :=
  match req with
  | [] => None
  | c :: req' => if isin c cols then first_missing req' cols else Some c
  end.

(** Lines 117-120. *)
Definition build_why (r_sodium r_protein : float64) : string :=
  let sodium_note :=
    if le r_sodium (of_int 600) then "صوديوم أقل" else "صوديوم أعلى" in
  let protein_note :=
    if ge r_protein (of_int 25) then "بروتين عالي" else "بروتين متوسط" in
  sodium_note ++ " + " ++ protein_note.

(** The replacement of line 113 on one normalised cell: a missing value is
    not among the three slots. *)
Definition normalize_slot (s : option string) : string :=
  match s with
  | Some s => if isin s ["suhoor"; "iftar"; "either"] then s else "either"
  | None => "either"
  end.

Section Prepare.

(** Two functions of the Python run time are left open: how
    [pd.to_numeric] reads a string as a number ([None] when it cannot),
    and how [str] prints a float. *)
Variable parse_number : string -> option float64.
Variable float_str : float64 -> string.

(** [pd.to_numeric(..., errors="coerce")] on one cell. *)
Definition to_numeric (c : Cell) : float64 :=
  match c with
  | CNum x => x
  | CStr s =>
    match parse_number s with
    | Some x => x
    | None => nan
    end
  end.

(** [astype(str)] on one cell that is not missing. *)
Definition astype_str (c : Cell) : string :=
  match c with
  | CStr s => s
  | CNum x => float_str x
  end.

(** [astype(str).str.strip().str.lower()] on one cell: a missing value
    stays missing. *)
Definition normalized_text (c : Cell) : option string :=
  if cell_isna c then None else Some (lower (strip (astype_str c))).

Definition num_calories (r : RawRow) : float64 := to_numeric (raw_calories r).
Definition num_protein (r : RawRow) : float64 := to_numeric (raw_protein r).
Definition num_fat (r : RawRow) : float64 := to_numeric (raw_fat r).
Definition num_sodium (r : RawRow) : float64 := to_numeric (raw_sodium r).

(** Line 98: [dropna] on the five required columns. *)
Definition notna_mask (r : RawRow) : bool :=
  negb (cell_isna (raw_title r))
  && negb (isna (num_calories r))
  && negb (isna (num_protein r))
  && negb (isna (num_fat r))
  && negb (isna (num_sodium r)).

(** Lines 101-106: the sanity filter. *)
Definition sanity_mask (r : RawRow) : bool :=
  between (num_calories r) 1 1993
  && between (num_protein r) 0 200
  && between (num_fat r) 0 194
  && between (num_sodium r) 0 5980.

(** Lines 109-129 on one surviving row. *)
Definition prepare_row (cols : list string) (r : RawRow) : MealRecord :=
  {| title := raw_title r;
     calories := num_calories r;
     protein := num_protein r;
     fat := num_fat r;
     sodium := num_sodium r;
     meal_slot :=
       if negb (isin "meal_slot" cols) then "either"
       else normalize_slot (normalized_text (raw_meal_slot r));
     why :=
       if negb (isin "why" cols)
       then CStr (build_why (num_sodium r) (num_protein r))
       else raw_why r;
     final_score :=
       if negb (isin "final_score" cols)
       then sub (sub (mul (num_protein r) lit_0_8)
                     (div (num_sodium r) (of_int 1200)))
                (mul (num_fat r) lit_0_05)
       else raw_final_score r;
     kind :=
       if isin "kind" cols then normalized_text (raw_kind r) else None |}.

(** The columns of the prepared frame: those of the source, then the
    derived ones in the order the function adds them. *)
Definition add_column (c : string) (cols : list string) : list string :=
  if isin c cols then cols else cols ++ [c].

Definition prepared_columns (cols : list string) : list string :=
  add_column "final_score" (add_column "why" (add_column "meal_slot" cols)).

(** Lines 95-96 fail on the first numeric column whose label is repeated;
    lines 112 and 129 fail on a repeated [meal_slot] or [kind]. *)
Definition prepare_for_app (df : RawFrame) : Result DataFrame :=
  let cols := raw_columns df in
  match first_missing required cols with
  | Some c => Raise (ValueError (missing_column_message ++ c))
  | None =>
    if existsb (fun c => repeated c cols) numeric_columns
    then Raise (TypeError to_numeric_message)
    else if repeated "meal_slot" cols || repeated "kind" cols
    then Raise (AttributeError no_str_message)
    else
      let kept := filter notna_mask (raw_rows df) in
      let kept := filter sanity_mask kept in
      Ok {| columns := prepared_columns cols;
            rows := map (prepare_row cols) kept |}
  end.

End Prepare.

(* ------------------------------------------------------------------ *)
(** ** [load_raw] (app.py, lines 81-85) *)
(* ------------------------------------------------------------------ *)

(** [csv] is the frame [pd.read_csv(path)] returns; the function strips the
    names of its columns.  The fields of a row are those of the columns
    with the stripped names. *)
Definition load_raw (csv : RawFrame) : RawFrame :=
  {| raw_columns := map strip (raw_columns csv);
     raw_rows := raw_rows csv |}.

(* ------------------------------------------------------------------ *)
(** ** Effects of a run *)
(* ------------------------------------------------------------------ *)

(** A value written to a sheet cell by [append_row]. *)
Inductive SheetValue : Type :=
  | VStr (s : string)
  | VInt (n : Z).

(** A row of the table [st.dataframe] shows: column names and cells. *)
Definition ViewRow : Type := list (string * Cell).

(** What a run does to the outside: the calls on the worksheet and the
    Streamlit notices, in the order they are issued. *)
Inductive Effect : Type :=
  | SheetUpdate (range : string) (values : list (list string))
  | SheetAppendRow (row : list SheetValue)
  | StError (msg : string)
  | StWarning (msg : string)
  | StSuccess (msg : string)
  | StDataframe (view : list ViewRow).

(** An exception in flight: one the program raises itself, or one raised
    inside a library call, of which only [str(e)] is used. *)
Inductive Raised : Type :=
  | AppRaise (e : Exn)
  | ExternalRaise (text : string).

Definition raised_str (r : Raised) : string :=
  match r with
  | AppRaise (ValueError msg) | AppRaise (TypeError msg)
  | AppRaise (AttributeError msg) | AppRaise (OverflowError msg) => msg
  | ExternalRaise text => text
  end.

(** A computation that issues effects and returns or raises. *)
Definition Run (A : Type) : Type := (list Effect * (A + Raised))%type.

Definition ret {A : Type} (a : A) : Run A := ([], inl a).

Definition raise {A : Type} (r : Raised) : Run A := ([], inr r).

Definition emit (e : Effect) : Run unit := ([e], inl tt).

Definition bind {A B : Type} (m : Run A) (k : A -> Run B) : Run B :=
  match m with
  | (es, inl a) => let (es', r) := k a in ((es ++ es')%list, r)
  | (es, inr e) => (es, inr e)
  end.

Notation "x <- m ;; k" := (bind m (fun x => k))
  (at level 61, m at next level, right associativity).
Notation "m ;;; k" := (bind m (fun _ => k))
  (at level 61, right associativity).

(* ------------------------------------------------------------------ *)
(** ** Session and routing (app.py, lines 229-248 and 405-408) *)
(* ------------------------------------------------------------------ *)

Record SessionState : Type := {
  logged_in : bool;
  username : string
}.

(** Lines 229-232: the defaults of a new session. *)
Definition initial_session : SessionState :=
  {| logged_in := false; username := "" |}.

Definition go_login (s : SessionState) : SessionState :=
  {| logged_in := false; username := "" |}.

(** [name] is [None] for Python's [None].  The second component is the
    notice shown when the name is refused. *)
Definition do_login (name : option string) (s : SessionState)
  : SessionState * list Effect :=
  let name := strip (match name with Some n => n | None => "" end) in
  if String.eqb name "" then (s, [StError "لازم تكتب اسمك."])
  else ({| logged_in := true; username := name |}, []).

Inductive Page : Type :=
  | LoginPage
  | RecsPage.

(** Lines 405-408. *)
Definition router (s : SessionState) : Page :=
  if logged_in s then RecsPage else LoginPage.

(** A click on one of the two session buttons: the login button of
    [page_login] (lines 277-278) with the text typed, or the logout button
    of [page_recs] (lines 305-306).  A button that is not on the page shown
    cannot be clicked. *)
Inductive Click : Type :=
  | ClickLogin (name : string)
  | ClickLogout.

Definition click (s : SessionState) (c : Click) : SessionState :=
  match router s, c with
  | LoginPage, ClickLogin name => fst (do_login (Some name) s)
  | RecsPage, ClickLogout => go_login s
  | _, _ => s
  end.

(* ------------------------------------------------------------------ *)
(** ** Google Sheets logging (app.py, lines 137-180) *)
(* ------------------------------------------------------------------ *)

Definition CSV_PATH : string := "epi_r.csv".

Definition LOG_COLUMNS : list string :=
  ["timestamp"; "username"; "meal"; "calories_max"; "protein_min";
   "sodium_max"; "top_n"; "results_titles"].

Definition SECRETS_KEY : string := "gcp_service_account_json".

(** The outside of the program during one run: the secrets, what the
    library calls return or raise ([inr] and [Some] carry the text of the
    exception), and the clock.  Reading [st.secrets] raises when the
    application has no secrets file. *)
Record Env : Type := {
  secrets : list (string * string) + string;
  open_worksheet : string -> option string;
  row_values_1 : list string + string;
  update_raises : option string;
  append_row_raises : option string;
  read_csv : string -> RawFrame + string;
  now : string
}.

Fixpoint lookup (k : string) (m : list (string * string)) : option string :=
  match m with
  | [] => None
  | (k', v) :: m' => if String.eqb k' k then Some v else lookup k m'
  end.

(** Lines 138-157.  The worksheet returned is the one [env] describes;
    lines 146-156 are the library calls [open_worksheet] stands for. *)
Definition get_worksheet (env : Env) : Run unit :=
  match secrets env with
  | inr text => raise (ExternalRaise text)
  | inl secrets =>
    match lookup SECRETS_KEY secrets with
    | None =>
      raise (AppRaise (ValueError
        ("مش لاقي Secret اسمها " ++ SECRETS_KEY ++ ". "
         ++ "على Streamlit Cloud: Settings -> Secrets وحط gcp_service_account_json.")))
    | Some sa_json_str =>
      match open_worksheet env sa_json_str with
      | Some text => raise (ExternalRaise text)
      | None => ret tt
      end
    end
  end.

Definition ws_row_values_1 (env : Env) : Run (list string) :=
  match row_values_1 env with
  | inl row => ret row
  | inr text => raise (ExternalRaise text)
  end.

Definition ws_update (env : Env) (range : string)
  (values : list (list string)) : Run unit :=
  emit (SheetUpdate range values) ;;;
  match update_raises env with
  | Some text => raise (ExternalRaise text)
  | None => ret tt
  end.

Definition ws_append_row (env : Env) (row : list SheetValue) : Run unit :=
  emit (SheetAppendRow row) ;;;
  match append_row_raises env with
  | Some text => raise (ExternalRaise text)
  | None => ret tt
  end.

Fixpoint strings_eqb (l1 l2 : list string) : bool :=
  match l1, l2 with
  | [], [] => true
  | x :: l1', y :: l2' => String.eqb x y && strings_eqb l1' l2'
  | _, _ => false
  end.

(** Lines 160-165. *)
Definition ensure_sheet_header (env : Env) : Run unit :=
  get_worksheet env ;;;
  first_row <- ws_row_values_1 env ;;
  let normalized := map (fun c => lower (strip c)) first_row in
  if negb (strings_eqb normalized LOG_COLUMNS)
  then ws_update env "A1:H1" [LOG_COLUMNS]
  else ret tt.

(** Lines 168-180. *)
Definition log_request (env : Env) (username meal : string)
  (calories_max protein_min sodium_max top_n : Z) (titles : string)
  : Run unit :=
  get_worksheet env ;;;
  let row :=
    [VStr (now env); VStr username; VStr meal; VInt calories_max;
     VInt protein_min; VInt sodium_max; VInt top_n; VStr titles] in
  ws_append_row env row.

(* ------------------------------------------------------------------ *)
(** ** The request of [page_recs] (app.py, lines 371-395) *)
(* ------------------------------------------------------------------ *)

(** [list.insert(i, x)] *)
Definition list_insert {A : Type} (i : nat) (x : A) (l : list A) : list A :=
  (firstn i l ++ x :: skipn i l)%list.

(** Lines 382-384; [recs_columns] are the columns of [recs]. *)
Definition show_cols (recs_columns : list string) : list string :=
  let cols :=
    ["title"; "meal_slot"; "calories"; "protein"; "fat"; "sodium"; "score";
     "why"] in
  if isin "kind" recs_columns then list_insert 1 "kind" cols else cols.

(** The cell of a returned row under a column name. *)
Definition column_cell (c : string) (r : ScoredRow) : Cell :=
  if String.eqb c "title" then title (record r)
  else if String.eqb c "kind" then
    match kind (record r) with Some k => CStr k | None => CNum nan end
  else if String.eqb c "meal_slot" then CStr (meal_slot (record r))
  else if String.eqb c "calories" then CNum (calories (record r))
  else if String.eqb c "protein" then CNum (protein (record r))
  else if String.eqb c "fat" then CNum (fat (record r))
  else if String.eqb c "sodium" then CNum (sodium (record r))
  else if String.eqb c "why" then why (record r)
  else if String.eqb c "final_score" then CNum (final_score (record r))
  else if String.eqb c "calorie_fit" then CNum (calorie_fit r)
  else if String.eqb c "score" then CNum (score r)
  else CNum nan.

(** Lines 386-387: [recs[show_cols]] with [score] renamed [final_score].
    The columns selected are columns of every frame [prepare_for_app]
    returns (see [prepared_frame_columns] below), so the selection does not
    fail. *)
Definition rename_score (c : string) : string :=
  if String.eqb c "score" then "final_score" else c.

Definition make_view (cols : list string) (recs : list ScoredRow)
  : list ViewRow :=
  map (fun r => map (fun c => (rename_score c, column_cell c r)) cols) recs.

Section Request.

Variable parse_number : string -> option float64.
Variable float_str : float64 -> string.

(** Line 390. *)
Definition result_titles (recs : list ScoredRow) (top_n : Z) : string :=
  String.concat " | "
    (map (fun r => astype_str float_str (title (record r)))
         (head recs top_n)).

(** The body of the [try] block, lines 373-393.  The four numbers come
    from the sliders of lines 319-352, whose values convert to floats, so
    that the call of line 377 is [recommend]. *)
Definition request_body (env : Env) (s : SessionState) (meal : string)
  (calories_max protein_min sodium_max top_n : Z) : Run unit :=
  ensure_sheet_header env ;;;
  raw <- match read_csv env CSV_PATH with
         | inl csv => ret (load_raw csv)
         | inr text => raise (ExternalRaise text)
         end ;;
  df <- match prepare_for_app parse_number float_str raw with
        | Ok df => ret df
        | Raise e => raise (AppRaise e)
        end ;;
  let recs := recommend df meal calories_max protein_min sodium_max top_n in
  match recs with
  | [] => emit (StWarning "مفيش نتائج بالشروط دي. جرّب تغيّر الحدود.")
  | _ :: _ =>
    let cols := show_cols (columns df ++ ["calorie_fit"; "score"]) in
    emit (StDataframe (make_view cols recs)) ;;;
    let titles := result_titles recs top_n in
    log_request env (username s) meal calories_max protein_min sodium_max
                top_n titles ;;;
    emit (StSuccess "تم تسجيل الطلب في Google Sheet.")
  end.

(** Lines 371-395: what a click on the run button does. *)
Definition page_recs_run (env : Env) (s : SessionState) (meal : string)
  (calories_max protein_min sodium_max top_n : Z) : list Effect :=
  match request_body env s meal calories_max protein_min sodium_max top_n with
  | (effects, inl _) => effects
  | (effects, inr e) =>
    (effects ++ [StError ("حصل خطأ: " ++ raised_str e)])%list
  end.

End Request.

(* ------------------------------------------------------------------ *)
(** ** Vocabulary of the properties *)
(* ------------------------------------------------------------------ *)

(** The rows that pass the slot filter (lines 195-196) and the hard
    constraints (lines 198-202): the [pool] tested at line 204. *)
Definition survivors (df : DataFrame) (meal : string)
  (calories_max protein_min sodium_max : Z) : list MealRecord :=
  let meal := lower (strip meal) in
  filter (bounds_mask calories_max protein_min sodium_max)
    (if isin meal ["suhoor"; "iftar"] then filter (slot_mask meal) (rows df)
     else rows df).

(** The [pool] of line 212: the survivors, scored and sorted. *)
Definition sorted_pool (df : DataFrame) (meal : string)
  (calories_max protein_min sodium_max : Z) : list ScoredRow :=
  sort_by_score
    (map (add_scores calories_max)
         (survivors df meal calories_max protein_min sodium_max)).

(** The rows of one kind, in the order of the list. *)
Definition of_kind (k : option string) (l : list ScoredRow) : list ScoredRow :=
  filter (fun r => key_eqb (kind_of r) k) l.

(** The comparison the sort is run with, as a relation: a row with a NaN
    score stands after every other row, and otherwise scores do not
    increase.  [ranked_above] below says the same without it. *)
Definition score_order (a b : ScoredRow) : Prop :=
  score_before a b = true.

Definition score_ge (a b : ScoredRow) : Prop :=
  ge (score a) (score b) = true.

(** [a] is ranked at least as high as [b]: [b] has no score, or the score
    of [a] is at least the score of [b]. *)
Definition ranked_above (a b : ScoredRow) : Prop :=
  isna (score b) = true \/ score_ge a b.

(** The formula of the specification for the calorie fit,
    [clamp(1 - |calories - calories_max| / max(calories_max, 1), 0, 1)],
    with [clamp] written by comparisons. *)
Definition clamp (x lo hi : float64) : float64 :=
  if lt x lo then lo else if lt hi x then hi else x.

Definition calorie_fit_spec (c : float64) (calories_max : Z) : float64 :=
  clamp
    (sub (of_int 1)
         (div (abs (sub c (of_int calories_max)))
              (of_int (Z.max calories_max 1))))
    (of_int 0) (of_int 1).

(** The invariant of a row of the prepared table. *)
Definition slots : list string := ["suhoor"; "iftar"; "either"].

Definition in_range (lo : Z) (x : float64) (hi : Z) : Prop :=
  le (of_int lo) x = true /\ le x (of_int hi) = true.

Record prepared_row (r : MealRecord) : Prop := {
  calories_range : in_range 1 (calories r) 1993;
  protein_range : in_range 0 (protein r) 200;
  fat_range : in_range 0 (fat r) 194;
  sodium_range : in_range 0 (sodium r) 5980;
  title_notna : cell_isna (title r) = false;
  nutrients_numeric :
    is_finite (calories r) = true /\ is_finite (protein r) = true /\
    is_finite (fat r) = true /\ is_finite (sodium r) = true;
  slot_enum : In (meal_slot r) slots
}.

(* ------------------------------------------------------------------ *)
(** ** Sample tables *)
(* ------------------------------------------------------------------ *)

Definition meal_row (t : string) (c p s : Z) (slot : string)
  (k : option string) : MealRecord :=
  {| title := CStr t;
     calories := of_int c;
     protein := of_int p;
     fat := of_int 10;
     sodium := of_int s;
     meal_slot := slot;
     why := CStr "";
     final_score := of_int p;
     kind := k |}.

Definition base_columns : list string :=
  ["title"; "calories"; "protein"; "fat"; "sodium"; "meal_slot"; "why";
   "final_score"].

(** The two-row table of the specification's first scenario. *)
Definition table_ab : DataFrame :=
  {| columns := base_columns;
     rows := [meal_row "A" 500 30 500 "suhoor" None;
              meal_row "B" 900 10 2000 "iftar" None] |}.

(** Two kinds with eight qualifying rows each. *)
Definition eight_rows (k : string) : list MealRecord :=
  map (fun p => meal_row k 500 p 400 "either" (Some k))
      [21; 22; 23; 24; 25; 26; 27; 28].

Definition table_two_kinds : DataFrame :=
  {| columns := base_columns ++ ["kind"];
     rows := eight_rows "soup" ++ eight_rows "salad" |}.

(** A raw frame with a text cell, a missing cell and an out-of-range row. *)
Definition raw_row (t c p f s slot : Cell) : RawRow :=
  {| raw_title := t;
     raw_calories := c;
     raw_protein := p;
     raw_fat := f;
     raw_sodium := s;
     raw_meal_slot := slot;
     raw_why := CNum nan;
     raw_final_score := nan;
     raw_kind := CNum nan |}.

Definition num (n : Z) : Cell := CNum (of_int n).

Definition raw_sample : RawFrame :=
  {| raw_columns := ["title"; "calories"; "protein"; "fat"; "sodium";
                     "meal_slot"];
     raw_rows :=
       [raw_row (CStr "Lentil soup") (num 320) (num 18) (num 9) (num 560)
                (CStr " Suhoor ");
        raw_row (CStr "Feast") (num 2500) (num 90) (num 120) (num 4000)
                (CStr "iftar");
        raw_row (CStr "Dates") (num 280) (CNum nan) (num 0) (num 2)
                (CStr "iftar");
        raw_row (CStr "Fattoush") (num 150) (num 4) (num 7) (num 300)
                (CStr "lunch")] |}.

Definition raw_no_sodium : RawFrame :=
  {| raw_columns := ["title"; "calories"; "protein"; "fat"];
     raw_rows := [] |}.

(** The non-breaking space U+00A0. *)
Definition nbsp : string := string_of_list_ascii (utf8 [194; 160]%nat).

(** A raw frame with a [kind] column: a kind and a slot padded with
    blanks, and a row in which both are missing. *)
Definition raw_with_kind : RawFrame :=
  {| raw_columns := ["title"; "calories"; "protein"; "fat"; "sodium";
                     "meal_slot"; "kind"];
     raw_rows :=
       [{| raw_title := CStr "Harira";
           raw_calories := num 250;
           raw_protein := num 12;
           raw_fat := num 6;
           raw_sodium := num 700;
           raw_meal_slot := CStr (nbsp ++ "Iftar");
           raw_why := CNum nan;
           raw_final_score := nan;
           raw_kind := CStr " Soup " |};
        {| raw_title := CStr "Dates";
           raw_calories := num 280;
           raw_protein := num 2;
           raw_fat := num 0;
           raw_sodium := num 2;
           raw_meal_slot := CNum nan;
           raw_why := CNum nan;
           raw_final_score := nan;
           raw_kind := CNum nan |}] |}.

(** The frame read from a file with the headers [calories] and [calories ],
    one of them padded with a blank. *)
Definition csv_padded : RawFrame :=
  {| raw_columns := ["title"; "calories"; "calories "; "protein"; "fat";
                     "sodium"];
     raw_rows := [] |}.

(** Stand-ins for the run-time functions, for the sample inputs: these
    are ASCII text, on which the case mapping of other text is not used. *)
Definition ascii_text : Unicode := {| unicode_lower := fun s => s |}.

Definition no_parse (_ : string) : option float64 := None.
Definition nan_str (_ : float64) : string := "nan".

(* ------------------------------------------------------------------ *)
(** ** Further vocabulary *)
(* ------------------------------------------------------------------ *)

(** [l] holds elements of [l'], each at most as often as [l'] does. *)
Definition sub_multiset {A : Type} (l l' : list A) : Prop :=
  exists rest, Permutation (l ++ rest) l'.

(** The rows of a list whose kind is one of [keys]. *)
Definition of_kinds (keys : list (option string)) (l : list ScoredRow)
  : list ScoredRow :=
  filter (fun r => existsb (key_eqb (kind_of r)) keys) l.

(** A text made of characters of [spaces] only, and a blank text. *)
Definition made_of (spaces : list (list ascii)) (l : list ascii) : Prop :=
  exists ws, Forall (fun w => In w spaces) ws /\ l = List.concat ws.

Definition blank (s : string) : Prop :=
  made_of white_space (list_ascii_of_string s).

(** [w] is the beginning of [l]; and no text of [spaces] is the beginning
    of another one. *)
Fixpoint is_prefix (w l : list ascii) : bool :=
  match w, l with
  | [], _ => true
  | c :: w', d :: l' => Ascii.eqb c d && is_prefix w' l'
  | _ :: _, [] => false
  end.

Definition prefix_free (spaces : list (list ascii)) : bool :=
  forallb
    (fun w =>
       forallb
         (fun w' =>
            negb (is_prefix w w') || (List.length w =? List.length w')%nat)
         spaces)
    spaces.

(** The state of a session is coherent: a user is logged in under a name
    that is not empty and carries no surrounding white space, and nobody is
    named when logged out. *)
Definition session_ok (s : SessionState) : Prop :=
  if logged_in s
  then username s <> "" /\ strip (username s) = username s
  else username s = "".

Definition is_append_row (e : Effect) : bool :=
  match e with SheetAppendRow _ => true | _ => false end.

(** The notices that close a request: error, warning or success. *)
Definition is_closing_notice (e : Effect) : bool :=
  match e with
  | StError _ | StWarning _ | StSuccess _ => true
  | _ => false
  end.

(** An environment in which every library call succeeds. *)
Definition sample_env (first_row : list string) (csv : RawFrame) : Env :=
  {| secrets := inl [(SECRETS_KEY, "{}")];
     open_worksheet := fun _ => None;
     row_values_1 := inl first_row;
     update_raises := None;
     append_row_raises := None;
     read_csv := fun _ => inl csv;
     now := "2026-03-01 18:30:00" |}.

Definition sample_session : SessionState :=
  {| logged_in := true; username := "Mahmoud" |}.

(* ================================================================== *)
(** * Properties *)
(* ================================================================== *)

(** ** The model on small inputs *)

Example literals_nearest :
  lit_0_6 = div (of_int 6) (of_int 10)
  /\ lit_0_8 = div (of_int 8) (of_int 10)
  /\ lit_0_05 = div (of_int 5) (of_int 100)
  /\ lit_1_0 = of_int 1.
Proof. repeat split; vm_compute; reflexivity. Qed.

Example strip_lower_meal : lower (strip "  SuHoor ") = "suhoor".
Proof. reflexivity. Qed.

(** The non-breaking space is white space; the zero-width space U+200B is
    not. *)
Example strip_unicode :
  strip (nbsp ++ " a" ++ nbsp ++ "b " ++ nbsp) = "a" ++ nbsp ++ "b"
  /\ strip (string_of_list_ascii (utf8 [226; 128; 139; 32]%nat))
     = string_of_list_ascii (utf8 [226; 128; 139]%nat).
Proof. split; vm_compute; reflexivity. Qed.

Example head_counts :
  head [1; 2; 3] 2 = [1; 2] /\ head [1; 2; 3] 5 = [1; 2; 3]
  /\ head [1; 2; 3] 0 = [] /\ head [1; 2; 3] (-1) = [1; 2].
Proof. repeat split. Qed.

Example clip_values :
  clip nan 0 1 = nan
  /\ clip (of_int 3) 0 1 = of_int 1
  /\ clip (of_int (-3)) 0 1 = of_int 0.
Proof. repeat split. Qed.

Example sort_scores_nan_last :
  sort desc_nan_last [of_int 2; nan; of_int 5; of_int 3]
  = [of_int 5; of_int 3; of_int 2; nan].
Proof. vm_compute. reflexivity. Qed.

(** The first scenario of the specification: only "A" is returned. *)
Example scenario_ab :
  map (fun r => title (record r)) (recommend table_ab "suhoor" 700 20 1200 5)
  = [CStr "A"].
Proof. vm_compute. reflexivity. Qed.

(** Two kinds of eight rows: with [top_n = 8] the cap is 2 and each kind
    gives its two best rows; with [top_n = 4] the cap is 1. *)
Example scenario_two_kinds :
  map (fun r => protein (record r))
      (recommend table_two_kinds "either" 700 20 1200 8)
  = [of_int 28; of_int 28; of_int 27; of_int 27]
  /\ map (fun r => protein (record r))
         (recommend table_two_kinds "either" 700 20 1200 4)
     = [of_int 28; of_int 28].
Proof. split; vm_compute; reflexivity. Qed.

Example scenario_prepare :
  match prepare_for_app no_parse nan_str raw_sample with
  | Ok df => map (fun r => (title r, meal_slot r)) (rows df)
  | Raise _ => []
  end
  = [(CStr "Lentil soup", "suhoor"); (CStr "Fattoush", "either")].
Proof. vm_compute. reflexivity. Qed.

(** ** The order of binary64 *)

Ltac order_cases :=
  repeat match goal with
  | |- context [Z.compare ?a ?b] => destruct (Z.compare_spec a b)
  | |- context [Pos.compare ?a ?b] => destruct (Pos.compare_spec a b)
  end.

Lemma SFleb_trans (x y z : float64) :
  SFleb x y = true -> SFleb y z = true -> SFleb x z = true.
Proof.
  unfold SFleb, SFcompare.
  destruct x as [sx|sx| |sx mx ex], y as [sy|sy| |sy my ey],
           z as [sz|sz| |sz mz ez];
    try destruct sx; try destruct sy; try destruct sz;
    try (intros; discriminate); try (intros; reflexivity);
    change (PosDef.Pos.compare_cont Eq) with Pos.compare; order_cases; simpl;
    intros; subst; try discriminate; try reflexivity; lia.
Qed.

Lemma SFleb_total (x y : float64) :
  isna x = false -> isna y = false ->
  SFleb x y = true \/ SFleb y x = true.
Proof.
  unfold SFleb, SFcompare, isna.
  destruct x as [sx|sx| |sx mx ex], y as [sy|sy| |sy my ey];
    try destruct sx; try destruct sy; intros; try discriminate; auto;
    change (PosDef.Pos.compare_cont Eq) with Pos.compare; order_cases; simpl;
    auto; lia.
Qed.

Lemma SFleb_notna (x y : float64) :
  SFleb x y = true -> isna x = false /\ isna y = false.
Proof.
  destruct x, y; simpl; try discriminate; auto.
Qed.

(** Strict and large comparisons are complementary away from NaN. *)
Lemma SFltb_not_leb (x y : float64) :
  isna x = false -> isna y = false -> SFltb x y = negb (SFleb y x).
Proof.
  unfold SFltb, SFleb, SFcompare, isna.
  destruct x as [sx|sx| |sx mx ex], y as [sy|sy| |sy my ey];
    try destruct sx; try destruct sy; intros; try discriminate; auto;
    change (PosDef.Pos.compare_cont Eq) with Pos.compare; order_cases; simpl;
    auto; subst; lia.
Qed.

Lemma desc_nan_last_total (x y : float64) :
  desc_nan_last x y = true \/ desc_nan_last y x = true.
Proof.
  unfold desc_nan_last, ge.
  destruct (isna x) eqn:Hx; [right; reflexivity|].
  destruct (isna y) eqn:Hy; [left; reflexivity|].
  simpl. destruct (SFleb_total x y Hx Hy); auto.
Qed.

Lemma desc_nan_last_trans (x y z : float64) :
  desc_nan_last x y = true -> desc_nan_last y z = true ->
  desc_nan_last x z = true.
Proof.
  unfold desc_nan_last, ge. intros Hxy Hyz.
  destruct (isna z) eqn:Hz; [reflexivity|]. simpl in *.
  destruct (SFleb_notna _ _ Hyz) as [_ Hy]. rewrite Hy in Hxy. simpl in Hxy.
  eapply SFleb_trans; eassumption.
Qed.

(** Without NaN the order of [sort_values] is the plain [>=]. *)
Lemma desc_nan_last_ge (x y : float64) :
  isna y = false -> desc_nan_last x y = ge x y.
Proof. unfold desc_nan_last. intros ->. reflexivity. Qed.

(** ** Rounding never produces NaN *)

Lemma shr_1_nonneg (mrs : shr_record) :
  0 <= shr_m mrs -> 0 <= shr_m (shr_1 mrs).
Proof.
  destruct mrs as [m r s]. simpl.
  destruct m as [|p|p]; [simpl; lia | | lia].
  intros _. destruct p; simpl; lia.
Qed.

Lemma iter_pos_invariant {A : Type} (P : A -> Prop) (f : A -> A) :
  (forall x, P x -> P (f x)) -> forall n x, P x -> P (iter_pos f n x).
Proof.
  intros Hf. induction n as [n IH|n IH|]; intros x Hx; simpl; auto.
Qed.

Lemma shr_fexp_nonneg (m e : Z) (l : location) :
  0 <= m -> 0 <= shr_m (fst (shr_fexp prec emax m e l)).
Proof.
  intros Hm. unfold shr_fexp, shr.
  assert (H0 : 0 <= shr_m (shr_record_of_loc m l)).
  { destruct l as [|[| |]]; simpl; exact Hm. }
  destruct (fexp prec emax (Zdigits2 m + e) - e) as [|p|p]; simpl;
    try exact H0.
  apply (iter_pos_invariant (fun mrs => 0 <= shr_m mrs));
    [apply shr_1_nonneg | exact H0].
Qed.

Lemma round_nearest_even_nonneg (m : Z) (l : location) :
  0 <= m -> 0 <= round_nearest_even m l.
Proof.
  intros Hm. destruct l as [|[| |]]; simpl; try lia.
  destruct (Z.even m); lia.
Qed.

Lemma binary_round_aux_notna (s : bool) (m e : Z) (l : location) :
  0 <= m -> isna (binary_round_aux prec emax s m e l) = false.
Proof.
  intros Hm. unfold binary_round_aux.
  pose proof (shr_fexp_nonneg m e l Hm) as H1.
  destruct (shr_fexp prec emax m e l) as [mrs' e']. simpl in H1.
  pose proof (shr_fexp_nonneg _ e' loc_Exact
                (round_nearest_even_nonneg _ (loc_of_shr_record mrs') H1))
    as H2.
  destruct (shr_fexp prec emax
              (round_nearest_even (shr_m mrs') (loc_of_shr_record mrs')) e'
              loc_Exact) as [mrs'' e'']. simpl in H2.
  destruct (shr_m mrs'') as [|p|p]; [reflexivity| |lia].
  destruct (e'' <=? emax - prec); reflexivity.
Qed.

Lemma binary_normalize_notna (m e : Z) (sz : bool) :
  isna (binary_normalize prec emax m e sz) = false.
Proof.
  unfold binary_normalize, binary_round.
  destruct m as [|p|p]; [reflexivity| |];
    destruct (shl_align _ _ _) as [mz ez]; apply binary_round_aux_notna; lia.
Qed.

(** ** Integers that binary64 holds exactly *)

Lemma digits2_pos_size (p : positive) : digits2_pos p = Pos.size p.
Proof. induction p; simpl; congruence. Qed.

Lemma digits2_pos_shift (p k : positive) :
  digits2_pos (Pos.iter xO p k) = (digits2_pos p + k)%positive.
Proof.
  induction k using Pos.peano_ind.
  - simpl. lia.
  - rewrite Pos.iter_succ. simpl. rewrite IHk. lia.
Qed.

Lemma digits2_pos_bound (p : positive) :
  Zpos p < 2 ^ 53 -> Zpos (digits2_pos p) <= 53.
Proof.
  intros H. rewrite digits2_pos_size.
  pose proof (Pos.size_le p) as Hle.
  destruct (Z.le_gt_cases (Zpos (Pos.size p)) 53) as [|Hgt]; [assumption|].
  exfalso.
  assert (H1 : 2 ^ 54 <= 2 ^ Zpos (Pos.size p))
    by (apply Z.pow_le_mono_r; lia).
  assert (H2 : 2 ^ Zpos (Pos.size p) <= Zpos p~0).
  { apply Pos2Z.pos_le_pos in Hle. rewrite Pos2Z.inj_pow in Hle. exact Hle. }
  change (2 ^ 54) with 18014398509481984 in H1.
  change (2 ^ 53) with 9007199254740992 in H.
  lia.
Qed.

Lemma shr_fexp_exact (m : positive) (e : Z) :
  Zpos (digits2_pos m) = 53 -> -1074 <= e ->
  shr_fexp prec emax (Zpos m) e loc_Exact
  = ({| shr_m := Zpos m; shr_r := false; shr_s := false |}, e).
Proof.
  intros Hd He. unfold shr_fexp.
  assert (Hsh : fexp prec emax (Zdigits2 (Zpos m) + e) - e = 0).
  { unfold fexp, emin, prec, emax, Zdigits2. lia. }
  rewrite Hsh. reflexivity.
Qed.

Lemma binary_round_aux_exact (s : bool) (m : positive) (e : Z) :
  Zpos (digits2_pos m) = 53 -> -1074 <= e <= 971 ->
  binary_round_aux prec emax s (Zpos m) e loc_Exact = S754_finite s m e.
Proof.
  intros Hd He. unfold binary_round_aux.
  rewrite shr_fexp_exact by lia.
  cbn [shr_m loc_of_shr_record round_nearest_even].
  rewrite shr_fexp_exact by lia.
  cbn [shr_m].
  destruct (Z.leb_spec e (emax - prec)); [reflexivity|].
  unfold emax, prec in *. lia.
Qed.

Lemma binary_round_exact (s : bool) (p : positive) :
  Zpos (digits2_pos p) <= 53 ->
  exists m e, binary_round prec emax s p 0 = S754_finite s m e.
Proof.
  intros Hd. unfold binary_round, shl_align.
  assert (Hex : fexp prec emax (Zpos (digits2_pos p) + 0)
                = Zpos (digits2_pos p) - 53).
  { unfold fexp, emin, prec, emax. lia. }
  rewrite Hex.
  destruct (Zpos (digits2_pos p) - 53 - 0) as [|q|q] eqn:E; [|lia|].
  - exists p, 0. apply binary_round_aux_exact; lia.
  - eexists _, _. apply binary_round_aux_exact; [|lia].
    rewrite digits2_pos_shift. lia.
Qed.

(** A positive integer below [2^53] converts to a positive finite float. *)
Lemma of_int_pos_finite (n : Z) :
  0 < n < 2 ^ 53 -> exists m e, of_int n = S754_finite false m e.
Proof.
  intros Hn. destruct n as [|p|p]; try lia.
  unfold of_int, binary_normalize.
  apply binary_round_exact, digits2_pos_bound. lia.
Qed.

Lemma of_int_finite (n : Z) :
  Z.abs n < 2 ^ 53 -> is_finite (of_int n) = true.
Proof.
  intros Hn. destruct n as [|p|p]; [reflexivity| |];
    unfold of_int, binary_normalize.
  - destruct (binary_round_exact false p) as (m & e & ->);
      [apply digits2_pos_bound; lia | reflexivity].
  - destruct (binary_round_exact true p) as (m & e & ->);
      [apply digits2_pos_bound; lia | reflexivity].
Qed.

(** ** Positive integers do not round to zero *)

Lemma shr_1_div2 (mrs : shr_record) :
  0 <= shr_m mrs -> shr_m (shr_1 mrs) = shr_m mrs / 2.
Proof.
  destruct mrs as [m r s]. simpl. intros Hm.
  destruct m as [|p|p]; [reflexivity| |lia].
  destruct p; simpl.
  - apply Z.div_unique with (r := 1); lia.
  - apply Z.div_unique with (r := 0); lia.
  - reflexivity.
Qed.

Lemma iter_shr_1 (n : positive) (mrs : shr_record) :
  0 <= shr_m mrs ->
  0 <= shr_m (iter_pos shr_1 n mrs)
  /\ shr_m (iter_pos shr_1 n mrs) = shr_m mrs / 2 ^ Zpos n.
Proof.
  revert mrs. induction n as [n IH|n IH|]; intros mrs Hm; cbn [iter_pos].
  - pose proof (shr_1_nonneg mrs Hm) as H1.
    destruct (IH (shr_1 mrs) H1) as [H2 E2].
    destruct (IH _ H2) as [H3 E3].
    split; [exact H3|]. rewrite E3, E2, shr_1_div2 by assumption.
    assert (Hp : 0 < 2 ^ Zpos n) by (apply Z.pow_pos_nonneg; lia).
    rewrite !Z.div_div by lia. f_equal.
    replace (Zpos n~1) with (1 + Zpos n + Zpos n) by lia.
    rewrite !Z.pow_add_r by lia. change (2 ^ 1) with 2. lia.
  - destruct (IH mrs Hm) as [H2 E2].
    destruct (IH _ H2) as [H3 E3].
    split; [exact H3|]. rewrite E3, E2.
    assert (Hp : 0 < 2 ^ Zpos n) by (apply Z.pow_pos_nonneg; lia).
    rewrite !Z.div_div by lia. f_equal.
    replace (Zpos n~0) with (Zpos n + Zpos n) by lia.
    rewrite !Z.pow_add_r by lia. lia.
  - split; [apply shr_1_nonneg, Hm | apply shr_1_div2, Hm].
Qed.

Lemma Zdigits2_lower (p : positive) : 2 ^ (Zdigits2 (Zpos p) - 1) <= Zpos p.
Proof.
  unfold Zdigits2. rewrite digits2_pos_size.
  pose proof (Pos.size_le p) as Hle.
  apply Pos2Z.pos_le_pos in Hle. rewrite Pos2Z.inj_pow in Hle.
  set (d := Zpos (Pos.size p)) in *.
  assert (Hd : 2 ^ d = 2 * 2 ^ (d - 1)).
  { replace d with (1 + (d - 1)) at 1 by lia.
    rewrite Z.pow_add_r by (subst d; lia). reflexivity. }
  lia.
Qed.

(** Shifting a positive mantissa to its format leaves it positive, as long
    as the exponent is not below the least one. *)
Lemma shr_fexp_pos (m e : Z) (l : location) :
  0 < m -> -1074 <= e ->
  0 < shr_m (fst (shr_fexp prec emax m e l))
  /\ -1074 <= snd (shr_fexp prec emax m e l).
Proof.
  intros Hm He. unfold shr_fexp, shr.
  assert (H0 : shr_m (shr_record_of_loc m l) = m).
  { destruct l as [|[| |]]; reflexivity. }
  destruct m as [|p|p]; try lia.
  pose proof (Zdigits2_lower p) as Hd.
  assert (Hd1 : 1 <= Zdigits2 (Zpos p)) by (simpl; lia).
  destruct (fexp prec emax (Zdigits2 (Zpos p) + e) - e) as [|n|n] eqn:En;
    cbn [fst snd]; try (rewrite H0; lia).
  destruct (iter_shr_1 n (shr_record_of_loc (Zpos p) l)) as [_ E];
    [rewrite H0; lia|].
  rewrite E, H0. split; [|lia].
  assert (Hn : Zpos n <= Zdigits2 (Zpos p) - 1).
  { unfold fexp, emin, prec, emax in En. lia. }
  apply Z.div_str_pos. split; [apply Z.pow_pos_nonneg; lia|].
  etransitivity; [|exact Hd]. apply Z.pow_le_mono_r; lia.
Qed.

Lemma round_nearest_even_pos (m : Z) (l : location) :
  0 < m -> 0 < round_nearest_even m l.
Proof.
  intros Hm. destruct l as [|[| |]]; simpl; try lia.
  destruct (Z.even m); lia.
Qed.

Lemma binary_round_aux_pos (s : bool) (m e : Z) (l : location) :
  0 < m -> -1074 <= e ->
  (exists m' e', binary_round_aux prec emax s m e l = S754_finite s m' e')
  \/ binary_round_aux prec emax s m e l = S754_infinity s.
Proof.
  intros Hm He. unfold binary_round_aux.
  destruct (shr_fexp_pos m e l Hm He) as [H1 He1].
  destruct (shr_fexp prec emax m e l) as [mrs' e']. cbn [fst snd] in H1, He1.
  destruct (shr_fexp_pos _ e' loc_Exact
              (round_nearest_even_pos _ (loc_of_shr_record mrs') H1) He1)
    as [H2 _].
  destruct (shr_fexp prec emax
              (round_nearest_even (shr_m mrs') (loc_of_shr_record mrs')) e'
              loc_Exact) as [mrs'' e'']. cbn [fst] in H2.
  destruct (shr_m mrs'') as [|p|p]; try lia.
  destruct (e'' <=? emax - prec); eauto.
Qed.

(** A positive integer converts to a positive float or to [+inf], and a
    negative one to a negative float or to [-inf]: never to a zero. *)
Lemma binary_round_pos (s : bool) (p : positive) :
  (exists m e, binary_round prec emax s p 0 = S754_finite s m e)
  \/ binary_round prec emax s p 0 = S754_infinity s.
Proof.
  unfold binary_round, shl_align.
  destruct (fexp prec emax (Zpos (digits2_pos p) + 0) - 0) as [|d|d] eqn:E;
    apply binary_round_aux_pos; try lia.
  unfold fexp, emin, prec, emax. lia.
Qed.

Lemma of_int_pos (n : Z) :
  0 < n ->
  (exists m e, of_int n = S754_finite false m e)
  \/ of_int n = S754_infinity false.
Proof.
  intros Hn. destruct n as [|p|p]; try lia.
  unfold of_int, binary_normalize. apply binary_round_pos.
Qed.

(** ** Insertion sort *)

Section SortFacts.

Context {A : Type} (before : A -> A -> bool).

Let R (x y : A) : Prop := before x y = true.

Lemma insert_perm (x : A) (l : list A) :
  Permutation (insert before x l) (x :: l).
Proof.
  induction l as [|y l IH]; simpl.
  - apply Permutation_refl.
  - destruct (before x y).
    + apply Permutation_refl.
    + eapply perm_trans; [apply perm_skip, IH | apply perm_swap].
Qed.

Lemma sort_perm (l : list A) : Permutation (sort before l) l.
Proof.
  induction l as [|x l IH]; simpl.
  - apply perm_nil.
  - eapply perm_trans; [apply insert_perm | apply perm_skip, IH].
Qed.

Lemma sort_In (x : A) (l : list A) : In x (sort before l) <-> In x l.
Proof.
  split; apply Permutation_in;
    [apply sort_perm | apply Permutation_sym, sort_perm].
Qed.

Lemma sort_length (l : list A) :
  List.length (sort before l) = List.length l.
Proof. apply Permutation_length, sort_perm. Qed.

Hypothesis before_total :
  forall x y, before x y = true \/ before y x = true.

Lemma insert_sorted (x : A) (l : list A) :
  Sorted R l -> Sorted R (insert before x l).
Proof.
  induction l as [|y l IH]; simpl; intros Hs.
  - repeat constructor.
  - destruct (before x y) eqn:Hxy.
    + constructor; [assumption | constructor; exact Hxy].
    + inversion Hs as [|? ? Hs' Hhd]; subst.
      constructor; [apply IH; assumption|].
      destruct l as [|z l]; simpl.
      * constructor. destruct (before_total x y); [congruence | assumption].
      * destruct (before x z).
        -- constructor.
           destruct (before_total x y); [congruence | assumption].
        -- inversion Hhd; subst. constructor. assumption.
Qed.

Lemma sort_sorted (l : list A) : Sorted R (sort before l).
Proof.
  induction l as [|x l IH]; simpl.
  - constructor.
  - apply insert_sorted, IH.
Qed.

End SortFacts.

(** ** [head] *)

Section HeadFacts.

Context {A : Type}.

Lemma firstn_In_incl (n : nat) (l : list A) (x : A) :
  In x (firstn n l) -> In x l.
Proof.
  intros H. rewrite <- (firstn_skipn n l). apply in_or_app. left. exact H.
Qed.

Lemma head_In (l : list A) (n : Z) (x : A) : In x (head l n) -> In x l.
Proof. unfold head. destruct (0 <=? n); apply firstn_In_incl. Qed.

Lemma head_length (l : list A) (n : Z) :
  0 <= n ->
  List.length (head l n) = Nat.min (Z.to_nat n) (List.length l).
Proof.
  intros Hn. unfold head.
  destruct (Z.leb_spec 0 n); [apply length_firstn | lia].
Qed.

Lemma head_length_le (l : list A) (n : Z) :
  0 <= n -> Z.of_nat (List.length (head l n)) <= n.
Proof. intros Hn. rewrite head_length by assumption. lia. Qed.

Lemma head_nonempty (l : list A) (n : Z) :
  1 <= n -> l <> [] -> head l n <> [].
Proof.
  intros Hn Hl Hh. apply (f_equal (@List.length A)) in Hh.
  rewrite head_length in Hh by lia.
  destruct l; [congruence | simpl in Hh; lia].
Qed.

Lemma firstn_sorted (R : A -> A -> Prop) (n : nat) (l : list A) :
  Sorted R l -> Sorted R (firstn n l).
Proof.
  revert l. induction n as [|n IH]; intros l Hs; simpl.
  - constructor.
  - destruct l as [|x l]; [constructor|].
    inversion Hs as [|? ? Hs' Hhd]; subst.
    constructor; [apply IH; assumption|].
    destruct n; simpl; [constructor|].
    destruct l; [constructor|]. inversion Hhd; subst.
    constructor. assumption.
Qed.

Lemma head_sorted (R : A -> A -> Prop) (l : list A) (n : Z) :
  Sorted R l -> Sorted R (head l n).
Proof. unfold head. destruct (0 <=? n); apply firstn_sorted. Qed.

End HeadFacts.

(** ** The shape of [recommend] *)

Lemma recommend_unfold (df : DataFrame) (meal : string) (cm pm sm n : Z) :
  recommend df meal cm pm sm n =
  match survivors df meal cm pm sm with
  | [] => []
  | _ :: _ =>
    let pool := sorted_pool df meal cm pm sm in
    if isin "kind" (columns df) then
      head (sort_by_score
              (List.concat
                 (map (fun k => head (of_kind k pool) (Z.max 1 (n / 4)))
                      (kind_keys pool)))) n
    else head pool n
  end.
Proof.
  unfold recommend, sorted_pool, survivors, groupby_kind, of_kind.
  destruct (filter _ _); [reflexivity|].
  destruct (isin "kind" (columns df)); [|reflexivity].
  rewrite map_map. reflexivity.
Qed.

Lemma recommend_in_pool (df : DataFrame) (meal : string) (cm pm sm n : Z)
  (r : ScoredRow) :
  In r (recommend df meal cm pm sm n) -> In r (sorted_pool df meal cm pm sm).
Proof.
  rewrite recommend_unfold.
  destruct (survivors df meal cm pm sm); [intros []|].
  cbv zeta. destruct (isin "kind" (columns df)); intros H.
  - apply head_In in H. apply sort_In in H.
    apply in_concat in H. destruct H as (g & Hg & Hr).
    apply in_map_iff in Hg. destruct Hg as (k & <- & _).
    apply head_In in Hr. unfold of_kind in Hr.
    apply filter_In in Hr. tauto.
  - eapply head_In; eassumption.
Qed.

Lemma recommend_from_survivors (df : DataFrame) (meal : string)
  (cm pm sm n : Z) (r : ScoredRow) :
  In r (recommend df meal cm pm sm n) ->
  exists m, In m (survivors df meal cm pm sm) /\ r = add_scores cm m.
Proof.
  intros H. apply recommend_in_pool in H.
  unfold sorted_pool, sort_by_score in H. apply sort_In in H.
  apply in_map_iff in H. destruct H as (m & <- & Hm). eauto.
Qed.

Lemma survivors_bounds (df : DataFrame) (meal : string) (cm pm sm : Z)
  (m : MealRecord) :
  In m (survivors df meal cm pm sm) -> bounds_mask cm pm sm m = true.
Proof. unfold survivors. intros H. apply filter_In in H. tauto. Qed.

Lemma survivors_slot (df : DataFrame) (meal : string) (cm pm sm : Z)
  (m : MealRecord) :
  In m (survivors df meal cm pm sm) ->
  isin (lower (strip meal)) ["suhoor"; "iftar"] = true ->
  meal_slot m = lower (strip meal) \/ meal_slot m = "either".
Proof.
  unfold survivors. intros H Hmeal. cbv zeta in H. rewrite Hmeal in H.
  apply filter_In in H. destruct H as [H _].
  apply filter_In in H. destruct H as [_ H].
  unfold slot_mask, isin in H. simpl in H.
  rewrite orb_false_r in H. apply orb_true_iff in H.
  destruct H as [H | H]; apply String.eqb_eq in H; auto.
Qed.

(** C1.  Every row [recommend] returns respects the three bounds of the
    caller: [calories <= calories_max], [protein >= protein_min] and
    [sodium <= sodium_max], for every table, meal string and bounds. *)
Theorem recommend_respects_bounds (df : DataFrame) (meal : string)
  (calories_max protein_min sodium_max top_n : Z) :
  Forall
    (fun r =>
       le (calories (record r)) (of_int calories_max) = true /\
       ge (protein (record r)) (of_int protein_min) = true /\
       le (sodium (record r)) (of_int sodium_max) = true)
    (recommend df meal calories_max protein_min sodium_max top_n).
Proof.
  apply Forall_forall. intros r Hr.
  apply recommend_from_survivors in Hr. destruct Hr as (m & Hm & ->).
  apply survivors_bounds in Hm. unfold bounds_mask in Hm.
  apply andb_true_iff in Hm. destruct Hm as [Hm Hs].
  apply andb_true_iff in Hm. destruct Hm as [Hc Hp].
  simpl. auto.
Qed.

(** C2.  [recommend] returns at most [top_n] rows, for every table and
    every constraint set; a result count is not negative. *)
Theorem recommend_at_most_top_n (df : DataFrame) (meal : string)
  (calories_max protein_min sodium_max top_n : Z) :
  0 <= top_n ->
  Z.of_nat
    (List.length (recommend df meal calories_max protein_min sodium_max top_n))
  <= top_n.
Proof.
  intros Hn. rewrite recommend_unfold.
  destruct (survivors df meal calories_max protein_min sodium_max);
    [simpl; lia|].
  cbv zeta. destruct (isin "kind" (columns df));
    apply head_length_le; assumption.
Qed.

(** ** Slot filter *)

Lemma survivors_no_slot_filter (df : DataFrame) (meal : string)
  (cm pm sm : Z) :
  isin (lower (strip meal)) ["suhoor"; "iftar"] = false ->
  survivors df meal cm pm sm = filter (bounds_mask cm pm sm) (rows df).
Proof. unfold survivors. cbv zeta. intros ->. reflexivity. Qed.

Lemma recommend_depends_on_survivors (df : DataFrame) (meal meal' : string)
  (cm pm sm n : Z) :
  survivors df meal cm pm sm = survivors df meal' cm pm sm ->
  recommend df meal cm pm sm n = recommend df meal' cm pm sm n.
Proof.
  intros H. rewrite !recommend_unfold. unfold sorted_pool.
  rewrite H. reflexivity.
Qed.

Lemma recommend_slot_in (df : DataFrame) (meal : string) (cm pm sm n : Z)
  (r : ScoredRow) :
  isin (lower (strip meal)) ["suhoor"; "iftar"] = true ->
  In r (recommend df meal cm pm sm n) ->
  meal_slot (record r) = lower (strip meal)
  \/ meal_slot (record r) = "either".
Proof.
  intros Hmeal Hr.
  apply recommend_from_survivors in Hr. destruct Hr as (m & Hm & ->).
  simpl. eapply survivors_slot; eassumption.
Qed.

Lemma not_slot_meal (s : string) :
  s <> "suhoor" -> s <> "iftar" -> isin s ["suhoor"; "iftar"] = false.
Proof.
  intros H1 H2. unfold isin. simpl. rewrite orb_false_r.
  apply orb_false_iff. split; apply String.eqb_neq; assumption.
Qed.

(** ** Empty and non-empty results *)

Lemma protein_below_1000 (r : MealRecord) :
  in_range 0 (protein r) 200 -> ge (protein r) (of_int 1000) = false.
Proof.
  intros [_ Hhi]. unfold ge, le in *.
  destruct (SFleb (of_int 1000) (protein r)) eqn:H; [|reflexivity].
  pose proof (SFleb_trans _ _ _ H Hhi) as Habs.
  vm_compute in Habs. discriminate.
Qed.

Lemma filter_none {A : Type} (f : A -> bool) (l : list A) :
  (forall x, In x l -> f x = false) -> filter f l = [].
Proof.
  induction l as [|x l IH]; intros H; simpl; [reflexivity|].
  rewrite (H x) by (left; reflexivity).
  apply IH. intros y Hy. apply H. right. exact Hy.
Qed.

Lemma survivors_none (df : DataFrame) (meal : string) (cm pm sm : Z) :
  (forall m, In m (rows df) -> bounds_mask cm pm sm m = false) ->
  survivors df meal cm pm sm = [].
Proof.
  intros H. unfold survivors. cbv zeta. apply filter_none.
  intros m Hm. apply H.
  destruct (isin (lower (strip meal)) ["suhoor"; "iftar"]); [|exact Hm].
  apply filter_In in Hm. tauto.
Qed.

(** C7.  When no row survives the slot filter and the hard constraints,
    the call of [recommend] returns the empty sequence and raises nothing;
    the three bounds are integers that convert to a float, as every
    integer below [2^53] in absolute value does (the call raises
    [OverflowError] exactly when one does not).  No row survives as soon
    as [protein_min] exceeds the protein of every row, for example with
    [protein_min = 1000] on a table whose proteins lie in [0, 200]. *)
Theorem recommend_empty_when_no_survivor (df : DataFrame) (meal : string)
  (calories_max protein_min sodium_max top_n : Z) :
  (fits_float calories_max = true -> fits_float protein_min = true ->
   fits_float sodium_max = true ->
   survivors df meal calories_max protein_min sodium_max = [] ->
   recommend_checked df meal calories_max protein_min sodium_max top_n
   = Ok [])
  /\
  (fits_float calories_max = true -> fits_float protein_min = true ->
   fits_float sodium_max = true ->
   Forall (fun m => ge (protein m) (of_int protein_min) = false) (rows df) ->
   survivors df meal calories_max protein_min sodium_max = []
   /\ recommend_checked df meal calories_max protein_min sodium_max top_n
      = Ok [])
  /\
  (fits_float calories_max = true -> fits_float sodium_max = true ->
   Forall (fun m => in_range 0 (protein m) 200) (rows df) ->
   survivors df meal calories_max 1000 sodium_max = []
   /\ recommend_checked df meal calories_max 1000 sodium_max top_n = Ok [])
  /\
  (Z.abs calories_max < 2 ^ 53 -> Z.abs protein_min < 2 ^ 53 ->
   Z.abs sodium_max < 2 ^ 53 ->
   fits_float calories_max = true /\ fits_float protein_min = true
   /\ fits_float sodium_max = true)
  /\
  ((exists e,
       recommend_checked df meal calories_max protein_min sodium_max top_n
       = Raise e) <->
   fits_float calories_max = false \/ fits_float protein_min = false
   \/ fits_float sodium_max = false).
Proof.
  assert (Hempty : forall pm,
             fits_float calories_max = true -> fits_float pm = true ->
             fits_float sodium_max = true ->
             survivors df meal calories_max pm sodium_max = [] ->
             recommend_checked df meal calories_max pm sodium_max top_n
             = Ok []).
  { intros pm Hc Hp Hs H. unfold recommend_checked.
    rewrite Hc, Hp, Hs, recommend_unfold, H. reflexivity. }
  assert (Hlow : forall pm,
             Forall (fun m => ge (protein m) (of_int pm) = false) (rows df) ->
             survivors df meal calories_max pm sodium_max = []).
  { intros pm Hrows. apply survivors_none. intros m Hm.
    rewrite Forall_forall in Hrows. specialize (Hrows m Hm).
    unfold bounds_mask. rewrite Hrows.
    rewrite andb_false_r. reflexivity. }
  split; [apply Hempty|].
  split; [|split; [|split]].
  - intros Hc Hp Hs Hrows. split; [|apply Hempty; try assumption];
      apply Hlow, Hrows.
  - intros Hc Hs Hrows.
    assert (Hrows' : Forall (fun m => ge (protein m) (of_int 1000) = false)
                            (rows df)).
    { eapply Forall_impl; [|exact Hrows]. apply protein_below_1000. }
    split; [|apply Hempty; try assumption; try reflexivity];
      apply Hlow, Hrows'.
  - intros Hc Hp Hs. unfold fits_float.
    repeat split; apply of_int_finite; assumption.
  - unfold recommend_checked.
    destruct (fits_float calories_max), (fits_float protein_min),
      (fits_float sodium_max); simpl; split;
      try (intros [e H]; discriminate);
      try (intros [H | [H | H]]; discriminate);
      try (intros _; eexists; reflexivity); auto.
Qed.

(** ** Groups by kind *)

Lemma key_eqb_eq (a b : option string) : key_eqb a b = true <-> a = b.
Proof.
  destruct a as [x|], b as [y|]; simpl; split; intros H;
    try discriminate; try reflexivity.
  - apply String.eqb_eq in H. congruence.
  - injection H as ->. apply String.eqb_refl.
Qed.

Lemma key_eqb_refl (a : option string) : key_eqb a a = true.
Proof. apply key_eqb_eq. reflexivity. Qed.

Lemma key_eqb_neq (a b : option string) : key_eqb a b = false <-> a <> b.
Proof.
  split.
  - intros H Heq. apply key_eqb_eq in Heq. congruence.
  - intros H. destruct (key_eqb a b) eqn:E; [|reflexivity].
    apply key_eqb_eq in E. contradiction.
Qed.

Lemma unique_In (k : option string) (l : list (option string)) :
  In k (unique l) <-> In k l.
Proof.
  induction l as [|k0 l IH]; simpl; [tauto|].
  rewrite filter_In, IH. split.
  - tauto.
  - intros [H | H]; [tauto|].
    destruct (key_eqb k k0) eqn:E.
    + apply key_eqb_eq in E. auto.
    + right. split; [assumption | reflexivity].
Qed.

Lemma unique_NoDup (l : list (option string)) : NoDup (unique l).
Proof.
  induction l as [|k0 l IH]; simpl; constructor.
  - rewrite filter_In. intros [_ H]. rewrite key_eqb_refl in H. discriminate.
  - apply NoDup_filter, IH.
Qed.

Lemma kind_keys_In (k : option string) (pool : list ScoredRow) :
  In k (kind_keys pool) <-> exists r, In r pool /\ kind_of r = k.
Proof.
  unfold kind_keys. rewrite sort_In, unique_In, in_map_iff.
  split; intros (r & H1 & H2); exists r; tauto.
Qed.

Lemma kind_keys_NoDup (pool : list ScoredRow) : NoDup (kind_keys pool).
Proof.
  unfold kind_keys.
  eapply Permutation_NoDup;
    [apply Permutation_sym, sort_perm | apply unique_NoDup].
Qed.

Lemma of_kind_In (k : option string) (l : list ScoredRow) (r : ScoredRow) :
  In r (of_kind k l) <-> In r l /\ kind_of r = k.
Proof. unfold of_kind. rewrite filter_In, key_eqb_eq. tauto. Qed.

Lemma nonempty_In {A : Type} (l : list A) : l <> [] <-> exists x, In x l.
Proof.
  destruct l as [|x l]; split.
  - congruence.
  - intros [x []].
  - intros _. exists x. left. reflexivity.
  - discriminate.
Qed.

Lemma sorted_pool_length (df : DataFrame) (meal : string) (cm pm sm : Z) :
  List.length (sorted_pool df meal cm pm sm)
  = List.length (survivors df meal cm pm sm).
Proof.
  unfold sorted_pool, sort_by_score.
  rewrite sort_length, length_map. reflexivity.
Qed.

(** C10.  With [top_n >= 1], as soon as one row survives the slot filter and
    the hard constraints [recommend] returns at least one row, also when the
    table has a [kind] column: the cap [max(1, top_n // 4)] is at least 1,
    so the group of a surviving row contributes a candidate. *)
Theorem recommend_nonempty (df : DataFrame) (meal : string)
  (calories_max protein_min sodium_max top_n : Z) :
  1 <= top_n ->
  survivors df meal calories_max protein_min sodium_max <> [] ->
  1 <= Z.max 1 (top_n / 4) /\
  (1 <= List.length
          (recommend df meal calories_max protein_min sodium_max top_n))%nat.
Proof.
  intros Hn Hs. split; [lia|].
  assert (Hgoal :
            recommend df meal calories_max protein_min sodium_max top_n <> []).
  2:{ destruct (recommend df meal calories_max protein_min sodium_max top_n);
        [congruence | simpl; lia]. }
  rewrite recommend_unfold.
  pose proof (sorted_pool_length df meal calories_max protein_min sodium_max)
    as Hlen.
  destruct (survivors df meal calories_max protein_min sodium_max)
    as [|m ms]; [congruence|].
  cbv zeta.
  set (pool := sorted_pool df meal calories_max protein_min sodium_max) in *.
  assert (Hpool : pool <> []).
  { intros E. rewrite E in Hlen. discriminate. }
  destruct (isin "kind" (columns df)); [|apply head_nonempty; assumption].
  apply head_nonempty; [assumption|].
  apply nonempty_In in Hpool. destruct Hpool as (r & Hr).
  assert (Hgrp : head (of_kind (kind_of r) pool) (Z.max 1 (top_n / 4)) <> []).
  { apply head_nonempty; [lia|]. apply nonempty_In. exists r.
    apply of_kind_In. auto. }
  apply nonempty_In in Hgrp. destruct Hgrp as (x & Hx).
  apply nonempty_In. exists x. unfold sort_by_score. apply sort_In.
  apply in_concat. eexists. split; [|exact Hx].
  apply in_map_iff. exists (kind_of r). split; [reflexivity|].
  apply kind_keys_In. eauto.
Qed.

(** ** When every candidate is returned *)

Lemma head_all {A : Type} (l : list A) (n : Z) :
  Z.of_nat (List.length l) <= n -> head l n = l.
Proof.
  intros H. unfold head. destruct (Z.leb_spec 0 n); [|lia].
  apply firstn_all2. lia.
Qed.

Lemma filter_all {A : Type} (f : A -> bool) (l : list A) :
  (forall x, In x l -> f x = true) -> filter f l = l.
Proof.
  induction l as [|x l IH]; intros H; simpl; [reflexivity|].
  rewrite (H x) by (left; reflexivity).
  f_equal. apply IH. intros y Hy. apply H. right. exact Hy.
Qed.

Lemma of_kinds_cons (k : option string) (keys : list (option string))
  (pool : list ScoredRow) :
  ~ In k keys ->
  Permutation (of_kind k pool ++ of_kinds keys pool)
              (of_kinds (k :: keys) pool).
Proof.
  intros Hk. unfold of_kind, of_kinds.
  induction pool as [|r pool IH]; simpl; [constructor|].
  destruct (key_eqb (kind_of r) k) eqn:E; simpl.
  - assert (Hn : existsb (key_eqb (kind_of r)) keys = false).
    { destruct (existsb (key_eqb (kind_of r)) keys) eqn:Ex; [|reflexivity].
      apply existsb_exists in Ex. destruct Ex as (k' & Hk' & Ek').
      apply key_eqb_eq in E, Ek'. exfalso. apply Hk. congruence. }
    rewrite Hn. apply perm_skip, IH.
  - destruct (existsb (key_eqb (kind_of r)) keys).
    + apply Permutation_sym, Permutation_cons_app, Permutation_sym, IH.
    + exact IH.
Qed.

(** The groups of [groupby] are a partition of the frame. *)
Lemma groups_perm (pool : list ScoredRow) (keys : list (option string)) :
  NoDup keys ->
  Permutation (List.concat (map (fun k => of_kind k pool) keys))
              (of_kinds keys pool).
Proof.
  intros Hnd. induction Hnd as [|k keys Hk Hnd IH]; simpl.
  - unfold of_kinds. rewrite filter_none; [constructor | reflexivity].
  - eapply perm_trans; [apply Permutation_app_head, IH|].
    apply of_kinds_cons, Hk.
Qed.

Lemma of_kinds_all (pool : list ScoredRow) :
  of_kinds (kind_keys pool) pool = pool.
Proof.
  apply filter_all. intros r Hr. apply existsb_exists.
  exists (kind_of r). split; [|apply key_eqb_refl].
  apply kind_keys_In. eauto.
Qed.

Lemma of_kind_length_le (k : option string) (l : list ScoredRow) :
  (List.length (of_kind k l) <= List.length l)%nat.
Proof. apply filter_length_le. Qed.

(** With [top_n] at least four times the number of candidates, neither the
    cap of a kind nor the final truncation removes a row. *)
Lemma recommend_all (df : DataFrame) (meal : string) (cm pm sm n : Z) :
  4 * Z.of_nat (List.length (survivors df meal cm pm sm)) <= n ->
  Permutation (recommend df meal cm pm sm n) (sorted_pool df meal cm pm sm).
Proof.
  intros Hn. rewrite recommend_unfold.
  pose proof (sorted_pool_length df meal cm pm sm) as Hlen.
  destruct (survivors df meal cm pm sm) as [|m0 ms] eqn:E.
  - destruct (sorted_pool df meal cm pm sm); [constructor | discriminate].
  - cbv zeta. set (pool := sorted_pool df meal cm pm sm) in *.
    assert (Hq : Z.of_nat (List.length pool) <= n / 4).
    { apply Z.div_le_lower_bound; lia. }
    destruct (isin "kind" (columns df)).
    + assert (Hgroups :
                map (fun k => head (of_kind k pool) (Z.max 1 (n / 4)))
                    (kind_keys pool)
                = map (fun k => of_kind k pool) (kind_keys pool)).
      { apply map_ext. intros k. apply head_all.
        pose proof (of_kind_length_le k pool). lia. }
      rewrite Hgroups.
      assert (Hperm :
                Permutation
                  (sort_by_score
                     (List.concat
                        (map (fun k => of_kind k pool) (kind_keys pool))))
                  pool).
      { eapply perm_trans; [apply sort_perm|].
        eapply perm_trans; [apply groups_perm, kind_keys_NoDup|].
        rewrite of_kinds_all. apply Permutation_refl. }
      rewrite head_all; [exact Hperm|].
      rewrite (Permutation_length Hperm). lia.
    + rewrite head_all; [apply Permutation_refl | lia].
Qed.

Lemma sorted_pool_In (df : DataFrame) (meal : string) (cm pm sm : Z)
  (r : ScoredRow) :
  In r (sorted_pool df meal cm pm sm) <->
  exists m, In m (survivors df meal cm pm sm) /\ r = add_scores cm m.
Proof.
  unfold sorted_pool, sort_by_score. rewrite sort_In, in_map_iff.
  split; intros (m & H1 & H2); exists m; auto.
Qed.

Lemma recommend_all_In (df : DataFrame) (meal : string) (cm pm sm n : Z)
  (m : MealRecord) :
  4 * Z.of_nat (List.length (survivors df meal cm pm sm)) <= n ->
  In m (survivors df meal cm pm sm) ->
  In (add_scores cm m) (recommend df meal cm pm sm n).
Proof.
  intros Hn Hm.
  eapply Permutation_in; [apply Permutation_sym, recommend_all, Hn|].
  apply sorted_pool_In. eauto.
Qed.

(** C6.  Called with a meal that is "suhoor" once trimmed and lowercased,
    [recommend] returns only rows whose slot is "suhoor" or "either", so
    never an "iftar" row; symmetrically for "iftar".  For any other meal
    value no slot filter is applied: the candidates are the rows that pass
    the hard constraints, the result is the one for "either", and every row
    that passes the hard constraints, whatever its slot, is returned when
    [top_n] is large enough for nothing to be cut (four times the number
    of rows). *)
Theorem recommend_slot_filter (df : DataFrame) (meal : string)
  (calories_max protein_min sodium_max top_n : Z) :
  (lower (strip meal) = "suhoor" ->
   Forall
     (fun r =>
        (meal_slot (record r) = "suhoor" \/ meal_slot (record r) = "either")
        /\ meal_slot (record r) <> "iftar")
     (recommend df meal calories_max protein_min sodium_max top_n))
  /\
  (lower (strip meal) = "iftar" ->
   Forall
     (fun r =>
        (meal_slot (record r) = "iftar" \/ meal_slot (record r) = "either")
        /\ meal_slot (record r) <> "suhoor")
     (recommend df meal calories_max protein_min sodium_max top_n))
  /\
  (lower (strip meal) <> "suhoor" -> lower (strip meal) <> "iftar" ->
   survivors df meal calories_max protein_min sodium_max
   = filter (bounds_mask calories_max protein_min sodium_max) (rows df)
   /\ recommend df meal calories_max protein_min sodium_max top_n
      = recommend df "either" calories_max protein_min sodium_max top_n
   /\ (4 * Z.of_nat (List.length (rows df)) <= top_n ->
       forall m,
         In m (rows df) ->
         bounds_mask calories_max protein_min sodium_max m = true ->
         exists r,
           In r (recommend df meal calories_max protein_min sodium_max top_n)
           /\ record r = m)).
Proof.
  split; [|split].
  - intros Hmeal. apply Forall_forall. intros r Hr.
    apply recommend_slot_in in Hr; [|rewrite Hmeal; reflexivity].
    rewrite Hmeal in Hr. split; [exact Hr|].
    destruct Hr as [-> | ->]; discriminate.
  - intros Hmeal. apply Forall_forall. intros r Hr.
    apply recommend_slot_in in Hr; [|rewrite Hmeal; reflexivity].
    rewrite Hmeal in Hr. split; [exact Hr|].
    destruct Hr as [-> | ->]; discriminate.
  - intros Hs Hi. pose proof (not_slot_meal _ Hs Hi) as Hmeal.
    pose proof (survivors_no_slot_filter df meal calories_max protein_min
                  sodium_max Hmeal) as Hsurv.
    split; [exact Hsurv|]. split.
    + apply recommend_depends_on_survivors.
      rewrite (survivors_no_slot_filter df "either") by reflexivity.
      exact Hsurv.
    + intros Hn m Hm Hb. exists (add_scores calories_max m).
      split; [|reflexivity]. apply recommend_all_In.
      * rewrite Hsurv.
        pose proof (filter_length_le
                      (bounds_mask calories_max protein_min sodium_max)
                      (rows df)).
        lia.
      * rewrite Hsurv. apply filter_In. auto.
Qed.

(** ** Order of the result *)

Lemma score_before_total (a b : ScoredRow) :
  score_before a b = true \/ score_before b a = true.
Proof. apply desc_nan_last_total. Qed.

Lemma score_order_trans : Relations_1.Transitive score_order.
Proof.
  intros a b c. unfold score_order, score_before.
  apply desc_nan_last_trans.
Qed.

Lemma sort_by_score_sorted (l : list ScoredRow) :
  Sorted score_order (sort_by_score l).
Proof. apply (sort_sorted score_before), score_before_total. Qed.

Lemma StronglySorted_weaken {A : Type} (R R' : A -> A -> Prop) (l : list A) :
  (forall a b, In a l -> In b l -> R a b -> R' a b) ->
  StronglySorted R l -> StronglySorted R' l.
Proof.
  intros H Hs. induction Hs as [|a l Hs IH Hall]; constructor.
  - apply IH. intros x y Hx Hy. apply H; right; assumption.
  - rewrite Forall_forall in *. intros b Hb.
    apply H; [left; reflexivity | right; assumption | apply Hall, Hb].
Qed.

Lemma StronglySorted_app_rel {A : Type} (R : A -> A -> Prop)
  (l1 l2 : list A) :
  StronglySorted R (l1 ++ l2) ->
  forall a b, In a l1 -> In b l2 -> R a b.
Proof.
  induction l1 as [|x l1 IH]; simpl; intros Hs a b Ha Hb; [contradiction|].
  inversion Hs as [|? ? Hs' Hall]; subst.
  destruct Ha as [<- | Ha].
  - rewrite Forall_forall in Hall. apply Hall, in_or_app. right. exact Hb.
  - eapply IH; eassumption.
Qed.

(** The order of the program implies the ranking by scores. *)
Lemma score_order_ranked (a b : ScoredRow) :
  score_order a b -> ranked_above a b.
Proof.
  unfold score_order, score_before, desc_nan_last, ranked_above, score_ge.
  intros H. apply orb_true_iff in H. exact H.
Qed.

Lemma sort_by_score_ranked (l : list ScoredRow) :
  StronglySorted ranked_above (sort_by_score l).
Proof.
  eapply StronglySorted_weaken;
    [intros a b _ _; apply score_order_ranked|].
  apply Sorted_StronglySorted;
    [apply score_order_trans | apply sort_by_score_sorted].
Qed.

Lemma head_split {A : Type} (l : list A) (n : Z) :
  exists rest, l = (head l n ++ rest)%list.
Proof.
  unfold head. destruct (0 <=? n); eexists; symmetry; apply firstn_skipn.
Qed.

Lemma recommend_sorted (df : DataFrame) (meal : string) (cm pm sm n : Z) :
  Sorted score_order (recommend df meal cm pm sm n).
Proof.
  rewrite recommend_unfold.
  destruct (survivors df meal cm pm sm); [constructor|].
  cbv zeta. destruct (isin "kind" (columns df)); apply head_sorted.
  - apply sort_by_score_sorted.
  - unfold sorted_pool. apply sort_by_score_sorted.
Qed.

(** C4.  The rows [recommend] returns are in order of non-increasing score,
    and the score of each is its [final_score] plus 0.6 times its
    [calorie_fit] (in binary64).  The order is that of
    [sort_values(ascending=False)]: every row stands before the rows whose
    score is not larger, rows with a NaN score last; when no returned score
    is NaN this is [score a >= score b] for every row [a] standing before a
    row [b]. *)
Theorem recommend_sorted_by_score (df : DataFrame) (meal : string)
  (calories_max protein_min sodium_max top_n : Z) :
  let out := recommend df meal calories_max protein_min sodium_max top_n in
  Forall
    (fun r =>
       score r = add (final_score (record r)) (mul (calorie_fit r) lit_0_6))
    out
  /\ StronglySorted score_order out
  /\ (Forall (fun r => isna (score r) = false) out ->
      StronglySorted score_ge out).
Proof.
  intros out.
  assert (Hsorted : StronglySorted score_order out).
  { apply Sorted_StronglySorted;
      [apply score_order_trans | apply recommend_sorted]. }
  split; [|split].
  - apply Forall_forall. intros r Hr.
    apply recommend_from_survivors in Hr. destruct Hr as (m & _ & ->).
    reflexivity.
  - exact Hsorted.
  - intros Hnum. eapply StronglySorted_weaken; [|exact Hsorted].
    intros a b _ Hb Hab. rewrite Forall_forall in Hnum.
    unfold score_order, score_before in Hab. unfold score_ge.
    rewrite desc_nan_last_ge in Hab by (apply Hnum, Hb). exact Hab.
Qed.

(** ** Diversification *)

Lemma head_nil {A : Type} (n : Z) : head (@nil A) n = [].
Proof. unfold head. destruct (0 <=? n); apply firstn_nil. Qed.

Lemma head_length_nat {A : Type} (l : list A) (c : Z) :
  0 <= c -> (List.length (head l c) <= Z.to_nat c)%nat.
Proof. intros Hc. rewrite head_length by assumption. lia. Qed.

Lemma of_kind_app (k : option string) (l1 l2 : list ScoredRow) :
  of_kind k (l1 ++ l2) = (of_kind k l1 ++ of_kind k l2)%list.
Proof. apply filter_app. Qed.

Lemma of_kind_perm (k : option string) (l l' : list ScoredRow) :
  Permutation l l' ->
  List.length (of_kind k l) = List.length (of_kind k l').
Proof.
  unfold of_kind. intros H. induction H; simpl.
  - reflexivity.
  - destruct (key_eqb (kind_of x) k); simpl; congruence.
  - destruct (key_eqb (kind_of x) k), (key_eqb (kind_of y) k); reflexivity.
  - congruence.
Qed.

Lemma of_kind_firstn (k : option string) (n : nat) (l : list ScoredRow) :
  (List.length (of_kind k (firstn n l)) <= List.length (of_kind k l))%nat.
Proof.
  rewrite <- (firstn_skipn n l) at 2. rewrite of_kind_app, length_app. lia.
Qed.

Lemma of_kind_head (k : option string) (n : Z) (l : list ScoredRow) :
  (List.length (of_kind k (head l n)) <= List.length (of_kind k l))%nat.
Proof. unfold head. destruct (0 <=? n); apply of_kind_firstn. Qed.

Lemma of_kind_head_other (k k' : option string) (c : Z)
  (l : list ScoredRow) :
  k <> k' -> of_kind k (head (of_kind k' l) c) = [].
Proof.
  intros Hk. apply filter_none. intros r Hr.
  apply head_In in Hr. apply of_kind_In in Hr. destruct Hr as [_ Hr].
  apply key_eqb_neq. congruence.
Qed.

(** In the concatenation of the capped groups a kind has at most [c] rows. *)
Lemma capped_groups_count (k : option string) (c : Z)
  (pool : list ScoredRow) (keys : list (option string)) :
  0 <= c -> NoDup keys ->
  (List.length
     (of_kind k
        (List.concat (map (fun k' => head (of_kind k' pool) c) keys)))
   <= Z.to_nat c)%nat.
Proof.
  intros Hc Hnd. induction Hnd as [|k0 keys Hnotin Hnd IH]; simpl; [lia|].
  rewrite of_kind_app, length_app.
  destruct (key_eqb k k0) eqn:E.
  - apply key_eqb_eq in E. subst k0.
    assert (Hrest :
              of_kind k
                (List.concat (map (fun k' => head (of_kind k' pool) c) keys))
              = []).
    { apply filter_none. intros r Hr. apply in_concat in Hr.
      destruct Hr as (g & Hg & Hr). apply in_map_iff in Hg.
      destruct Hg as (k' & <- & Hk'). apply head_In in Hr.
      apply of_kind_In in Hr. destruct Hr as [_ Hr].
      apply key_eqb_neq. intros E.
      assert (Hkk : k' = k) by congruence. rewrite Hkk in Hk'.
      contradiction. }
    rewrite Hrest. simpl. rewrite Nat.add_0_r.
    etransitivity; [apply of_kind_length_le | apply head_length_nat, Hc].
  - apply key_eqb_neq in E. rewrite of_kind_head_other by assumption.
    simpl. exact IH.
Qed.

Lemma StronglySorted_filter {A : Type} (R : A -> A -> Prop) (f : A -> bool)
  (l : list A) :
  StronglySorted R l -> StronglySorted R (filter f l).
Proof.
  intros Hs. induction Hs as [|a l Hs IH Hall]; simpl; [constructor|].
  destruct (f a); [|exact IH].
  constructor; [exact IH|].
  rewrite Forall_forall in *. intros b Hb. apply filter_In in Hb.
  apply Hall. tauto.
Qed.

Lemma recommend_with_kind (df : DataFrame) (meal : string)
  (cm pm sm n : Z) :
  isin "kind" (columns df) = true ->
  let pool := sorted_pool df meal cm pm sm in
  recommend df meal cm pm sm n
  = head (sort_by_score
            (List.concat
               (map (fun k => head (of_kind k pool) (Z.max 1 (n / 4)))
                    (kind_keys pool)))) n.
Proof.
  intros Hk pool. rewrite recommend_unfold. subst pool. unfold sorted_pool.
  destruct (survivors df meal cm pm sm); cbv zeta.
  - unfold sort_by_score, kind_keys. simpl. symmetry. apply head_nil.
  - rewrite Hk. reflexivity.
Qed.

Lemma capped_groups_one_each (pool : list ScoredRow)
  (keys : list (option string)) :
  (forall k, In k keys -> of_kind k pool <> []) ->
  List.length (List.concat (map (fun k => head (of_kind k pool) 1) keys))
  = List.length keys.
Proof.
  induction keys as [|k keys IH]; intros H; simpl; [reflexivity|].
  rewrite length_app, IH by (intros k' Hk'; apply H; right; exact Hk').
  rewrite head_length by lia.
  specialize (H k (or_introl eq_refl)).
  destruct (of_kind k pool); [congruence | simpl; lia].
Qed.

Lemma filter_length_pos {A : Type} (f : A -> bool) (l : list A) :
  (0 < List.length (filter f l))%nat -> exists x, In x l /\ f x = true.
Proof.
  intros H. destruct (filter f l) as [|x l'] eqn:E; [simpl in H; lia|].
  exists x. apply filter_In. rewrite E. left. reflexivity.
Qed.

(** C3.  When the table has a [kind] column, [recommend] works on the
    candidates sorted by score (the rows that pass the filters, each ranked
    above the rows after it: a score at least as high, rows without a score
    last).  It forms one group per kind present, each in that order, takes
    the first [per_kind_cap = max(1, top_n // 4)] rows of every group, which
    are ranked above the rows of the group it leaves, concatenates what it
    took, sorts the concatenation by score descending and keeps the first
    [top_n] rows; so the result is ranked and no kind has more than
    [per_kind_cap] rows in it.  In particular, when the rows that pass the
    filters are of exactly two kinds, eight of each, and [top_n = 4], the
    result has two rows, hence at most 2. *)
Theorem recommend_diversification (df : DataFrame) (meal : string)
  (calories_max protein_min sodium_max top_n : Z) :
  isin "kind" (columns df) = true ->
  let passing := survivors df meal calories_max protein_min sodium_max in
  let pool := sorted_pool df meal calories_max protein_min sodium_max in
  let per_kind_cap := Z.max 1 (top_n / 4) in
  let taken := fun k => head (of_kind k pool) per_kind_cap in
  let out := recommend df meal calories_max protein_min sodium_max top_n in
  Permutation pool (map (add_scores calories_max) passing)
  /\ StronglySorted ranked_above pool
  /\ NoDup (kind_keys pool)
  /\ (forall k, In k (kind_keys pool) <->
                exists r, In r pool /\ kind_of r = k)
  /\ (forall k,
        StronglySorted ranked_above (of_kind k pool)
        /\ List.length (taken k)
           = Nat.min (Z.to_nat per_kind_cap) (List.length (of_kind k pool))
        /\ exists rest,
             of_kind k pool = (taken k ++ rest)%list
             /\ forall a b, In a (taken k) -> In b rest -> ranked_above a b)
  /\ (exists resorted,
        Permutation resorted (List.concat (map taken (kind_keys pool)))
        /\ StronglySorted ranked_above resorted
        /\ out = head resorted top_n)
  /\ out = head (sort_by_score (List.concat (map taken (kind_keys pool))))
               top_n
  /\ StronglySorted ranked_above out
  /\ (forall k, Z.of_nat (List.length (of_kind k out)) <= per_kind_cap)
  /\ (forall k1 k2,
        top_n = 4 ->
        k1 <> k2 ->
        Forall (fun m => kind m = k1 \/ kind m = k2) passing ->
        List.length (filter (fun m => key_eqb (kind m) k1) passing) = 8%nat ->
        List.length (filter (fun m => key_eqb (kind m) k2) passing) = 8%nat ->
        List.length out = 2%nat /\ (List.length out <= 2)%nat).
Proof.
  intros Hkind passing pool per_kind_cap taken out.
  assert (Hcap : 0 <= per_kind_cap) by (unfold per_kind_cap; lia).
  assert (Hout : out = head (sort_by_score
                               (List.concat (map taken (kind_keys pool))))
                            top_n)
    by (apply recommend_with_kind, Hkind).
  assert (Hpool : StronglySorted ranked_above pool)
    by apply sort_by_score_ranked.
  split; [apply sort_perm|].
  split; [exact Hpool|].
  split; [apply kind_keys_NoDup|].
  split; [intros k; apply kind_keys_In|].
  split.
  { intros k.
    assert (Hgrp : StronglySorted ranked_above (of_kind k pool))
      by (apply StronglySorted_filter, Hpool).
    split; [exact Hgrp|]. split; [apply head_length, Hcap|].
    destruct (head_split (of_kind k pool) per_kind_cap) as (rest & Hrest).
    exists rest. split; [exact Hrest|].
    apply StronglySorted_app_rel. fold (taken k) in Hrest.
    rewrite <- Hrest. exact Hgrp. }
  split.
  { exists (sort_by_score (List.concat (map taken (kind_keys pool)))).
    split; [apply sort_perm|].
    split; [apply sort_by_score_ranked | exact Hout]. }
  split; [exact Hout|].
  split.
  { eapply StronglySorted_weaken;
      [intros a b _ _; apply score_order_ranked|].
    apply Sorted_StronglySorted;
      [apply score_order_trans | apply recommend_sorted]. }
  split.
  { intros k. rewrite Hout.
    pose proof (of_kind_head k top_n
                  (sort_by_score
                     (List.concat (map taken (kind_keys pool))))) as H1.
    rewrite (of_kind_perm k _ _ (sort_perm score_before _)) in H1.
    pose proof (capped_groups_count k per_kind_cap pool (kind_keys pool)
                  Hcap (kind_keys_NoDup pool)) as H2.
    unfold sort_by_score, taken in *. lia. }
  intros k1 k2 Hn Hk Hall H1 H2.
  assert (Hcap1 : per_kind_cap = 1)
    by (unfold per_kind_cap; subst top_n; reflexivity).
  assert (Hkeys : List.length (kind_keys pool) = 2%nat).
  { apply Nat.le_antisymm.
    - apply (NoDup_incl_length (l' := [k1; k2])); [apply kind_keys_NoDup|].
      intros k Hin. apply kind_keys_In in Hin. destruct Hin as (r & Hr & <-).
      apply sorted_pool_In in Hr. destruct Hr as (m & Hm & ->).
      rewrite Forall_forall in Hall. specialize (Hall m Hm).
      unfold kind_of. simpl. destruct Hall as [-> | ->]; simpl; auto.
    - apply (NoDup_incl_length (l := [k1; k2])).
      + constructor; [simpl; intuition congruence|].
        constructor; [simpl; tauto | constructor].
      + assert (Hex : forall k,
                   (0 < List.length
                          (filter (fun m => key_eqb (kind m) k) passing))%nat ->
                   In k (kind_keys pool)).
        { intros k Hpos. apply filter_length_pos in Hpos.
          destruct Hpos as (m & Hm & Hkm). apply key_eqb_eq in Hkm.
          apply kind_keys_In. exists (add_scores calories_max m).
          split; [|exact Hkm]. apply sorted_pool_In. eauto. }
        intros k [<- | [<- | []]]; apply Hex; lia. }
  assert (Hlen : List.length out = 2%nat).
  { rewrite Hout, head_length by lia.
    unfold sort_by_score. rewrite sort_length. unfold taken.
    rewrite Hcap1, capped_groups_one_each, Hkeys; [subst top_n; reflexivity|].
    intros k Hin. apply kind_keys_In in Hin. destruct Hin as (r & Hr & Hkr).
    apply nonempty_In. exists r. apply of_kind_In. auto. }
  split; [exact Hlen | lia].
Qed.

(** ** Calorie fit *)

Lemma sub_self (x : float64) :
  is_finite x = true -> sub x x = S754_zero false.
Proof.
  destruct x as [s|s| |s m e]; try discriminate; intros _.
  - destruct s; reflexivity.
  - unfold sub, SFsub. rewrite Z.sub_diag. reflexivity.
Qed.

Lemma clip_clamp (x : float64) :
  clip x 0 1 = clamp x (of_int 0) (of_int 1).
Proof.
  assert (Hz : isna (of_int 0) = false) by reflexivity.
  assert (Ho : isna (of_int 1) = false) by reflexivity.
  assert (Hzo : SFleb (of_int 0) (of_int 1) = true) by reflexivity.
  unfold clip, clamp, ge, le, lt.
  set (z := of_int 0) in *. set (o := of_int 1) in *.
  destruct (isna x) eqn:Hx.
  - destruct x; try discriminate. destruct z, o; reflexivity.
  - rewrite (SFltb_not_leb x z Hx Hz), (SFltb_not_leb o x Ho Hx).
    cbn [orb].
    destruct (SFleb z x) eqn:E0, (SFleb x o) eqn:E1; cbn [negb];
      try reflexivity.
    destruct (SFleb_total x z Hx Hz) as [H | H]; [|congruence].
    rewrite (SFleb_trans _ _ _ H Hzo) in E1. discriminate.
Qed.

Lemma calorie_fit_of_spec (cm : Z) (m : MealRecord) :
  calorie_fit_of cm m = calorie_fit_spec (calories m) cm.
Proof. unfold calorie_fit_of, calorie_fit_spec. apply clip_clamp. Qed.

Lemma recommend_checked_ok (df : DataFrame) (meal : string)
  (cm pm sm n : Z) (out : list ScoredRow) :
  recommend_checked df meal cm pm sm n = Ok out ->
  out = recommend df meal cm pm sm n
  /\ fits_float cm = true /\ fits_float pm = true /\ fits_float sm = true.
Proof.
  unfold recommend_checked.
  destruct (fits_float cm), (fits_float pm), (fits_float sm); simpl;
    try discriminate.
  intros H. injection H as <-. auto.
Qed.

(** The divisor [max(calories_max, 1)] is a positive float. *)
Lemma divisor_positive (cm : Z) :
  fits_float cm = true ->
  exists d e, of_int (Z.max cm 1) = S754_finite false d e.
Proof.
  intros Hfit. destruct (Z.max_spec cm 1) as [[H ->] | [H ->]].
  - eexists _, _. reflexivity.
  - destruct (of_int_pos cm) as [Hpos | Hinf]; [lia | exact Hpos |].
    unfold fits_float in Hfit. rewrite Hinf in Hfit. discriminate.
Qed.

Lemma calorie_fit_at_ceiling (cm : Z) (m : MealRecord) :
  fits_float cm = true -> calories m = of_int cm ->
  calorie_fit_of cm m = lit_1_0.
Proof.
  intros Hcm Hc. unfold calorie_fit_of. rewrite Hc.
  rewrite sub_self by exact Hcm.
  destruct (divisor_positive cm Hcm) as (d & e & ->).
  reflexivity.
Qed.

(** C5.  When the call returns, the [calorie_fit] of every returned row,
    which is a surviving row, is
    [clamp(1 - |calories - calories_max| / max(calories_max, 1), 0, 1)];
    and every surviving row is returned with that [calorie_fit] by the
    calls that ask for enough rows (four times the number of survivors) for
    none to be cut.  The [calorie_fit] is 1.0 for a row whose calories equal
    [calories_max], and 0 for a row with zero calories when
    [calories_max = 700].  The divisor [max(calories_max, 1)] is at least
    1 and converts to a positive float, so nothing is divided by zero; for
    [calories_max = 0] it is 1.0. *)
Theorem calorie_fit_clamped (df : DataFrame) (meal : string)
  (calories_max protein_min sodium_max top_n : Z) (out : list ScoredRow) :
  recommend_checked df meal calories_max protein_min sodium_max top_n
  = Ok out ->
  let passing := survivors df meal calories_max protein_min sodium_max in
  Forall
    (fun r =>
       In (record r) passing
       /\ calorie_fit r
          = calorie_fit_spec (calories (record r)) calories_max
       /\ (calories (record r) = of_int calories_max ->
           calorie_fit r = lit_1_0)
       /\ (calories_max = 700 -> calories (record r) = of_int 0 ->
           calorie_fit r = of_int 0))
    out
  /\ (forall m n,
        In m passing ->
        4 * Z.of_nat (List.length passing) <= n ->
        exists r,
          In r (recommend df meal calories_max protein_min sodium_max n)
          /\ record r = m
          /\ calorie_fit r = calorie_fit_spec (calories m) calories_max)
  /\ 1 <= Z.max calories_max 1
  /\ (exists d e, of_int (Z.max calories_max 1) = S754_finite false d e)
  /\ (calories_max = 0 -> of_int (Z.max calories_max 1) = lit_1_0).
Proof.
  intros Hcall passing.
  apply recommend_checked_ok in Hcall. destruct Hcall as (-> & Hcm & _ & _).
  split; [|split; [|split; [|split]]].
  - apply Forall_forall. intros r Hr.
    apply recommend_from_survivors in Hr. destruct Hr as (m & Hm & ->).
    simpl. split; [exact Hm|]. split; [apply calorie_fit_of_spec|]. split.
    + apply calorie_fit_at_ceiling, Hcm.
    + intros -> Hzero. unfold calorie_fit_of. rewrite Hzero. reflexivity.
  - intros m n Hm Hn. exists (add_scores calories_max m).
    split; [apply recommend_all_In; assumption|].
    split; [reflexivity | apply calorie_fit_of_spec].
  - lia.
  - apply divisor_positive, Hcm.
  - intros ->. reflexivity.
Qed.

(** ** Preparation *)

Lemma isin_In (x : string) (l : list string) : isin x l = true <-> In x l.
Proof.
  unfold isin. rewrite existsb_exists. split.
  - intros (y & Hy & E). apply String.eqb_eq in E. subst. exact Hy.
  - intros H. exists x. split; [exact H | apply String.eqb_refl].
Qed.

Lemma isin_not_In (x : string) (l : list string) :
  isin x l = false <-> ~ In x l.
Proof.
  rewrite <- isin_In. destruct (isin x l); split; congruence.
Qed.


Lemma first_missing_none (req cols : list string) :
  first_missing req cols = None <-> (forall c, In c req -> In c cols).
Proof.
  induction req as [|c0 req IH]; simpl.
  - split; [intros _ c [] | reflexivity].
  - destruct (isin c0 cols) eqn:E.
    + rewrite IH. apply isin_In in E. split.
      * intros H c [<- | Hc]; auto.
      * intros H c Hc. apply H. auto.
    + apply isin_not_In in E. split; [discriminate|].
      intros H. exfalso. apply E, H. auto.
Qed.

Lemma in_range_finite (lo hi : Z) (x : float64) :
  is_finite (of_int lo) = true -> is_finite (of_int hi) = true ->
  in_range lo x hi -> is_finite x = true.
Proof.
  unfold in_range, le. intros Hlo Hhi [H1 H2].
  destruct x as [s|s| |s m e]; try reflexivity.
  - destruct s.
    + destruct (of_int lo); try discriminate; destruct s; discriminate.
    + destruct (of_int hi); try discriminate; destruct s; discriminate.
  - destruct (of_int lo); discriminate.
Qed.

Lemma between_in_range (x : float64) (lo hi : Z) :
  between x lo hi = true -> in_range lo x hi.
Proof.
  unfold between, in_range, ge, le. intros H.
  apply andb_true_iff in H. exact H.
Qed.

Lemma normalize_slot_enum (s : option string) : In (normalize_slot s) slots.
Proof.
  unfold normalize_slot. destruct s as [s|]; [|simpl; auto].
  destruct (isin s ["suhoor"; "iftar"; "either"]) eqn:E.
  - apply isin_In in E. exact E.
  - simpl. auto.
Qed.


Lemma existsb_numeric (cols : list string) :
  existsb (fun c => repeated c cols) numeric_columns = true <->
  exists c, In c numeric_columns /\ repeated c cols = true.
Proof.
  rewrite existsb_exists. split; intros (c & H1 & H2); exists c; auto.
Qed.

Lemma numeric_not_repeated (cols : list string) :
  existsb (fun c => repeated c cols) numeric_columns = false <->
  forall c, In c numeric_columns -> repeated c cols = false.
Proof.
  split.
  - intros H c Hc. destruct (repeated c cols) eqn:E; [|reflexivity].
    rewrite <- H. symmetry. apply existsb_numeric. eauto.
  - intros H. destruct (existsb _ numeric_columns) eqn:E; [|reflexivity].
    apply existsb_numeric in E. destruct E as (c & Hc & E).
    rewrite (H c Hc) in E. discriminate.
Qed.

Section PrepareFacts.

Variable parse_number : string -> option float64.
Variable float_str : float64 -> string.

Lemma prepare_row_invariant (cols : list string) (r0 : RawRow) :
  notna_mask parse_number r0 = true ->
  sanity_mask parse_number r0 = true ->
  prepared_row (prepare_row parse_number float_str cols r0).
Proof.
  unfold notna_mask, sanity_mask. intros Hna Hsane.
  apply andb_true_iff in Hna. destruct Hna as [Hna Hs].
  apply andb_true_iff in Hna. destruct Hna as [Hna Hf].
  apply andb_true_iff in Hna. destruct Hna as [Hna Hp].
  apply andb_true_iff in Hna. destruct Hna as [Ht Hc].
  apply andb_true_iff in Hsane. destruct Hsane as [Hsane Rs].
  apply andb_true_iff in Hsane. destruct Hsane as [Hsane Rf].
  apply andb_true_iff in Hsane. destruct Hsane as [Rc Rp].
  apply between_in_range in Rc, Rp, Rf, Rs.
  constructor; simpl; try assumption.
  - apply negb_true_iff. assumption.
  - repeat split; eapply in_range_finite; try eassumption; reflexivity.
  - destruct (isin "meal_slot" cols); simpl.
    + apply normalize_slot_enum.
    + auto.
Qed.

(** What a successful preparation says of the source and of the result. *)
Lemma prepare_ok_inv (raw : RawFrame) (df : DataFrame) :
  prepare_for_app parse_number float_str raw = Ok df ->
  first_missing required (raw_columns raw) = None
  /\ existsb (fun c => repeated c (raw_columns raw)) numeric_columns = false
  /\ repeated "meal_slot" (raw_columns raw) = false
  /\ repeated "kind" (raw_columns raw) = false
  /\ columns df = prepared_columns (raw_columns raw)
  /\ rows df
     = map (prepare_row parse_number float_str (raw_columns raw))
           (filter (sanity_mask parse_number)
                   (filter (notna_mask parse_number) (raw_rows raw))).
Proof.
  unfold prepare_for_app. cbv zeta.
  destruct (first_missing required (raw_columns raw)); [discriminate|].
  destruct (existsb _ numeric_columns); [discriminate|].
  destruct (repeated "meal_slot" (raw_columns raw)); [discriminate|].
  destruct (repeated "kind" (raw_columns raw)); [discriminate|].
  simpl. intros H. injection H as <-. repeat split; reflexivity.
Qed.

Lemma prepare_rows (raw : RawFrame) (df : DataFrame) :
  prepare_for_app parse_number float_str raw = Ok df ->
  rows df
  = map (prepare_row parse_number float_str (raw_columns raw))
        (filter (sanity_mask parse_number)
                (filter (notna_mask parse_number) (raw_rows raw))).
Proof. intros H. apply prepare_ok_inv in H. tauto. Qed.


(** With the five required columns, the three outcomes. *)
Lemma prepare_cases (raw : RawFrame) :
  let cols := raw_columns raw in
  let result := prepare_for_app parse_number float_str raw in
  first_missing required cols = None ->
  result = Raise (TypeError to_numeric_message)
  /\ existsb (fun c => repeated c cols) numeric_columns = true
  \/ result = Raise (AttributeError no_str_message)
     /\ existsb (fun c => repeated c cols) numeric_columns = false
     /\ repeated "meal_slot" cols || repeated "kind" cols = true
  \/ (exists df, result = Ok df)
     /\ existsb (fun c => repeated c cols) numeric_columns = false
     /\ repeated "meal_slot" cols || repeated "kind" cols = false.
Proof.
  intros cols result Hall. subst result. unfold prepare_for_app.
  cbv zeta. fold cols. rewrite Hall.
  destruct (existsb _ numeric_columns); [auto|].
  destruct (repeated "meal_slot" cols || repeated "kind" cols);
    [auto|]. right. right. split; [eexists; reflexivity | auto].
Qed.

Lemma prepare_ok_iff (raw : RawFrame) :
  first_missing required (raw_columns raw) = None ->
  (exists df, prepare_for_app parse_number float_str raw = Ok df) <->
  forall c,
    In c (numeric_columns ++ ["meal_slot"; "kind"])%list ->
    repeated c (raw_columns raw) = false.
Proof.
  intros Hall.
  destruct (prepare_cases raw Hall)
    as [[E H] | [(E & H & H') | [[df E] [H H']]]].
  - split; [intros [df' E']; congruence|].
    intros Hno. apply existsb_numeric in H. destruct H as (c & Hc & H).
    rewrite Hno in H by (apply in_or_app; auto). discriminate.
  - split; [intros [df' E']; congruence|].
    intros Hno. apply orb_true_iff in H'.
    destruct H' as [H' | H']; rewrite Hno in H';
      try discriminate; apply in_or_app; right; simpl; auto.
  - split; [|eauto]. intros _ c Hc. apply in_app_or in Hc.
    apply orb_false_iff in H'. destruct H' as [H1 H2].
    destruct Hc as [Hc | [<- | [<- | []]]]; auto.
    apply numeric_not_repeated; assumption.
Qed.

Lemma in_range_between (x : float64) (lo hi : Z) :
  in_range lo x hi -> between x lo hi = true.
Proof.
  unfold between, in_range, ge, le. intros [H1 H2]. rewrite H1, H2.
  reflexivity.
Qed.

(** A row of the source with a title and nutrients in their ranges is
    kept. *)
Lemma prepare_keeps (raw : RawFrame) (df : DataFrame) (r0 : RawRow) :
  prepare_for_app parse_number float_str raw = Ok df ->
  In r0 (raw_rows raw) ->
  cell_isna (raw_title r0) = false ->
  in_range 1 (num_calories parse_number r0) 1993 ->
  in_range 0 (num_protein parse_number r0) 200 ->
  in_range 0 (num_fat parse_number r0) 194 ->
  in_range 0 (num_sodium parse_number r0) 5980 ->
  In (prepare_row parse_number float_str (raw_columns raw) r0) (rows df).
Proof.
  intros Hprep Hr0 Ht Rc Rp Rf Rs. rewrite (prepare_rows _ _ Hprep).
  apply in_map. apply filter_In. split.
  - apply filter_In. split; [exact Hr0|].
    unfold notna_mask. rewrite Ht.
    destruct Rc as [_ Rc], Rp as [_ Rp], Rf as [_ Rf], Rs as [_ Rs].
    apply SFleb_notna in Rc, Rp, Rf, Rs.
    destruct Rc as [-> _], Rp as [-> _], Rf as [-> _], Rs as [-> _].
    reflexivity.
  - unfold sanity_mask.
    rewrite !in_range_between by assumption. reflexivity.
Qed.

End PrepareFacts.

(** C8.  Every row of the table [prepare_for_app] produces has
    [1 <= calories <= 1993], [0 <= protein <= 200], [0 <= fat <= 194] and
    [0 <= sodium <= 5980], a title that is not null, nutrient fields that
    are numbers (finite, not NaN), and a [meal_slot] among "suhoor", "iftar"
    and "either": the slot of the source once trimmed and lowercased when it
    is one of the three, "either" when the column is absent, the value is
    missing or it is another text.  The table is not emptied: every row of
    the source with a title and with nutrients that read as numbers of
    these ranges is in it. *)
Theorem prepared_table_invariant
  (parse_number : string -> option float64) (float_str : float64 -> string)
  (raw : RawFrame) (df : DataFrame) :
  prepare_for_app parse_number float_str raw = Ok df ->
  Forall prepared_row (rows df)
  /\ Forall
       (fun r =>
          exists r0,
            In r0 (raw_rows raw) /\ title r = raw_title r0 /\
            meal_slot r
            = if isin "meal_slot" (raw_columns raw) then
                if cell_isna (raw_meal_slot r0) then "either"
                else
                  let s :=
                    lower (strip (astype_str float_str (raw_meal_slot r0)))
                  in if isin s slots then s else "either"
              else "either")
       (rows df)
  /\ (forall r0,
        In r0 (raw_rows raw) ->
        cell_isna (raw_title r0) = false ->
        in_range 1 (to_numeric parse_number (raw_calories r0)) 1993 ->
        in_range 0 (to_numeric parse_number (raw_protein r0)) 200 ->
        in_range 0 (to_numeric parse_number (raw_fat r0)) 194 ->
        in_range 0 (to_numeric parse_number (raw_sodium r0)) 5980 ->
        exists r,
          In r (rows df) /\ title r = raw_title r0
          /\ calories r = to_numeric parse_number (raw_calories r0)
          /\ protein r = to_numeric parse_number (raw_protein r0)
          /\ fat r = to_numeric parse_number (raw_fat r0)
          /\ sodium r = to_numeric parse_number (raw_sodium r0)).
Proof.
  intros Hprep.
  assert (Hkeep : forall r0,
             In r0 (raw_rows raw) ->
             cell_isna (raw_title r0) = false ->
             in_range 1 (to_numeric parse_number (raw_calories r0)) 1993 ->
             in_range 0 (to_numeric parse_number (raw_protein r0)) 200 ->
             in_range 0 (to_numeric parse_number (raw_fat r0)) 194 ->
             in_range 0 (to_numeric parse_number (raw_sodium r0)) 5980 ->
             exists r,
               In r (rows df) /\ title r = raw_title r0
               /\ calories r = to_numeric parse_number (raw_calories r0)
               /\ protein r = to_numeric parse_number (raw_protein r0)
               /\ fat r = to_numeric parse_number (raw_fat r0)
               /\ sodium r = to_numeric parse_number (raw_sodium r0)).
  { intros r0 Hr0 Ht Rc Rp Rf Rs.
    exists (prepare_row parse_number float_str (raw_columns raw) r0).
    split; [|repeat split].
    eapply prepare_keeps; eassumption. }
  refine ((fun H => conj (proj1 H) (conj (proj2 H) Hkeep)) _).
  rewrite (prepare_rows _ _ _ _ Hprep).
  split; apply Forall_forall; intros r Hr;
    apply in_map_iff in Hr; destruct Hr as (r0 & <- & Hr0);
    apply filter_In in Hr0; destruct Hr0 as [Hr0 Hsane];
    apply filter_In in Hr0; destruct Hr0 as [Hr0 Hna].
  - apply prepare_row_invariant; assumption.
  - exists r0. split; [assumption|]. split; [reflexivity|].
    simpl. destruct (isin "meal_slot" (raw_columns raw)); [|reflexivity].
    simpl. unfold normalized_text.
    destruct (cell_isna (raw_meal_slot r0)); reflexivity.
Qed.


(* ================================================================== *)
(** * Further properties of the program *)
(* ================================================================== *)

(** ** Operations that do not produce NaN *)

Lemma sub_notna_l (x y : float64) :
  is_finite x = true -> isna y = false -> isna (sub x y) = false.
Proof.
  unfold sub, SFsub.
  destruct x as [sx|sx| |sx mx ex], y as [sy|sy| |sy my ey];
    try discriminate; intros _ _; try reflexivity.
  - destruct sx, sy; reflexivity.
  - apply binary_normalize_notna.
Qed.

Lemma sub_notna_r (x y : float64) :
  isna x = false -> is_finite y = true -> isna (sub x y) = false.
Proof.
  unfold sub, SFsub.
  destruct x as [sx|sx| |sx mx ex], y as [sy|sy| |sy my ey];
    try discriminate; intros _ _; try reflexivity.
  - destruct sx, sy; reflexivity.
  - apply binary_normalize_notna.
Qed.

Lemma add_notna_l (x y : float64) :
  is_finite x = true -> isna y = false -> isna (add x y) = false.
Proof.
  unfold add, SFadd.
  destruct x as [sx|sx| |sx mx ex], y as [sy|sy| |sy my ey];
    try discriminate; intros _ _; try reflexivity.
  - destruct sx, sy; reflexivity.
  - apply binary_normalize_notna.
Qed.

Lemma abs_isna (x : float64) : isna (abs x) = isna x.
Proof. destruct x; reflexivity. Qed.

Lemma mul_notna (x : float64) (s : bool) (m : positive) (e : Z) :
  isna x = false -> isna (mul x (S754_finite s m e)) = false.
Proof.
  unfold mul, SFmul. destruct x as [sx|sx| |sx mx ex]; try discriminate;
    intros _; try reflexivity.
  apply binary_round_aux_notna. lia.
Qed.

Lemma div_notna (x : float64) (s : bool) (m : positive) (e : Z) :
  isna x = false -> isna (div x (S754_finite s m e)) = false.
Proof.
  unfold div, SFdiv. destruct x as [sx|sx| |sx mx ex]; try discriminate;
    intros _; try reflexivity.
  unfold SFdiv_core_binary.
  set (s' := _ - _ - _).
  set (m' := match s' with Z0 => _ | Zpos _ => _ | Zneg _ => _ end).
  assert (Hm' : 0 <= m').
  { subst m'. destruct s'; try lia. apply Z.shiftl_nonneg. lia. }
  pose proof (Z.div_pos m' (Zpos m) Hm' ltac:(lia)) as Hq.
  unfold Z.div in Hq.
  destruct (Z.div_eucl m' (Z.pos m)) as [q r]. simpl in Hq.
  apply binary_round_aux_notna. exact Hq.
Qed.

Lemma clip_unit_range (x : float64) :
  isna x = false -> in_range 0 (clip x 0 1) 1.
Proof.
  intros Hx.
  assert (Hzo : SFleb (of_int 0) (of_int 1) = true) by reflexivity.
  assert (Hzz : SFleb (of_int 0) (of_int 0) = true) by reflexivity.
  assert (Hoo : SFleb (of_int 1) (of_int 1) = true) by reflexivity.
  unfold in_range, clip, ge, le. rewrite Hx. cbn [orb].
  set (z := of_int 0) in *. set (o := of_int 1) in *.
  destruct (SFleb z x) eqn:E0, (SFleb x o) eqn:E1; auto.
Qed.

Lemma calorie_fit_of_range (cm : Z) (m : MealRecord) :
  Z.abs cm < 2 ^ 53 -> isna (calories m) = false ->
  in_range 0 (calorie_fit_of cm m) 1.
Proof.
  intros Hcm Hc. unfold calorie_fit_of. apply clip_unit_range.
  apply sub_notna_l; [reflexivity|].
  destruct (of_int_pos_finite (Z.max cm 1)) as (d & e & ->); [lia|].
  apply div_notna. rewrite abs_isna.
  apply sub_notna_r; [exact Hc | apply of_int_finite, Hcm].
Qed.

Lemma survivors_rows (df : DataFrame) (meal : string) (cm pm sm : Z)
  (m : MealRecord) :
  In m (survivors df meal cm pm sm) -> In m (rows df).
Proof.
  unfold survivors. cbv zeta. intros H. apply filter_In in H.
  destruct H as [H _].
  destruct (isin (lower (strip meal)) ["suhoor"; "iftar"]); [|exact H].
  apply filter_In in H. tauto.
Qed.

Lemma survivor_calories_notna (df : DataFrame) (meal : string)
  (cm pm sm : Z) (m : MealRecord) :
  In m (survivors df meal cm pm sm) -> isna (calories m) = false.
Proof.
  intros Hm. apply survivors_bounds in Hm. unfold bounds_mask in Hm.
  apply andb_true_iff in Hm. destruct Hm as [Hm _].
  apply andb_true_iff in Hm. destruct Hm as [Hm _].
  apply SFleb_notna in Hm. tauto.
Qed.

(** X1.  For an integer ceiling that binary64 holds exactly, the
    [calorie_fit] of every returned row is a number between 0 and 1: the
    clip never lets a NaN through, because no surviving row has NaN
    calories. *)
Theorem calorie_fit_in_unit_interval (df : DataFrame) (meal : string)
  (calories_max protein_min sodium_max top_n : Z) :
  Z.abs calories_max < 2 ^ 53 ->
  Forall
    (fun r => isna (calorie_fit r) = false /\ in_range 0 (calorie_fit r) 1)
    (recommend df meal calories_max protein_min sodium_max top_n).
Proof.
  intros Hcm. apply Forall_forall. intros r Hr.
  apply recommend_from_survivors in Hr. destruct Hr as (m & Hm & ->).
  apply survivor_calories_notna in Hm. simpl.
  pose proof (calorie_fit_of_range calories_max m Hcm Hm) as Hr.
  split; [|exact Hr]. destruct Hr as [_ Hr]. apply SFleb_notna in Hr. tauto.
Qed.

(** X2.  On a table whose [final_score] values are all finite, no returned
    score is NaN, so the result is ordered by plain [>=]: the score of a
    row is at least the score of every row after it. *)
Theorem finite_scores_sorted (df : DataFrame) (meal : string)
  (calories_max protein_min sodium_max top_n : Z) :
  Z.abs calories_max < 2 ^ 53 ->
  Forall (fun m => is_finite (final_score m) = true) (rows df) ->
  let out := recommend df meal calories_max protein_min sodium_max top_n in
  Forall (fun r => isna (score r) = false) out
  /\ StronglySorted score_ge out.
Proof.
  intros Hcm Hfin out.
  assert (Hnum : Forall (fun r => isna (score r) = false) out).
  { apply Forall_forall. intros r Hr.
    apply recommend_from_survivors in Hr. destruct Hr as (m & Hm & ->).
    simpl. apply add_notna_l.
    - rewrite Forall_forall in Hfin. apply Hfin.
      eapply survivors_rows; eassumption.
    - apply mul_notna.
      pose proof (calorie_fit_of_range calories_max m Hcm
                    (survivor_calories_notna _ _ _ _ _ _ Hm)) as [_ Hr].
      apply SFleb_notna in Hr. tauto. }
  split; [exact Hnum|].
  eapply StronglySorted_weaken;
    [|apply Sorted_StronglySorted;
      [apply score_order_trans | apply recommend_sorted]].
  intros a b _ Hb Hab. rewrite Forall_forall in Hnum.
  unfold score_order, score_before in Hab. unfold score_ge.
  rewrite desc_nan_last_ge in Hab by (apply Hnum, Hb). exact Hab.
Qed.

(** ** The result is drawn from the table *)

Section SubMultiset.

Context {A : Type}.

Lemma sub_multiset_perm (l l' : list A) :
  Permutation l l' -> sub_multiset l l'.
Proof. intros H. exists []. rewrite app_nil_r. exact H. Qed.

Lemma sub_multiset_trans (l1 l2 l3 : list A) :
  sub_multiset l1 l2 -> sub_multiset l2 l3 -> sub_multiset l1 l3.
Proof.
  intros [r1 H1] [r2 H2]. exists (r1 ++ r2)%list.
  rewrite app_assoc. eapply perm_trans; [|exact H2].
  apply Permutation_app_tail. exact H1.
Qed.

Lemma sub_multiset_firstn (n : nat) (l : list A) :
  sub_multiset (firstn n l) l.
Proof. exists (skipn n l). rewrite firstn_skipn. apply Permutation_refl. Qed.

Lemma sub_multiset_head (l : list A) (n : Z) : sub_multiset (head l n) l.
Proof. unfold head. destruct (0 <=? n); apply sub_multiset_firstn. Qed.

Lemma filter_split_perm (f : A -> bool) (l : list A) :
  Permutation (filter f l ++ filter (fun x => negb (f x)) l) l.
Proof.
  induction l as [|x l IH]; simpl; [constructor|].
  destruct (f x); simpl.
  - apply perm_skip, IH.
  - apply Permutation_sym, Permutation_cons_app, Permutation_sym, IH.
Qed.

Lemma sub_multiset_filter (f : A -> bool) (l : list A) :
  sub_multiset (filter f l) l.
Proof. eexists. apply filter_split_perm. Qed.

Lemma sub_multiset_app (a a' b b' : list A) :
  sub_multiset a a' -> sub_multiset b b' ->
  sub_multiset (a ++ b) (a' ++ b').
Proof.
  intros [ra Ha] [rb Hb]. exists (ra ++ rb)%list.
  eapply perm_trans; [|apply Permutation_app; [exact Ha | exact Hb]].
  rewrite <- !app_assoc. apply Permutation_app_head.
  rewrite !app_assoc. apply Permutation_app_tail, Permutation_app_comm.
Qed.

End SubMultiset.

Lemma sub_multiset_map {A B : Type} (g : A -> B) (l l' : list A) :
  sub_multiset l l' -> sub_multiset (map g l) (map g l').
Proof.
  intros [r H]. exists (map g r). rewrite <- map_app.
  apply Permutation_map, H.
Qed.

Lemma capped_groups_sub (c : Z) (pool : list ScoredRow)
  (keys : list (option string)) :
  NoDup keys ->
  sub_multiset
    (List.concat (map (fun k => head (of_kind k pool) c) keys)) pool.
Proof.
  intros Hnd.
  apply (sub_multiset_trans _ (of_kinds keys pool));
    [|apply sub_multiset_filter].
  induction Hnd as [|k keys Hk Hnd IH]; simpl.
  - exists (of_kinds [] pool). apply Permutation_refl.
  - eapply sub_multiset_trans;
      [|apply sub_multiset_perm, of_kinds_cons, Hk].
    apply sub_multiset_app; [apply sub_multiset_head | exact IH].
Qed.

Lemma recommend_sub_pool (df : DataFrame) (meal : string) (cm pm sm n : Z) :
  sub_multiset (recommend df meal cm pm sm n) (sorted_pool df meal cm pm sm).
Proof.
  rewrite recommend_unfold.
  destruct (survivors df meal cm pm sm) eqn:E.
  - exists (sorted_pool df meal cm pm sm). apply Permutation_refl.
  - cbv zeta. destruct (isin "kind" (columns df)).
    + eapply sub_multiset_trans; [apply sub_multiset_head|].
      eapply sub_multiset_trans;
        [apply sub_multiset_perm, sort_perm|].
      apply capped_groups_sub, kind_keys_NoDup.
    + apply sub_multiset_head.
Qed.

Lemma survivors_sub_rows (df : DataFrame) (meal : string) (cm pm sm : Z) :
  sub_multiset (survivors df meal cm pm sm) (rows df).
Proof.
  unfold survivors. cbv zeta.
  eapply sub_multiset_trans; [apply sub_multiset_filter|].
  destruct (isin (lower (strip meal)) ["suhoor"; "iftar"]).
  - apply sub_multiset_filter.
  - apply sub_multiset_perm, Permutation_refl.
Qed.

(** X3.  [recommend] neither invents nor repeats rows: the records it
    returns are rows of the table, each returned at most as often as the
    table holds it, and the two added columns of a returned row are those
    computed from its record. *)
Theorem recommend_rows_from_table (df : DataFrame) (meal : string)
  (calories_max protein_min sodium_max top_n : Z) :
  let out := recommend df meal calories_max protein_min sodium_max top_n in
  sub_multiset (map record out) (rows df)
  /\ Forall (fun r => r = add_scores calories_max (record r)) out.
Proof.
  intros out. split.
  - eapply sub_multiset_trans; [|apply survivors_sub_rows].
    eapply sub_multiset_trans;
      [apply sub_multiset_map, recommend_sub_pool|].
    apply sub_multiset_perm. unfold sorted_pool, sort_by_score.
    eapply perm_trans; [apply Permutation_map, sort_perm|].
    rewrite map_map. simpl. rewrite map_id. apply Permutation_refl.
  - apply Forall_forall. intros r Hr.
    apply recommend_from_survivors in Hr. destruct Hr as (m & _ & ->).
    reflexivity.
Qed.

(** ** Which rows are returned *)

Lemma recommend_without_kind (df : DataFrame) (meal : string)
  (cm pm sm n : Z) :
  isin "kind" (columns df) = false ->
  recommend df meal cm pm sm n = head (sorted_pool df meal cm pm sm) n.
Proof.
  intros Hk. rewrite recommend_unfold. unfold sorted_pool.
  destruct (survivors df meal cm pm sm); cbv zeta.
  - simpl. symmetry. apply head_nil.
  - rewrite Hk. reflexivity.
Qed.

Lemma sorted_pool_sorted (df : DataFrame) (meal : string) (cm pm sm : Z) :
  StronglySorted score_order (sorted_pool df meal cm pm sm).
Proof.
  apply Sorted_StronglySorted; [apply score_order_trans|].
  unfold sorted_pool. apply sort_by_score_sorted.
Qed.

(** X4.  Without a [kind] column and with [top_n >= 0], the result holds
    [min(top_n, number of survivors)] of the surviving rows, the best ones:
    the returned rows and the surviving rows left out are together the
    surviving rows with their scores, and every returned row is ranked
    above every row left out (a score at least as high, or the row left
    out has no score). *)
Theorem recommend_top_n_without_kind (df : DataFrame) (meal : string)
  (calories_max protein_min sodium_max top_n : Z) :
  isin "kind" (columns df) = false ->
  0 <= top_n ->
  let passing := survivors df meal calories_max protein_min sodium_max in
  let out := recommend df meal calories_max protein_min sodium_max top_n in
  exists rest,
    Permutation (out ++ rest) (map (add_scores calories_max) passing)
    /\ (forall a b, In a out -> In b rest -> ranked_above a b)
    /\ List.length out = Nat.min (Z.to_nat top_n) (List.length passing).
Proof.
  intros Hk Hn passing out.
  set (pool := sorted_pool df meal calories_max protein_min sodium_max).
  assert (Hout : out = firstn (Z.to_nat top_n) pool).
  { unfold out. rewrite recommend_without_kind by assumption.
    unfold head. destruct (Z.leb_spec 0 top_n); [reflexivity | lia]. }
  exists (skipn (Z.to_nat top_n) pool).
  assert (Hsplit : pool = (out ++ skipn (Z.to_nat top_n) pool)%list).
  { rewrite Hout. symmetry. apply firstn_skipn. }
  split; [|split].
  - rewrite <- Hsplit. apply sort_perm.
  - apply StronglySorted_app_rel. rewrite <- Hsplit.
    apply sort_by_score_ranked.
  - rewrite Hout, length_firstn. unfold pool.
    rewrite sorted_pool_length. reflexivity.
Qed.

Lemma head_cons {A : Type} (x : A) (l : list A) (n : Z) :
  1 <= n -> head (x :: l) n = x :: head l (n - 1).
Proof.
  intros Hn. unfold head.
  destruct (Z.leb_spec 0 n); [|lia].
  destruct (Z.leb_spec 0 (n - 1)); [|lia].
  replace (Z.to_nat n) with (S (Z.to_nat (n - 1))) by lia.
  reflexivity.
Qed.

Lemma score_order_refl (a : ScoredRow) : score_order a a.
Proof.
  unfold score_order. destruct (score_before_total a a); assumption.
Qed.

Lemma first_dominates (x : ScoredRow) (l : list ScoredRow) :
  StronglySorted score_order (x :: l) ->
  forall b, In b (x :: l) -> score_order x b.
Proof.
  intros Hs b [<- | Hb]; [apply score_order_refl|].
  inversion Hs as [|? ? _ Hall]; subst.
  rewrite Forall_forall in Hall. apply Hall, Hb.
Qed.

(** X5.  With [top_n >= 1] and at least one survivor, the first row
    returned has the best score of all surviving rows, with or without a
    [kind] column: its score is at least the score of every surviving row
    that has one, so the cap per kind never removes the best row. *)
Theorem recommend_best_first (df : DataFrame) (meal : string)
  (calories_max protein_min sodium_max top_n : Z) :
  1 <= top_n ->
  survivors df meal calories_max protein_min sodium_max <> [] ->
  exists x rest,
    recommend df meal calories_max protein_min sodium_max top_n = x :: rest
    /\ forall m,
         In m (survivors df meal calories_max protein_min sodium_max) ->
         ranked_above x (add_scores calories_max m).
Proof.
  intros Hn Hs.
  assert (Hgoal :
            exists x rest,
              recommend df meal calories_max protein_min sodium_max top_n
              = x :: rest
              /\ forall m,
                   In m (survivors df meal calories_max protein_min
                                   sodium_max) ->
                   score_order x (add_scores calories_max m)).
  2:{ destruct Hgoal as (x & rest & Hx & Hbest). exists x, rest.
      split; [exact Hx|]. intros m Hm. apply score_order_ranked, Hbest, Hm. }
  pose proof (sorted_pool_sorted df meal calories_max protein_min sodium_max)
    as Hsorted.
  pose proof (sorted_pool_length df meal calories_max protein_min sodium_max)
    as Hlen.
  pose proof (sorted_pool_In df meal calories_max protein_min sodium_max)
    as Hin.
  rewrite recommend_unfold.
  destruct (survivors df meal calories_max protein_min sodium_max)
    as [|m0 ms] eqn:E; [congruence|].
  cbv zeta.
  set (pool := sorted_pool df meal calories_max protein_min sodium_max) in *.
  destruct pool as [|p0 pool'] eqn:Epool; [discriminate|].
  assert (Hp0 : forall m, In m (m0 :: ms) ->
                          score_order p0 (add_scores calories_max m)).
  { intros m Hm. apply (first_dominates p0 pool' Hsorted).
    apply Hin. eauto. }
  destruct (isin "kind" (columns df)).
  - set (cap := Z.max 1 (top_n / 4)).
    set (L := sort_by_score
                (List.concat
                   (map (fun k => head (of_kind k (p0 :: pool')) cap)
                        (kind_keys (p0 :: pool'))))).
    assert (HinL : In p0 L).
    { unfold L, sort_by_score. apply sort_In. apply in_concat.
      exists (head (of_kind (kind_of p0) (p0 :: pool')) cap). split.
      - apply in_map_iff. exists (kind_of p0). split; [reflexivity|].
        apply kind_keys_In. exists p0. split; [left|]; reflexivity.
      - unfold of_kind. simpl. rewrite key_eqb_refl.
        rewrite head_cons by (unfold cap; lia). left. reflexivity. }
    assert (HsL : StronglySorted score_order L).
    { apply Sorted_StronglySorted; [apply score_order_trans|].
      apply sort_by_score_sorted. }
    destruct L as [|x L']; [contradiction|].
    exists x, (head L' (top_n - 1)). split; [apply head_cons, Hn|].
    intros m Hm. eapply score_order_trans; [|apply Hp0, Hm].
    apply (first_dominates x L' HsL), HinL.
  - exists p0, (head pool' (top_n - 1)). split; [apply head_cons, Hn|].
    exact Hp0.
Qed.

Lemma concat_length_sum {A : Type} (ls : list (list A)) :
  List.length (List.concat ls) = list_sum (map (@List.length A) ls).
Proof.
  induction ls as [|l ls IH]; simpl; [reflexivity|].
  rewrite length_app, IH. reflexivity.
Qed.

Lemma capped_sum_bound (c : nat) (sizes : list nat) :
  (list_sum (map (Nat.min c) sizes) <= List.length sizes * c)%nat.
Proof.
  induction sizes as [|s sizes IH]; simpl; lia.
Qed.

(** X6.  With a [kind] column and [top_n >= 0], the number of rows returned
    is [min(top_n, sum over the kinds present of min(per_kind_cap, size of
    the kind's group))]; it is at most the number of kinds times
    [per_kind_cap], so it can stay below [top_n] however many rows pass the
    filters. *)
Theorem recommend_length_with_kind (df : DataFrame) (meal : string)
  (calories_max protein_min sodium_max top_n : Z) :
  isin "kind" (columns df) = true ->
  0 <= top_n ->
  let pool := sorted_pool df meal calories_max protein_min sodium_max in
  let cap := Z.to_nat (Z.max 1 (top_n / 4)) in
  let out := recommend df meal calories_max protein_min sodium_max top_n in
  List.length out
  = Nat.min (Z.to_nat top_n)
      (list_sum
         (map (fun k => Nat.min cap (List.length (of_kind k pool)))
              (kind_keys pool)))
  /\ (List.length out <= List.length (kind_keys pool) * cap)%nat.
Proof.
  intros Hk Hn pool cap out.
  assert (Hlen :
            List.length out
            = Nat.min (Z.to_nat top_n)
                (list_sum
                   (map (fun k => Nat.min cap (List.length (of_kind k pool)))
                        (kind_keys pool)))).
  { unfold out. rewrite recommend_with_kind by assumption. cbv zeta.
    rewrite head_length by assumption.
    unfold sort_by_score. rewrite sort_length, concat_length_sum, map_map.
    f_equal. f_equal. apply map_ext. intros k.
    apply head_length. lia. }
  split; [exact Hlen|].
  rewrite Hlen.
  etransitivity; [apply Nat.le_min_r|].
  rewrite <- (map_map (fun k => List.length (of_kind k pool)) (Nat.min cap)).
  etransitivity; [apply capped_sum_bound|].
  rewrite length_map. reflexivity.
Qed.

(** X7.  [top_n] is not validated.  With [top_n = 0] nothing is returned
    whatever the table holds; with a negative [top_n] and no [kind] column
    the call does not fail but returns the ranked pool without its last
    [-top_n] rows, so rows are returned as soon as more than [-top_n]
    survive. *)
Theorem recommend_nonpositive_top_n (df : DataFrame) (meal : string)
  (calories_max protein_min sodium_max top_n : Z) :
  recommend df meal calories_max protein_min sodium_max 0 = []
  /\ (top_n < 0 ->
      isin "kind" (columns df) = false ->
      let pool := sorted_pool df meal calories_max protein_min sodium_max in
      let out := recommend df meal calories_max protein_min sodium_max top_n
      in
      (exists dropped,
          pool = (out ++ dropped)%list
          /\ List.length dropped
             = Nat.min (Z.to_nat (- top_n)) (List.length pool))
      /\ List.length out
         = (List.length
              (survivors df meal calories_max protein_min sodium_max)
            - Z.to_nat (- top_n))%nat).
Proof.
  split.
  - rewrite recommend_unfold.
    destruct (survivors df meal calories_max protein_min sodium_max);
      [reflexivity|].
    cbv zeta. destruct (isin "kind" (columns df)); reflexivity.
  - intros Hn Hk pool out.
    assert (Hout : out = firstn (List.length pool - Z.to_nat (- top_n)) pool).
    { unfold out. rewrite recommend_without_kind by assumption.
      unfold head. destruct (Z.leb_spec 0 top_n); [lia | reflexivity]. }
    split.
    + exists (skipn (List.length pool - Z.to_nat (- top_n)) pool). split.
      * rewrite Hout. symmetry. apply firstn_skipn.
      * rewrite length_skipn. lia.
    + rewrite Hout, length_firstn. unfold pool.
      rewrite sorted_pool_length. lia.
Qed.

(** ** [strip] and [lower] *)

Lemma strip_prefix_some (w l t : list ascii) :
  strip_prefix w l = Some t <-> l = (w ++ t)%list.
Proof.
  revert l. induction w as [|c w IH]; intros l; simpl.
  - split; [intros H; injection H as ->; reflexivity
           | intros ->; reflexivity].
  - destruct l as [|d l]; [split; discriminate|].
    destruct (Ascii.eqb_spec c d) as [-> | Hne].
    + rewrite IH. split; [intros ->; reflexivity | intros H; injection H; auto].
    + split; [discriminate | intros H; injection H; intros; congruence].
Qed.

Section Spaces.

Variable spaces : list (list ascii).

Lemma skip_space_some (l t : list ascii) :
  skip_space spaces l = Some t ->
  exists w, In w spaces /\ l = (w ++ t)%list.
Proof.
  induction spaces as [|w ws IH]; simpl; [discriminate|].
  destruct (strip_prefix w l) as [t'|] eqn:E.
  - intros H. injection H as ->. apply strip_prefix_some in E. eauto.
  - intros H. destruct (IH H) as (w' & Hw' & Hl). eauto.
Qed.

Lemma skip_space_none (l : list ascii) :
  skip_space spaces l = None ->
  forall w t, In w spaces -> l <> (w ++ t)%list.
Proof.
  induction spaces as [|w0 ws IH]; simpl; [intros _ w t []|].
  destruct (strip_prefix w0 l) as [t'|] eqn:E; [discriminate|].
  intros H w t [<- | Hw] Hl.
  - apply strip_prefix_some in Hl. congruence.
  - exact (IH H w t Hw Hl).
Qed.

(** A text that does not start with white space has no beginning that
    does. *)
Lemma skip_space_prefix (r s : list ascii) :
  skip_space spaces (r ++ s) = None -> skip_space spaces r = None.
Proof.
  intros H. destruct (skip_space spaces r) as [t|] eqn:E; [|reflexivity].
  apply skip_space_some in E. destruct E as (w & Hw & ->).
  exfalso. apply (skip_space_none _ H w (t ++ s)%list Hw).
  symmetry. apply app_assoc.
Qed.

Lemma drop_spaces_fixed (fuel : nat) (l : list ascii) :
  skip_space spaces l = None -> drop_spaces spaces fuel l = l.
Proof. destruct fuel; simpl; [reflexivity | intros ->; reflexivity]. Qed.

Lemma made_of_nil : made_of spaces [].
Proof. exists []. split; [constructor | reflexivity]. Qed.

(** What is removed is white space. *)
Lemma drop_spaces_suffix (fuel : nat) (l : list ascii) :
  exists p, l = (p ++ drop_spaces spaces fuel l)%list /\ made_of spaces p.
Proof.
  revert l. induction fuel as [|fuel IH]; intros l; simpl.
  - exists []. split; [reflexivity | apply made_of_nil].
  - destruct (skip_space spaces l) as [t|] eqn:E.
    + apply skip_space_some in E. destruct E as (w & Hw & ->).
      destruct (IH t) as (p & Hp & (ws & Hws & ->)).
      exists (w ++ List.concat ws)%list. split.
      * rewrite <- app_assoc. f_equal. exact Hp.
      * exists (w :: ws). split; [constructor; assumption | reflexivity].
    + exists []. split; [reflexivity | apply made_of_nil].
Qed.

Hypothesis spaces_nonempty : forall w, In w spaces -> w <> [].

Lemma skip_space_nil : skip_space spaces [] = None.
Proof.
  destruct (skip_space spaces []) as [t|] eqn:E; [|reflexivity].
  apply skip_space_some in E. destruct E as (w & Hw & Hl).
  destruct w; [exfalso; exact (spaces_nonempty _ Hw eq_refl) | discriminate].
Qed.

Lemma skipped_shorter (w t : list ascii) (fuel : nat) :
  In w spaces -> (List.length (w ++ t) <= S fuel)%nat ->
  (List.length t <= fuel)%nat.
Proof.
  intros Hw Hlen. rewrite length_app in Hlen.
  pose proof (spaces_nonempty w Hw).
  destruct w; [congruence | simpl in Hlen; lia].
Qed.

(** The length of the text is fuel enough: nothing is left to remove. *)
Lemma drop_spaces_done (fuel : nat) (l : list ascii) :
  (List.length l <= fuel)%nat ->
  skip_space spaces (drop_spaces spaces fuel l) = None.
Proof.
  revert l. induction fuel as [|fuel IH]; intros l Hlen; simpl.
  - destruct l; [apply skip_space_nil | simpl in Hlen; lia].
  - destruct (skip_space spaces l) as [t|] eqn:E; [|exact E].
    apply IH. apply skip_space_some in E. destruct E as (w & Hw & ->).
    eapply skipped_shorter; eassumption.
Qed.

(** No character of [spaces] is the beginning of another one. *)
Hypothesis spaces_prefix_free :
  forall w w' t t', In w spaces -> In w' spaces ->
                    (w ++ t)%list = (w' ++ t')%list -> w = w'.

Lemma drop_spaces_made_of (fuel : nat) (l : list ascii) :
  (List.length l <= fuel)%nat ->
  made_of spaces l -> drop_spaces spaces fuel l = [].
Proof.
  intros Hlen (ws & Hws & ->). revert fuel Hlen.
  induction Hws as [|w ws Hw Hws IH]; intros fuel Hlen.
  - simpl. apply drop_spaces_fixed. apply skip_space_nil.
  - simpl in *. destruct fuel as [|fuel].
    + exfalso. rewrite length_app in Hlen. pose proof (spaces_nonempty w Hw).
      destruct w; [congruence | simpl in Hlen; lia].
    + simpl. destruct (skip_space spaces (w ++ List.concat ws)) as [t|] eqn:E.
      * apply skip_space_some in E. destruct E as (w' & Hw' & E).
        pose proof (spaces_prefix_free _ _ _ _ Hw Hw' E). subst w'.
        apply app_inv_head in E. subst t. apply IH.
        eapply skipped_shorter; eassumption.
      * exfalso. exact (skip_space_none _ E w (List.concat ws) Hw eq_refl).
Qed.

End Spaces.

(** The two conditions on the white space of Unicode, and on its
    characters read backwards. *)
Lemma is_prefix_app (w w' t t' : list ascii) :
  (w ++ t)%list = (w' ++ t')%list ->
  is_prefix w w' = true \/ is_prefix w' w = true.
Proof.
  revert w'. induction w as [|c w IH]; intros [|d w'] H; simpl; auto.
  simpl in H. injection H as -> H. rewrite Ascii.eqb_refl. simpl.
  apply IH, H.
Qed.

Lemma is_prefix_length (w w' : list ascii) :
  is_prefix w w' = true -> List.length w = List.length w' -> w = w'.
Proof.
  revert w'. induction w as [|c w IH]; intros [|d w'] H Hlen;
    simpl in *; try discriminate; [reflexivity|].
  apply andb_true_iff in H. destruct H as [Hc H].
  apply Ascii.eqb_eq in Hc. subst d. f_equal. apply IH; [exact H | lia].
Qed.

Lemma prefix_free_spec (spaces : list (list ascii)) :
  prefix_free spaces = true ->
  forall w w' t t', In w spaces -> In w' spaces ->
                    (w ++ t)%list = (w' ++ t')%list -> w = w'.
Proof.
  unfold prefix_free. rewrite forallb_forall.
  intros H w w' t t' Hw Hw' E.
  pose proof (H w Hw) as H1. rewrite forallb_forall in H1.
  specialize (H1 w' Hw').
  pose proof (H w' Hw') as H2. rewrite forallb_forall in H2.
  specialize (H2 w Hw).
  destruct (is_prefix_app _ _ _ _ E) as [P | P]; rewrite P in *; simpl in *.
  - apply Nat.eqb_eq in H1. apply is_prefix_length; assumption.
  - apply Nat.eqb_eq in H2. symmetry. apply is_prefix_length; assumption.
Qed.

Lemma nonempty_spec (spaces : list (list ascii)) :
  forallb (fun w => negb (List.length w =? 0)%nat) spaces = true ->
  forall w, In w spaces -> w <> [].
Proof.
  rewrite forallb_forall. intros H w Hw ->.
  specialize (H [] Hw). discriminate.
Qed.

Lemma white_space_nonempty : forall w, In w white_space -> w <> [].
Proof. apply nonempty_spec. vm_compute. reflexivity. Qed.

Lemma white_space_prefix_free :
  forall w w' t t', In w white_space -> In w' white_space ->
                    (w ++ t)%list = (w' ++ t')%list -> w = w'.
Proof. apply prefix_free_spec. vm_compute. reflexivity. Qed.

Lemma white_space_rev_nonempty :
  forall w, In w (map (@rev ascii) white_space) -> w <> [].
Proof. apply nonempty_spec. vm_compute. reflexivity. Qed.

Lemma made_of_rev (spaces : list (list ascii)) (l : list ascii) :
  made_of (map (@rev ascii) spaces) l -> made_of spaces (rev l).
Proof.
  intros (ws & Hws & ->). exists (rev (map (@rev ascii) ws)). split.
  - apply Forall_rev. apply Forall_forall. intros w Hw.
    apply in_map_iff in Hw. destruct Hw as (w0 & <- & Hw0).
    rewrite Forall_forall in Hws. specialize (Hws w0 Hw0).
    apply in_map_iff in Hws. destruct Hws as (w1 & <- & Hw1).
    rewrite rev_involutive. exact Hw1.
  - clear Hws. induction ws as [|w ws IH]; simpl; [reflexivity|].
    rewrite rev_app_distr, concat_app, IH. simpl.
    rewrite app_nil_r. reflexivity.
Qed.

Lemma lstrip_done (l : list ascii) :
  skip_space white_space (lstrip_chars l) = None.
Proof.
  apply drop_spaces_done; [apply white_space_nonempty | apply Nat.le_refl].
Qed.

(** The stripped text is a part of the text, between two blank parts. *)
Lemma strip_chars_inside (l : list ascii) :
  exists p q,
    l = (p ++ strip_chars l ++ q)%list
    /\ made_of white_space p /\ made_of white_space q.
Proof.
  unfold strip_chars, rstrip_chars, lstrip_chars.
  destruct (drop_spaces_suffix white_space (List.length l) l)
    as (p & Hp & Hmp).
  set (a := drop_spaces white_space (List.length l) l) in *.
  destruct (drop_spaces_suffix (map (@rev ascii) white_space)
              (List.length a) (rev a)) as (q & Hq & Hmq).
  set (b := drop_spaces (map (@rev ascii) white_space) (List.length a)
              (rev a)) in *.
  exists p, (rev q). split; [|split; [exact Hmp | apply made_of_rev, Hmq]].
  rewrite Hp at 1. f_equal.
  rewrite <- rev_app_distr, <- Hq. symmetry. apply rev_involutive.
Qed.

(** The stripped text has no white space at either end. *)
Lemma strip_chars_ends (l : list ascii) :
  skip_space white_space (strip_chars l) = None
  /\ skip_space (map (@rev ascii) white_space) (rev (strip_chars l)) = None.
Proof.
  unfold strip_chars at 2. unfold rstrip_chars. rewrite rev_involutive.
  split.
  - unfold strip_chars, rstrip_chars.
    destruct (drop_spaces_suffix (map (@rev ascii) white_space)
                (List.length (lstrip_chars l)) (rev (lstrip_chars l)))
      as (q & Hq & _).
    apply (skip_space_prefix white_space _ (rev q)).
    rewrite <- rev_app_distr, <- Hq, rev_involutive. apply lstrip_done.
  - apply drop_spaces_done;
      [apply white_space_rev_nonempty | rewrite length_rev; apply Nat.le_refl].
Qed.

Lemma strip_chars_fixed (l : list ascii) :
  skip_space white_space l = None ->
  skip_space (map (@rev ascii) white_space) (rev l) = None ->
  strip_chars l = l.
Proof.
  intros H1 H2. unfold strip_chars, rstrip_chars, lstrip_chars.
  rewrite (drop_spaces_fixed _ _ _ H1), (drop_spaces_fixed _ _ _ H2).
  apply rev_involutive.
Qed.

Lemma strip_chars_idempotent (l : list ascii) :
  strip_chars (strip_chars l) = strip_chars l.
Proof.
  destruct (strip_chars_ends l). apply strip_chars_fixed; assumption.
Qed.

Lemma strip_idempotent (s : string) : strip (strip s) = strip s.
Proof.
  unfold strip. rewrite list_ascii_of_string_of_list_ascii.
  rewrite strip_chars_idempotent. reflexivity.
Qed.

Lemma made_of_app (spaces : list (list ascii)) (l1 l2 : list ascii) :
  made_of spaces l1 -> made_of spaces l2 -> made_of spaces (l1 ++ l2).
Proof.
  intros (w1 & H1 & ->) (w2 & H2 & ->). exists (w1 ++ w2)%list. split.
  - apply Forall_app. auto.
  - symmetry. apply concat_app.
Qed.

Lemma strip_chars_nil_iff (l : list ascii) :
  strip_chars l = [] <-> made_of white_space l.
Proof.
  split.
  - intros H. destruct (strip_chars_inside l) as (p & q & Hl & Hp & Hq).
    rewrite H in Hl. simpl in Hl. rewrite Hl.
    apply made_of_app; assumption.
  - intros H. unfold strip_chars, rstrip_chars, lstrip_chars.
    rewrite (drop_spaces_made_of white_space white_space_nonempty
               white_space_prefix_free _ l (Nat.le_refl _) H).
    reflexivity.
Qed.

(** [strip] returns the empty string exactly on a blank text. *)
Lemma strip_empty_iff (s : string) : strip s = "" <-> blank s.
Proof.
  unfold blank. rewrite <- strip_chars_nil_iff. unfold strip. split.
  - intros H. apply (f_equal list_ascii_of_string) in H.
    rewrite list_ascii_of_string_of_list_ascii in H. exact H.
  - intros ->. reflexivity.
Qed.

(** ** More on preparation *)

Lemma add_column_In (x c : string) (cols : list string) :
  In c (add_column x cols) <-> c = x \/ In c cols.
Proof.
  unfold add_column. destruct (isin x cols) eqn:E.
  - apply isin_In in E. split; [auto|]. intros [-> | H]; assumption.
  - rewrite in_app_iff. simpl. intuition.
Qed.

Lemma add_column_NoDup (x : string) (cols : list string) :
  NoDup cols -> NoDup (add_column x cols).
Proof.
  intros H. unfold add_column. destruct (isin x cols) eqn:E; [exact H|].
  apply isin_not_In in E.
  apply (Permutation_NoDup (l := x :: cols)).
  - apply Permutation_cons_append.
  - constructor; assumption.
Qed.

Lemma prepared_columns_In (c : string) (cols : list string) :
  In c (prepared_columns cols) <->
  In c cols \/ In c ["meal_slot"; "why"; "final_score"].
Proof.
  unfold prepared_columns. rewrite !add_column_In. simpl. intuition.
Qed.

Section MorePrepareFacts.

Variable parse_number : string -> option float64.
Variable float_str : float64 -> string.

Lemma sanity_implies_numeric (r : RawRow) :
  sanity_mask parse_number r = true ->
  notna_mask parse_number r = negb (cell_isna (raw_title r)).
Proof.
  unfold sanity_mask, notna_mask. intros H.
  apply andb_true_iff in H. destruct H as [H Rs].
  apply andb_true_iff in H. destruct H as [H Rf].
  apply andb_true_iff in H. destruct H as [Rc Rp].
  apply between_in_range in Rc, Rp, Rf, Rs.
  destruct Rc as [_ Rc], Rp as [_ Rp], Rf as [_ Rf], Rs as [_ Rs].
  apply SFleb_notna in Rc, Rp, Rf, Rs.
  destruct Rc as [-> _], Rp as [-> _], Rf as [-> _], Rs as [-> _].
  simpl. rewrite !andb_true_r. reflexivity.
Qed.

Lemma filters_merge (l : list RawRow) :
  filter (sanity_mask parse_number) (filter (notna_mask parse_number) l)
  = filter (fun r => negb (cell_isna (raw_title r))
                     && sanity_mask parse_number r) l.
Proof.
  induction l as [|r l IH]; simpl; [reflexivity|].
  destruct (sanity_mask parse_number r) eqn:Es.
  - rewrite (sanity_implies_numeric r Es).
    destruct (negb (cell_isna (raw_title r))); simpl.
    + rewrite Es, IH. reflexivity.
    + exact IH.
  - rewrite andb_false_r.
    destruct (notna_mask parse_number r); simpl; [rewrite Es|]; exact IH.
Qed.

End MorePrepareFacts.

(** X8.  The frame [prepare_for_app] returns has the columns of the source
    and [meal_slot], [why] and [final_score], and nothing else; it has a
    [kind] column exactly when the source has one; it repeats no column
    name when the source repeats none.  In particular every column that
    [recommend] reads and every column the page selects on line 386 from
    the result (the frame's columns and the two added ones) is there. *)
Theorem prepared_frame_columns
  (parse_number : string -> option float64) (float_str : float64 -> string)
  (raw : RawFrame) (df : DataFrame) :
  prepare_for_app parse_number float_str raw = Ok df ->
  (forall c, In c (columns df) <->
             In c (raw_columns raw)
             \/ In c ["meal_slot"; "why"; "final_score"])
  /\ Forall (fun c => In c (columns df))
            (required ++ ["meal_slot"; "why"; "final_score"])%list
  /\ (In "kind" (columns df) <-> In "kind" (raw_columns raw))
  /\ (NoDup (raw_columns raw) -> NoDup (columns df))
  /\ Forall (fun c => In c (columns df ++ ["calorie_fit"; "score"])%list)
            (show_cols (columns df ++ ["calorie_fit"; "score"])%list).
Proof.
  intros Hprep.
  destruct (prepare_ok_inv _ _ _ _ Hprep) as (Hreq & _ & _ & _ & Hcols & _).
  rewrite first_missing_none in Hreq.
  assert (Hin : forall c, In c (columns df) <->
                          In c (raw_columns raw)
                          \/ In c ["meal_slot"; "why"; "final_score"]).
  { intros c. rewrite Hcols. apply prepared_columns_In. }
  assert (Hall : Forall (fun c => In c (columns df))
                   (required ++ ["meal_slot"; "why"; "final_score"])%list).
  { apply Forall_forall. intros c Hc. apply Hin.
    apply in_app_or in Hc. destruct Hc as [Hc | Hc]; auto. }
  split; [exact Hin|]. split; [exact Hall|]. split; [|split].
  - rewrite Hin. simpl. intuition discriminate.
  - intros Hnd. rewrite Hcols. unfold prepared_columns.
    repeat apply add_column_NoDup. exact Hnd.
  - rewrite Forall_forall in Hall.
    assert (Hbase : forall c,
               In c ["title"; "meal_slot"; "calories"; "protein"; "fat";
                     "sodium"; "score"; "why"] ->
               In c (columns df ++ ["calorie_fit"; "score"])%list).
    { intros c Hc. apply in_or_app. simpl in Hc.
      destruct Hc as [<- | [<- | [<- | [<- | [<- | [<- | [<- | [<- | []]]]]]]]];
        try (left; apply Hall; simpl; tauto).
      right. simpl. tauto. }
    apply Forall_forall. intros c Hc. unfold show_cols in Hc.
    destruct (isin "kind" (columns df ++ ["calorie_fit"; "score"])) eqn:Ek.
    + unfold list_insert in Hc. simpl in Hc.
      destruct Hc as [<- | [<- | Hc]].
      * apply Hbase. simpl. tauto.
      * apply isin_In. exact Ek.
      * apply Hbase. simpl. tauto.
    + apply Hbase, Hc.
Qed.

(** X9.  The rows [prepare_for_app] keeps are, in the order of the source,
    exactly those whose title is not null and whose four nutrients, read as
    numbers, lie in their ranges: for the numeric columns the [dropna] of
    line 98 removes nothing that the range filter would keep.  No row is
    added. *)
Theorem prepared_rows_kept
  (parse_number : string -> option float64) (float_str : float64 -> string)
  (raw : RawFrame) (df : DataFrame) :
  prepare_for_app parse_number float_str raw = Ok df ->
  rows df
  = map (prepare_row parse_number float_str (raw_columns raw))
        (filter (fun r => negb (cell_isna (raw_title r))
                          && sanity_mask parse_number r)
                (raw_rows raw))
  /\ (List.length (rows df) <= List.length (raw_rows raw))%nat.
Proof.
  intros Hprep. rewrite (prepare_rows _ _ _ _ Hprep), filters_merge.
  split; [reflexivity|].
  rewrite length_map. apply filter_length_le.
Qed.


(** ** [load_raw] *)

Lemma load_raw_columns_stripped (csv : RawFrame) :
  Forall (fun c => strip c = c) (raw_columns (load_raw csv)).
Proof.
  apply Forall_forall. intros c Hc. simpl in Hc.
  apply in_map_iff in Hc. destruct Hc as (h & <- & _).
  apply strip_idempotent.
Qed.

(** X11.  [load_raw] leaves every column name without surrounding white
    space, and loading twice changes nothing more.  So a header whose names
    are padded with blanks is accepted, but two headers that differ only by
    such padding become one label: preparation of the loaded frame succeeds
    exactly when each required column is the stripped form of some header
    of the file and none of [calories], [protein], [fat], [sodium],
    [meal_slot], [kind] is the stripped form of two headers. *)
Theorem load_raw_strips_headers
  (parse_number : string -> option float64) (float_str : float64 -> string)
  (csv : RawFrame) :
  Forall (fun c => strip c = c) (raw_columns (load_raw csv))
  /\ load_raw (load_raw csv) = load_raw csv
  /\ ((exists df,
          prepare_for_app parse_number float_str (load_raw csv) = Ok df) <->
      (forall c, In c required ->
                 exists h, In h (raw_columns csv) /\ strip h = c)
      /\ (forall c,
            In c (numeric_columns ++ ["meal_slot"; "kind"])%list ->
            repeated c (map strip (raw_columns csv)) = false)).
Proof.
  split; [apply load_raw_columns_stripped|]. split.
  - unfold load_raw. simpl. f_equal. rewrite map_map.
    apply map_ext. intros h. apply strip_idempotent.
  - assert (Hcols : forall c,
               In c (raw_columns (load_raw csv)) <->
               exists h, In h (raw_columns csv) /\ strip h = c).
    { intros c. simpl. rewrite in_map_iff.
      split; intros (h & H1 & H2); exists h; tauto. }
    split.
    + intros (df & Hdf).
      assert (Hreq : first_missing required (raw_columns (load_raw csv))
                     = None)
        by apply (prepare_ok_inv _ _ _ _ Hdf).
      split.
      * intros c Hc. apply Hcols.
        apply (proj1 (first_missing_none _ _) Hreq), Hc.
      * apply (proj1 (prepare_ok_iff parse_number float_str _ Hreq)). eauto.
    + intros [Hreq Hrep].
      assert (Hreq' : first_missing required (raw_columns (load_raw csv))
                      = None).
      { apply first_missing_none. intros c Hc. apply Hcols, Hreq, Hc. }
      apply (proj2 (prepare_ok_iff parse_number float_str _ Hreq')).
      exact Hrep.
Qed.

(** ** Session *)

Lemma do_login_ok (name : option string) (s : SessionState) :
  session_ok s -> session_ok (fst (do_login name s)).
Proof.
  intros Hs. unfold do_login. cbv zeta.
  destruct (String.eqb_spec
              (strip (match name with Some n => n | None => "" end)) "")
    as [E | E]; simpl; [exact Hs|].
  unfold session_ok. simpl. split; [exact E | apply strip_idempotent].
Qed.

Lemma click_ok (s : SessionState) (c : Click) :
  session_ok s -> session_ok (click s c).
Proof.
  intros Hs. unfold click.
  destruct (router s), c; try exact Hs.
  - apply do_login_ok, Hs.
  - reflexivity.
Qed.

Lemma clicks_ok (cs : list Click) (s : SessionState) :
  session_ok s -> session_ok (fold_left click cs s).
Proof.
  revert s. induction cs as [|c cs IH]; intros s Hs; simpl; [exact Hs|].
  apply IH, click_ok, Hs.
Qed.

(** X12.  Whatever buttons are clicked, starting from a new session, the
    session stays coherent: when the router shows the recommendation page
    the user name is not empty and has no surrounding white space, and when
    it shows the login page no name is stored. *)
Theorem session_stays_coherent (cs : list Click) :
  let s := fold_left click cs initial_session in
  session_ok s
  /\ match router s with
     | RecsPage => username s <> "" /\ strip (username s) = username s
     | LoginPage => username s = ""
     end.
Proof.
  intros s.
  assert (Hs : session_ok s) by (apply clicks_ok; reflexivity).
  split; [exact Hs|].
  unfold router. unfold session_ok in Hs.
  destruct (logged_in s); exact Hs.
Qed.

(** X13.  [do_login] refuses exactly the blank names, those made of white
    space only (the empty name and [None] among them; the non-breaking
    space and the other spaces of Unicode count as white space): it then
    shows an error and leaves the session as it was; any other name logs
    the user in under the stripped name.  [go_login] always returns to the
    state of a new session. *)
Theorem do_login_refuses_blank (name : option string) (s : SessionState) :
  let text := match name with Some n => n | None => "" end in
  (blank text -> do_login name s = (s, [StError "لازم تكتب اسمك."]))
  /\ (~ blank text ->
      do_login name s
      = ({| logged_in := true; username := strip text |}, [])
      /\ strip text <> "")
  /\ go_login s = initial_session.
Proof.
  intros text. split; [|split; [|reflexivity]];
    unfold do_login; cbv zeta; fold text.
  - intros E. apply strip_empty_iff in E. rewrite E. reflexivity.
  - intros E.
    assert (Hne : strip text <> "").
    { intros H. apply strip_empty_iff in H. contradiction. }
    apply String.eqb_neq in Hne. rewrite Hne. split; [reflexivity|].
    apply String.eqb_neq. exact Hne.
Qed.

(** ** Sheet header *)

Lemma strings_eqb_eq (l1 l2 : list string) :
  strings_eqb l1 l2 = true <-> l1 = l2.
Proof.
  revert l2. induction l1 as [|x l1 IH]; intros [|y l2]; simpl;
    try (split; [discriminate | discriminate]); [tauto|].
  rewrite andb_true_iff, String.eqb_eq, IH.
  split; [intros [-> ->]; reflexivity | intros H; injection H; auto].
Qed.

Ltac run_unfold :=
  cbv beta iota zeta delta
    [page_recs_run request_body ensure_sheet_header log_request get_worksheet
     ws_row_values_1 ws_update ws_append_row bind ret raise emit].

Lemma ensure_sheet_header_writes (env : Env) :
  fst (ensure_sheet_header env) = []
  \/ fst (ensure_sheet_header env) = [SheetUpdate "A1:H1" [LOG_COLUMNS]].
Proof.
  run_unfold.
  destruct (secrets env) as [held|]; [|auto].
  destruct (lookup SECRETS_KEY held) as [key|]; [|auto].
  destruct (open_worksheet env key); [auto|].
  destruct (row_values_1 env) as [row|]; [|auto].
  destruct (negb (strings_eqb _ _)); [|auto].
  destruct (update_raises env); auto.
Qed.

(** X14.  [ensure_sheet_header] writes nothing to the sheet but the eight
    names of [LOG_COLUMNS], to the range A1:H1, and at most once.  When the
    worksheet opens and its first row is read, it writes exactly when that
    row, each cell stripped and lowercased, differs from [LOG_COLUMNS]: a
    header that differs by case or surrounding blanks is left alone, and a
    first row that has not eight cells is always overwritten.  When the
    secrets cannot be read the error of that reading is raised, and when
    they hold nothing under [SECRETS_KEY] a [ValueError]; both before any
    call on the sheet. *)
Theorem ensure_sheet_header_effects (env : Env) :
  (fst (ensure_sheet_header env) = []
   \/ fst (ensure_sheet_header env) = [SheetUpdate "A1:H1" [LOG_COLUMNS]])
  /\ (forall held key row,
        secrets env = inl held ->
        lookup SECRETS_KEY held = Some key ->
        open_worksheet env key = None ->
        row_values_1 env = inl row ->
        (fst (ensure_sheet_header env) = [] <->
         map (fun c => lower (strip c)) row = LOG_COLUMNS)
        /\ (List.length row <> 8%nat ->
            fst (ensure_sheet_header env)
            = [SheetUpdate "A1:H1" [LOG_COLUMNS]]))
  /\ (forall text,
        secrets env = inr text ->
        ensure_sheet_header env = ([], inr (ExternalRaise text)))
  /\ (forall held,
        secrets env = inl held ->
        lookup SECRETS_KEY held = None ->
        exists msg,
          ensure_sheet_header env = ([], inr (AppRaise (ValueError msg)))).
Proof.
  split; [apply ensure_sheet_header_writes|]. split; [|split].
  - intros held key row Hheld Hkey Hopen Hrow.
    assert (Hiff : fst (ensure_sheet_header env) = [] <->
                   map (fun c => lower (strip c)) row = LOG_COLUMNS).
    { run_unfold. rewrite Hheld, Hkey, Hopen, Hrow. cbv beta iota zeta.
      destruct (strings_eqb (map (fun c => lower (strip c)) row) LOG_COLUMNS)
        eqn:E; cbv beta iota zeta delta [negb].
      - apply strings_eqb_eq in E. simpl. tauto.
      - assert (Hne : map (fun c => lower (strip c)) row <> LOG_COLUMNS).
        { intros H. apply strings_eqb_eq in H. congruence. }
        destruct (update_raises env); simpl; split;
          try discriminate; intros H; contradiction. }
    split; [exact Hiff|].
    intros Hlen.
    destruct (ensure_sheet_header_writes env) as [H | H]; [|exact H].
    exfalso. apply Hlen. apply Hiff in H.
    apply (f_equal (@List.length string)) in H.
    rewrite length_map in H. exact H.
  - intros text Hheld. run_unfold. rewrite Hheld. reflexivity.
  - intros held Hheld Hkey. run_unfold. rewrite Hheld, Hkey.
    eexists. reflexivity.
Qed.

(** ** The request of the recommendation page *)

Ltac shape_finish :=
  cbn [app];
  first
    [ left; eexists; reflexivity
    | right; left; eexists; reflexivity
    | right; right; eexists _, _, _, _;
      split; [|split; [|split; [|reflexivity]]];
      [discriminate | reflexivity
       | first [left; reflexivity | right; reflexivity]] ].

Ltac sheet_cases env :=
  destruct (secrets env) as [held|t0] eqn:Eheld;
  [destruct (lookup SECRETS_KEY held) as [key|] eqn:Ekey;
   [destruct (open_worksheet env key) as [t1|] eqn:Eopen;
    [|destruct (row_values_1 env) as [row1|t2] eqn:Erow;
      [destruct (negb (strings_eqb (map (fun c => lower (strip c)) row1)
                                   LOG_COLUMNS)) eqn:Ehdr;
       [destruct (update_raises env) as [t3|] eqn:Eupd|]|]]|]|].

Ltac in_cases H :=
  simpl in H;
  repeat (destruct H as [H | H]; [try discriminate|]);
  try contradiction.

Section RequestFacts.

Variable parse_number : string -> option float64.
Variable float_str : float64 -> string.

(** The effects of a request: possibly the header update, then an error, or
    a warning, or the table, the appended row and a last notice. *)
Lemma page_recs_run_shape (env : Env) (s : SessionState) (meal : string)
  (cm pm sm n : Z) :
  exists hdr,
    (hdr = [] \/ hdr = [SheetUpdate "A1:H1" [LOG_COLUMNS]])
    /\ ((exists msg,
            page_recs_run parse_number float_str env s meal cm pm sm n
            = (hdr ++ [StError msg])%list)
        \/ (exists msg,
               page_recs_run parse_number float_str env s meal cm pm sm n
               = (hdr ++ [StWarning msg])%list)
        \/ (exists view row msg last,
               view <> [] /\ List.length row = 8%nat
               /\ (last = StSuccess msg \/ last = StError msg)
               /\ page_recs_run parse_number float_str env s meal cm pm sm n
                  = (hdr ++ [StDataframe view; SheetAppendRow row;
                             last])%list)).
Proof.
  run_unfold. sheet_cases env.
  all: try (destruct (read_csv env CSV_PATH) as [csv|t4] eqn:Ecsv;
       [destruct (prepare_for_app parse_number float_str (load_raw csv))
          as [df|e] eqn:Eprep;
        [destruct (recommend df meal cm pm sm n) as [|r recs] eqn:Erecs;
         [|destruct (append_row_raises env) as [t5|] eqn:Eapp]|]|]).
  all: cbv beta iota zeta; cbn [app].
  all: first
    [ solve [exists []; split; [left; reflexivity|]; shape_finish]
    | solve [exists [SheetUpdate "A1:H1" [LOG_COLUMNS]];
             split; [right; reflexivity|]; shape_finish] ].
Qed.

End RequestFacts.

(** X15.  Whatever the sheet, the file and the form hold, a request
    - appends at most one row to the sheet, of eight cells like
      [LOG_COLUMNS], and only after a non-empty table was displayed;
    - shows the success notice only when the row was appended and no error
      was shown;
    - writes to the header range A1:H1 nothing but [LOG_COLUMNS];
    - ends with exactly one closing notice (error, warning or success),
      which is its last effect. *)
Theorem request_effects_discipline
  (parse_number : string -> option float64) (float_str : float64 -> string)
  (env : Env) (s : SessionState) (meal : string)
  (calories_max protein_min sodium_max top_n : Z) :
  let effs :=
    page_recs_run parse_number float_str env s meal calories_max protein_min
                  sodium_max top_n in
  (List.length (filter is_append_row effs) <= 1)%nat
  /\ (forall row,
        In (SheetAppendRow row) effs ->
        List.length row = List.length LOG_COLUMNS
        /\ exists view, view <> [] /\ In (StDataframe view) effs)
  /\ (forall msg,
        In (StSuccess msg) effs ->
        (exists row, In (SheetAppendRow row) effs)
        /\ forall m, ~ In (StError m) effs)
  /\ (forall range values,
        In (SheetUpdate range values) effs ->
        range = "A1:H1" /\ values = [LOG_COLUMNS])
  /\ exists before last,
       effs = (before ++ [last])%list
       /\ is_closing_notice last = true
       /\ forallb (fun e => negb (is_closing_notice e)) before = true.
Proof.
  intros effs. subst effs.
  destruct (page_recs_run_shape parse_number float_str env s meal calories_max
              protein_min sodium_max top_n)
    as (hdr & Hhdr & [(msg & ->) | [(msg & ->) |
         (view & row & msg & last & Hv & Hr & Hlast & ->)]]).
  - split; [destruct Hhdr as [-> | ->]; simpl; lia|].
    split; [intros row H; destruct Hhdr as [-> | ->]; in_cases H|].
    split; [intros m H; destruct Hhdr as [-> | ->]; in_cases H|].
    split.
    + intros range values H. destruct Hhdr as [-> | ->]; in_cases H.
      injection H as <- <-. auto.
    + exists hdr, (StError msg). split; [reflexivity|].
      split; [reflexivity|]. destruct Hhdr as [-> | ->]; reflexivity.
  - split; [destruct Hhdr as [-> | ->]; simpl; lia|].
    split; [intros row H; destruct Hhdr as [-> | ->]; in_cases H|].
    split; [intros m H; destruct Hhdr as [-> | ->]; in_cases H|].
    split.
    + intros range values H. destruct Hhdr as [-> | ->]; in_cases H.
      injection H as <- <-. auto.
    + exists hdr, (StWarning msg). split; [reflexivity|].
      split; [reflexivity|]. destruct Hhdr as [-> | ->]; reflexivity.
  - split; [destruct Hhdr as [-> | ->], Hlast as [-> | ->]; simpl; lia|].
    split.
    { intros row0 H.
      assert (Hrow : row0 = row).
      { destruct Hhdr as [-> | ->], Hlast as [-> | ->]; simpl in H;
          intuition congruence. }
      subst row0. split; [exact Hr|]. exists view. split; [exact Hv|].
      apply in_or_app. right. left. reflexivity. }
    split.
    { intros m H. split.
      - exists row. apply in_or_app. right. right. left. reflexivity.
      - destruct Hhdr as [-> | ->], Hlast as [-> | ->]; simpl in H;
          simpl; intuition congruence. }
    split.
    { intros range values H.
      destruct Hhdr as [-> | ->], Hlast as [-> | ->]; simpl in H;
        intuition congruence. }
    exists (hdr ++ [StDataframe view; SheetAppendRow row])%list, last.
    split; [rewrite <- app_assoc; reflexivity|].
    split; [destruct Hlast as [-> | ->]; reflexivity|].
    destruct Hhdr as [-> | ->]; reflexivity.
Qed.





(** X17.  A request that cannot be served shows one error and logs
    nothing: when the secrets cannot be read or hold nothing under
    [SECRETS_KEY], or when the worksheet does not open, the error is the
    only effect (nothing is read, computed or displayed, although the
    recommendations need no sheet); when the file lacks a required column,
    the error carries the message of [prepare_for_app] with the name of the
    column, after the header check has been done. *)
Theorem request_failures
  (parse_number : string -> option float64) (float_str : float64 -> string)
  (env : Env) (s : SessionState) (meal : string)
  (calories_max protein_min sodium_max top_n : Z) :
  let effs :=
    page_recs_run parse_number float_str env s meal calories_max protein_min
                  sodium_max top_n in
  (forall text,
     secrets env = inr text -> effs = [StError ("حصل خطأ: " ++ text)])
  /\ (forall held,
        secrets env = inl held ->
        lookup SECRETS_KEY held = None ->
        exists msg, effs = [StError ("حصل خطأ: " ++ msg)])
  /\ (forall held key text,
        secrets env = inl held ->
        lookup SECRETS_KEY held = Some key ->
        open_worksheet env key = Some text ->
        effs = [StError ("حصل خطأ: " ++ text)])
  /\ (forall held key row1 csv c,
        secrets env = inl held ->
        lookup SECRETS_KEY held = Some key ->
        open_worksheet env key = None ->
        row_values_1 env = inl row1 ->
        update_raises env = None ->
        read_csv env CSV_PATH = inl csv ->
        first_missing required (raw_columns (load_raw csv)) = Some c ->
        effs
        = (fst (ensure_sheet_header env)
           ++ [StError ("حصل خطأ: " ++ missing_column_message ++ c)])%list).
Proof.
  intros effs. subst effs. split; [|split; [|split]].
  - intros text Hheld. run_unfold. rewrite Hheld. reflexivity.
  - intros held Hheld Hkey. run_unfold. rewrite Hheld, Hkey.
    eexists. reflexivity.
  - intros held key text Hheld Hkey Hopen. run_unfold.
    rewrite Hheld, Hkey, Hopen. reflexivity.
  - intros held key row1 csv c Hheld Hkey Hopen Hrow Hupd Hcsv Hmiss.
    run_unfold. unfold prepare_for_app. cbv zeta.
    rewrite Hheld, Hkey, Hopen, Hrow, Hupd, Hcsv, Hmiss.
    cbv beta iota zeta.
    destruct (negb (strings_eqb (map (fun c => lower (strip c)) row1)
                                LOG_COLUMNS)); reflexivity.
Qed.

(** ** The table displayed *)

Lemma isin_app (x : string) (l1 l2 : list string) :
  isin x (l1 ++ l2) = isin x l1 || isin x l2.
Proof. unfold isin. apply existsb_app. Qed.

(** X18.  The table displayed has one line per recommended row, in the
    same order, with the columns title, (kind, when the table has that
    column,) meal_slot, calories, protein, fat, sodium, final_score, why.
    No name is repeated, and the cell shown under [final_score] is the
    composite [score] of the row, not the [final_score] of the table, which
    is not displayed. *)
Theorem view_shows_composite_score (df_columns : list string)
  (recs : list ScoredRow) :
  let view :=
    make_view (show_cols (df_columns ++ ["calorie_fit"; "score"])) recs in
  let names :=
    if isin "kind" df_columns
    then ["title"; "kind"; "meal_slot"; "calories"; "protein"; "fat";
          "sodium"; "final_score"; "why"]
    else ["title"; "meal_slot"; "calories"; "protein"; "fat"; "sodium";
          "final_score"; "why"] in
  NoDup names
  /\ Forall2
       (fun r line =>
          map fst line = names
          /\ (forall v, In ("final_score", v) line <-> v = CNum (score r))
          /\ In ("title", title (record r)) line
          /\ In ("why", why (record r)) line)
       recs view.
Proof.
  intros view names. split.
  - subst names. destruct (isin "kind" df_columns);
      repeat constructor; simpl; intuition discriminate.
  - subst view names. unfold show_cols. rewrite isin_app.
    replace (isin "kind" ["calorie_fit"; "score"]) with false by reflexivity.
    rewrite orb_false_r.
    induction recs as [|r recs IH]; simpl; [constructor|].
    constructor; [|exact IH].
    destruct (isin "kind" df_columns); simpl.
    + split; [reflexivity|]. split; [|tauto].
      intros v. split.
      * intros H. repeat (destruct H as [H | H]; [try discriminate|]);
          try contradiction. injection H as <-. reflexivity.
      * intros ->. do 7 right. left. reflexivity.
    + split; [reflexivity|]. split; [|tauto].
      intros v. split.
      * intros H. repeat (destruct H as [H | H]; [try discriminate|]);
          try contradiction. injection H as <-. reflexivity.
      * intros ->. do 6 right. left. reflexivity.
Qed.

(** ** Asking for more rows *)

(** X19.  Without a [kind] column, asking for more rows only adds rows at
    the end: for [0 <= n1 <= n2] the result for [top_n = n1] is the
    beginning of the result for [top_n = n2]. *)
Theorem recommend_prefix_without_kind (df : DataFrame) (meal : string)
  (calories_max protein_min sodium_max n1 n2 : Z) :
  isin "kind" (columns df) = false ->
  0 <= n1 <= n2 ->
  exists more,
    recommend df meal calories_max protein_min sodium_max n2
    = (recommend df meal calories_max protein_min sodium_max n1 ++ more)%list.
Proof.
  intros Hk Hn. rewrite !recommend_without_kind by assumption.
  set (pool := sorted_pool df meal calories_max protein_min sodium_max).
  unfold head.
  destruct (Z.leb_spec 0 n1); [|lia]. destruct (Z.leb_spec 0 n2); [|lia].
  exists (skipn (Z.to_nat n1) (firstn (Z.to_nat n2) pool)).
  rewrite <- (firstn_skipn (Z.to_nat n1) (firstn (Z.to_nat n2) pool)) at 1.
  rewrite firstn_firstn.
  replace (Nat.min (Z.to_nat n1) (Z.to_nat n2)) with (Z.to_nat n1) by lia.
  reflexivity.
Qed.

End App.

(* ================================================================== *)
(** * The properties on sample inputs *)
(* ================================================================== *)

(** The properties are applied to the sample inputs, with [ascii_text] for
    the case mapping. *)
#[global] Existing Instance ascii_text.

Lemma recommend_at_most_top_n_witness :
  0 <= 1 /\
  Z.of_nat (List.length (recommend table_two_kinds "either" 700 20 1200 1))
  <= 1.
Proof.
  split; [lia | apply (recommend_at_most_top_n table_two_kinds); lia].
Defined.

Lemma recommend_slot_filter_witness :
  (lower (strip (nbsp ++ "Suhoor ")) = "suhoor" /\
   Forall
     (fun r =>
        (meal_slot (record r) = "suhoor" \/ meal_slot (record r) = "either")
        /\ meal_slot (record r) <> "iftar")
     (recommend table_ab (nbsp ++ "Suhoor ") 2000 0 6000 5))
  /\
  (lower (strip "IFTAR") = "iftar" /\
   Forall
     (fun r =>
        (meal_slot (record r) = "iftar" \/ meal_slot (record r) = "either")
        /\ meal_slot (record r) <> "suhoor")
     (recommend table_ab "IFTAR" 2000 0 6000 5))
  /\
  (lower (strip "dinner") <> "suhoor" /\ lower (strip "dinner") <> "iftar" /\
   4 * Z.of_nat (List.length (rows table_ab)) <= 8 /\
   survivors table_ab "dinner" 2000 0 6000
   = filter (bounds_mask 2000 0 6000) (rows table_ab)
   /\ recommend table_ab "dinner" 2000 0 6000 8
      = recommend table_ab "either" 2000 0 6000 8
   /\ (exists r,
          In r (recommend table_ab "dinner" 2000 0 6000 8)
          /\ record r = meal_row "A" 500 30 500 "suhoor" None)
   /\ (exists r,
          In r (recommend table_ab "dinner" 2000 0 6000 8)
          /\ record r = meal_row "B" 900 10 2000 "iftar" None)).
Proof.
  split; [|split].
  - split; [vm_compute; reflexivity|].
    apply (proj1 (recommend_slot_filter table_ab (nbsp ++ "Suhoor ")
                    2000 0 6000 5)).
    vm_compute. reflexivity.
  - split; [vm_compute; reflexivity|].
    apply (proj1 (proj2
             (recommend_slot_filter table_ab "IFTAR" 2000 0 6000 5))).
    vm_compute. reflexivity.
  - assert (Hs : lower (strip "dinner") <> "suhoor")
      by (vm_compute; discriminate).
    assert (Hi : lower (strip "dinner") <> "iftar")
      by (vm_compute; discriminate).
    assert (Hn : 4 * Z.of_nat (List.length (rows table_ab)) <= 8)
      by (simpl; lia).
    split; [exact Hs|]. split; [exact Hi|]. split; [exact Hn|].
    destruct (proj2 (proj2
                (recommend_slot_filter table_ab "dinner" 2000 0 6000 8))
                Hs Hi) as (H1 & H2 & H3).
    split; [exact H1|]. split; [exact H2|].
    split; apply H3;
      solve [exact Hn | simpl; auto | vm_compute; reflexivity].
Defined.

Lemma recommend_empty_when_no_survivor_witness :
  (fits_float 400 = true /\ fits_float 20 = true /\ fits_float 1200 = true /\
   survivors table_ab "suhoor" 400 20 1200 = [] /\
   recommend_checked table_ab "suhoor" 400 20 1200 5 = Ok [])
  /\
  (Forall (fun m => ge (protein m) (of_int 31) = false) (rows table_ab) /\
   survivors table_ab "suhoor" 700 31 1200 = [] /\
   recommend_checked table_ab "suhoor" 700 31 1200 5 = Ok [])
  /\
  (Forall (fun m => in_range 0 (protein m) 200) (rows table_ab) /\
   survivors table_ab "suhoor" 700 1000 1200 = [] /\
   recommend_checked table_ab "suhoor" 700 1000 1200 5 = Ok [])
  /\
  (fits_float (2 ^ 1024) = false /\
   exists e,
     recommend_checked table_ab "suhoor" (2 ^ 1024) 1000 1200 5 = Raise e).
Proof.
  split; [|split; [|split]].
  - split; [vm_compute; reflexivity|]. split; [vm_compute; reflexivity|].
    split; [vm_compute; reflexivity|].
    split; [vm_compute; reflexivity|].
    apply (proj1 (recommend_empty_when_no_survivor
                    table_ab "suhoor" 400 20 1200 5));
      vm_compute; reflexivity.
  - assert (H : Forall (fun m => ge (protein m) (of_int 31) = false)
                       (rows table_ab))
      by (vm_compute; repeat constructor).
    split; [exact H|].
    apply (proj1 (proj2 (recommend_empty_when_no_survivor
                           table_ab "suhoor" 700 31 1200 5)));
      solve [exact H | vm_compute; reflexivity].
  - assert (H : Forall (fun m => in_range 0 (protein m) 200) (rows table_ab)).
    { repeat (apply Forall_cons; [vm_compute; split; reflexivity|]).
      apply Forall_nil. }
    split; [exact H|].
    pose proof (recommend_empty_when_no_survivor
                  table_ab "suhoor" 700 20 1200 5) as T.
    destruct T as (_ & _ & T & _).
    apply T; solve [exact H | vm_compute; reflexivity].
  - assert (H : fits_float (2 ^ 1024) = false) by (vm_compute; reflexivity).
    split; [exact H|].
    pose proof (recommend_empty_when_no_survivor
                  table_ab "suhoor" (2 ^ 1024) 1000 1200 5) as T.
    destruct T as (_ & _ & _ & _ & T). apply T. left. exact H.
Defined.

Lemma recommend_nonempty_witness :
  1 <= 4 /\
  survivors table_two_kinds "iftar" 700 20 1200 <> [] /\
  1 <= Z.max 1 (4 / 4) /\
  (1 <= List.length (recommend table_two_kinds "iftar" 700 20 1200 4))%nat.
Proof.
  assert (H : survivors table_two_kinds "iftar" 700 20 1200 <> [])
    by (vm_compute; discriminate).
  split; [lia|]. split; [exact H|].
  apply (recommend_nonempty table_two_kinds "iftar" 700 20 1200 4);
    [lia | exact H].
Defined.

Lemma recommend_sorted_by_score_witness :
  let out := recommend table_two_kinds "suhoor" 700 20 1200 8 in
  Forall (fun r => isna (score r) = false) out
  /\ StronglySorted score_ge out
  /\ List.length out = 4%nat.
Proof.
  intros out.
  assert (H : Forall (fun r => isna (score r) = false) out)
    by (vm_compute; repeat constructor).
  split; [exact H|]. split; [|vm_compute; reflexivity].
  apply (recommend_sorted_by_score table_two_kinds "suhoor" 700 20 1200 8).
  exact H.
Defined.

Lemma recommend_diversification_witness :
  let pool := sorted_pool table_two_kinds "either" 700 20 1200 in
  let out := recommend table_two_kinds "either" 700 20 1200 4 in
  isin "kind" (columns table_two_kinds) = true
  /\ StronglySorted ranked_above pool
  /\ StronglySorted ranked_above out
  /\ (forall k, Z.of_nat (List.length (of_kind k out)) <= Z.max 1 (4 / 4))
  /\ List.length out = 2%nat /\ (List.length out <= 2)%nat.
Proof.
  intros pool out.
  pose proof (recommend_diversification table_two_kinds "either" 700 20 1200 4
                eq_refl) as H.
  cbv zeta in H.
  destruct H as (_ & Hpool & _ & _ & _ & _ & _ & Hout & Hcap & Htwo).
  split; [reflexivity|]. split; [exact Hpool|]. split; [exact Hout|].
  split; [exact Hcap|].
  apply (Htwo (Some "soup") (Some "salad")).
  - reflexivity.
  - discriminate.
  - vm_compute. repeat apply Forall_cons; try apply Forall_nil; simpl; auto.
  - vm_compute. reflexivity.
  - vm_compute. reflexivity.
Defined.

Lemma calorie_fit_clamped_witness :
  let out := recommend table_ab "suhoor" 500 20 1200 5 in
  let row_a := meal_row "A" 500 30 500 "suhoor" None in
  recommend_checked table_ab "suhoor" 500 20 1200 5 = Ok out
  /\ In row_a (survivors table_ab "suhoor" 500 20 1200)
  /\ 4 * Z.of_nat (List.length (survivors table_ab "suhoor" 500 20 1200)) <= 5
  /\ (exists r,
         In r out /\ record r = row_a
         /\ calorie_fit r = calorie_fit_spec (calories row_a) 500)
  /\ Forall
       (fun r => calories (record r) = of_int 500 -> calorie_fit r = lit_1_0)
       out
  /\ (exists d e, of_int (Z.max 500 1) = S754_finite false d e).
Proof.
  intros out row_a.
  assert (Hcall : recommend_checked table_ab "suhoor" 500 20 1200 5 = Ok out)
    by (vm_compute; reflexivity).
  assert (Hin : In row_a (survivors table_ab "suhoor" 500 20 1200))
    by (vm_compute; auto).
  assert (Hn : 4 * Z.of_nat (List.length
                               (survivors table_ab "suhoor" 500 20 1200))
               <= 5)
    by (vm_compute; discriminate).
  pose proof (calorie_fit_clamped table_ab "suhoor" 500 20 1200 5 out Hcall)
    as H.
  cbv zeta in H. destruct H as (Hrows & Hall & _ & Hdiv & _).
  split; [exact Hcall|]. split; [exact Hin|]. split; [exact Hn|].
  split; [exact (Hall row_a 5 Hin Hn)|].
  split; [|exact Hdiv].
  eapply Forall_impl; [|exact Hrows]. intros r (_ & _ & H & _). exact H.
Defined.

Lemma prepared_table_invariant_witness :
  (exists df,
      prepare_for_app no_parse nan_str raw_sample = Ok df
      /\ Forall prepared_row (rows df)
      /\ map meal_slot (rows df) = ["suhoor"; "either"])
  /\ (exists df,
         prepare_for_app no_parse nan_str raw_with_kind = Ok df
         /\ Forall prepared_row (rows df)
         /\ map meal_slot (rows df) = ["iftar"; "either"]).
Proof.
  split.
  - eexists. split; [vm_compute; reflexivity|].
    split; [|vm_compute; reflexivity].
    apply (prepared_table_invariant no_parse nan_str raw_sample).
    vm_compute. reflexivity.
  - eexists. split; [vm_compute; reflexivity|].
    split; [|vm_compute; reflexivity].
    apply (prepared_table_invariant no_parse nan_str raw_with_kind).
    vm_compute. reflexivity.
Defined.



Lemma calorie_fit_in_unit_interval_witness :
  Z.abs 700 < 2 ^ 53 /\
  Forall
    (fun r => isna (calorie_fit r) = false /\ in_range 0 (calorie_fit r) 1)
    (recommend table_two_kinds "suhoor" 700 20 1200 8).
Proof.
  split; [reflexivity|].
  apply (calorie_fit_in_unit_interval table_two_kinds "suhoor" 700 20 1200 8).
  reflexivity.
Defined.

Lemma finite_scores_sorted_witness :
  let out := recommend table_two_kinds "either" 700 20 1200 8 in
  Z.abs 700 < 2 ^ 53
  /\ Forall (fun m => is_finite (final_score m) = true) (rows table_two_kinds)
  /\ Forall (fun r => isna (score r) = false) out
  /\ StronglySorted score_ge out.
Proof.
  intros out.
  assert (H : Forall (fun m => is_finite (final_score m) = true)
                     (rows table_two_kinds))
    by (vm_compute; repeat constructor).
  split; [reflexivity|]. split; [exact H|].
  apply (finite_scores_sorted table_two_kinds "either" 700 20 1200 8);
    [reflexivity | exact H].
Defined.

Lemma recommend_top_n_without_kind_witness :
  let passing := survivors table_ab "either" 2000 0 6000 in
  let out := recommend table_ab "either" 2000 0 6000 1 in
  isin "kind" (columns table_ab) = false /\ 0 <= 1 /\
  List.length passing = 2%nat /\
  exists rest,
    Permutation (out ++ rest) (map (add_scores 2000) passing)
    /\ (forall a b, In a out -> In b rest -> ranked_above a b)
    /\ List.length out = Nat.min (Z.to_nat 1) (List.length passing).
Proof.
  intros passing out. split; [reflexivity|]. split; [lia|].
  split; [vm_compute; reflexivity|].
  apply (recommend_top_n_without_kind table_ab "either" 2000 0 6000 1);
    [reflexivity | lia].
Defined.

Lemma recommend_best_first_witness :
  1 <= 4 /\ survivors table_two_kinds "either" 700 20 1200 <> [] /\
  exists x rest,
    recommend table_two_kinds "either" 700 20 1200 4 = x :: rest
    /\ forall m,
         In m (survivors table_two_kinds "either" 700 20 1200) ->
         ranked_above x (add_scores 700 m).
Proof.
  assert (H : survivors table_two_kinds "either" 700 20 1200 <> [])
    by (vm_compute; discriminate).
  split; [lia|]. split; [exact H|].
  apply (recommend_best_first table_two_kinds "either" 700 20 1200 4);
    [lia | exact H].
Defined.

Lemma recommend_length_with_kind_witness :
  isin "kind" (columns table_two_kinds) = true /\ 0 <= 20 /\
  List.length (kind_keys (sorted_pool table_two_kinds "either" 700 20 1200))
  = 2%nat /\
  (List.length (recommend table_two_kinds "either" 700 20 1200 20)
   <= 2 * Z.to_nat (Z.max 1 (20 / 4)))%nat.
Proof.
  assert (Hk : List.length
                 (kind_keys (sorted_pool table_two_kinds "either" 700 20 1200))
               = 2%nat)
    by (vm_compute; reflexivity).
  split; [reflexivity|]. split; [lia|]. split; [exact Hk|].
  pose proof (recommend_length_with_kind table_two_kinds "either" 700 20 1200
                20 eq_refl ltac:(lia)) as H.
  cbv zeta in H. destruct H as [_ H].
  rewrite Hk in H. exact H.
Defined.

Lemma recommend_nonpositive_top_n_witness :
  -1 < 0 /\ isin "kind" (columns table_ab) = false /\
  List.length (recommend table_ab "either" 2000 0 6000 (-1))
  = (List.length (survivors table_ab "either" 2000 0 6000) - 1)%nat /\
  List.length (recommend table_ab "either" 2000 0 6000 (-1)) = 1%nat.
Proof.
  split; [lia|]. split; [reflexivity|]. split; [|vm_compute; reflexivity].
  apply (proj2 (recommend_nonpositive_top_n table_ab "either" 2000 0 6000
                  (-1)));
    [lia | reflexivity].
Defined.

Lemma prepared_frame_columns_witness :
  exists df,
    prepare_for_app no_parse nan_str raw_sample = Ok df
    /\ NoDup (raw_columns raw_sample)
    /\ NoDup (columns df)
    /\ Forall (fun c => In c (columns df))
              (required ++ ["meal_slot"; "why"; "final_score"])%list.
Proof.
  eexists. split; [cbv; reflexivity|].
  assert (Hnd : NoDup (raw_columns raw_sample)).
  { simpl. repeat constructor; simpl; intuition discriminate. }
  split; [exact Hnd|].
  pose proof (prepared_frame_columns no_parse nan_str raw_sample _ eq_refl)
    as (_ & Hall & _ & Hno & _).
  split; [apply Hno, Hnd | exact Hall].
Defined.

Lemma prepared_rows_kept_witness :
  exists df,
    prepare_for_app no_parse nan_str raw_sample = Ok df
    /\ List.length (rows df) = 2%nat
    /\ (List.length (rows df) <= List.length (raw_rows raw_sample))%nat.
Proof.
  eexists. split; [cbv; reflexivity|]. split; [cbv; reflexivity|].
  apply (prepared_rows_kept no_parse nan_str raw_sample). cbv. reflexivity.
Defined.


Lemma load_raw_strips_headers_witness :
  let csv :=
    {| raw_columns := [" title"; "calories "; "protein"; "	fat";
                       nbsp ++ "sodium"];
       raw_rows := [] |} in
  (forall c, In c required ->
             exists h, In h (raw_columns csv) /\ strip h = c)
  /\ (forall c,
        In c (numeric_columns ++ ["meal_slot"; "kind"])%list ->
        repeated c (map strip (raw_columns csv)) = false)
  /\ (exists df, prepare_for_app no_parse nan_str (load_raw csv) = Ok df)
  /\ (exists e, prepare_for_app no_parse nan_str csv = Raise e)
  /\ (exists e,
         prepare_for_app no_parse nan_str (load_raw csv_padded) = Raise e).
Proof.
  intros csv.
  assert (H : forall c, In c required ->
                        exists h, In h (raw_columns csv) /\ strip h = c).
  { intros c Hc. simpl in Hc.
    destruct Hc as [<- | [<- | [<- | [<- | [<- | []]]]]].
    - exists " title". split; [simpl; tauto | vm_compute; reflexivity].
    - exists "calories ". split; [simpl; tauto | vm_compute; reflexivity].
    - exists "protein". split; [simpl; tauto | vm_compute; reflexivity].
    - exists "	fat". split; [simpl; tauto | vm_compute; reflexivity].
    - exists (nbsp ++ "sodium").
      split; [simpl; tauto | vm_compute; reflexivity]. }
  assert (Hrep : forall c,
             In c (numeric_columns ++ ["meal_slot"; "kind"])%list ->
             repeated c (map strip (raw_columns csv)) = false).
  { intros c Hc. simpl in Hc.
    destruct Hc as [<- | [<- | [<- | [<- | [<- | [<- | []]]]]]];
      vm_compute; reflexivity. }
  split; [exact H|]. split; [exact Hrep|]. split; [|split].
  - apply (proj2 (proj2 (proj2 (load_raw_strips_headers no_parse nan_str
                                  csv)))).
    split; [exact H | exact Hrep].
  - eexists. vm_compute. reflexivity.
  - eexists. vm_compute. reflexivity.
Defined.

Lemma do_login_refuses_blank_witness :
  blank (nbsp ++ " ")
  /\ do_login (Some (nbsp ++ " ")) sample_session
     = (sample_session, [StError "لازم تكتب اسمك."])
  /\ ~ blank (nbsp ++ "Mona ")
  /\ do_login (Some (nbsp ++ "Mona ")) initial_session
     = ({| logged_in := true; username := "Mona" |}, []).
Proof.
  assert (Hb : blank (nbsp ++ " ")).
  { exists [utf8 [194; 160]%nat; utf8 [32]%nat]. split; [|reflexivity].
    repeat constructor; vm_compute; tauto. }
  assert (Hn : ~ blank (nbsp ++ "Mona ")).
  { intros H. apply strip_empty_iff in H. vm_compute in H. discriminate. }
  split; [exact Hb|]. split; [|split; [exact Hn|]].
  - apply (proj1 (do_login_refuses_blank (Some (nbsp ++ " ")) sample_session)).
    exact Hb.
  - apply (proj1 (proj2 (do_login_refuses_blank (Some (nbsp ++ "Mona "))
                           initial_session))).
    exact Hn.
Defined.

Lemma ensure_sheet_header_effects_witness :
  let env := sample_env [" Timestamp"; "USERNAME"; "meal"; "calories_max";
                         "protein_min"; "sodium_max"; "top_n";
                         "results_titles" ++ nbsp] raw_sample in
  let bad := sample_env ["timestamp"; "username"] raw_sample in
  secrets env = inl [(SECRETS_KEY, "{}")]
  /\ lookup SECRETS_KEY [(SECRETS_KEY, "{}")] = Some "{}"
  /\ fst (ensure_sheet_header env) = []
  /\ fst (ensure_sheet_header bad) = [SheetUpdate "A1:H1" [LOG_COLUMNS]].
Proof.
  intros env bad. split; [reflexivity|]. split; [reflexivity|]. split.
  - apply (proj1 (proj2 (ensure_sheet_header_effects env)) _ "{}" _ eq_refl
             eq_refl eq_refl eq_refl).
    vm_compute. reflexivity.
  - apply (proj1 (proj2 (ensure_sheet_header_effects bad)) _ "{}" _ eq_refl
             eq_refl eq_refl eq_refl).
    simpl. discriminate.
Defined.

Lemma request_effects_discipline_witness :
  let effs :=
    page_recs_run no_parse nan_str (sample_env LOG_COLUMNS raw_sample)
                  sample_session "either" 700 0 1200 5 in
  In (StSuccess "تم تسجيل الطلب في Google Sheet.") effs
  /\ (exists row, In (SheetAppendRow row) effs)
  /\ (forall m, ~ In (StError m) effs).
Proof.
  intros effs.
  assert (H : In (StSuccess "تم تسجيل الطلب في Google Sheet.") effs)
    by (vm_compute; repeat (first [left; reflexivity | right])).
  split; [exact H|].
  pose proof (request_effects_discipline no_parse nan_str
                (sample_env LOG_COLUMNS raw_sample) sample_session "either"
                700 0 1200 5) as T.
  cbv zeta in T. destruct T as (_ & _ & T & _).
  exact (T _ H).
Defined.


Lemma request_failures_witness :
  let no_secret :=
    {| secrets := inl [];
       open_worksheet := fun _ => None;
       row_values_1 := inl LOG_COLUMNS;
       update_raises := None;
       append_row_raises := None;
       read_csv := fun _ => inl raw_sample;
       now := "" |} in
  let env := sample_env ["old header"] raw_no_sodium in
  lookup SECRETS_KEY [] = None
  /\ (exists msg,
         page_recs_run no_parse nan_str no_secret sample_session "iftar"
                       700 20 1200 10
         = [StError ("حصل خطأ: " ++ msg)])
  /\ first_missing required (raw_columns (load_raw raw_no_sodium))
     = Some "sodium"
  /\ page_recs_run no_parse nan_str env sample_session "iftar" 700 20 1200 10
     = [SheetUpdate "A1:H1" [LOG_COLUMNS];
        StError ("حصل خطأ: " ++ missing_column_message ++ "sodium")].
Proof.
  intros no_secret env. split; [reflexivity|]. split.
  - apply (proj1 (proj2 (request_failures no_parse nan_str no_secret
                           sample_session "iftar" 700 20 1200 10))
             [] eq_refl).
    reflexivity.
  - split; [vm_compute; reflexivity|].
    apply (proj2 (proj2 (proj2 (request_failures no_parse nan_str env
                                  sample_session "iftar" 700 20 1200 10)))
             [(SECRETS_KEY, "{}")] "{}" ["old header"] raw_no_sodium
             "sodium");
      solve [reflexivity | vm_compute; reflexivity].
Defined.

Lemma recommend_prefix_without_kind_witness :
  isin "kind" (columns table_ab) = false /\ 0 <= 1 <= 2 /\
  exists more,
    recommend table_ab "either" 2000 0 6000 2
    = (recommend table_ab "either" 2000 0 6000 1 ++ more)%list.
Proof.
  split; [reflexivity|]. split; [lia|].
  apply (recommend_prefix_without_kind table_ab "either" 2000 0 6000 1 2);
    [reflexivity | lia].
Defined.
